(** * Workflow synchronisation

    A shallow embedding of the server route [/api/workflows/sync]
    (apps/sim/app/api/workflows/sync/route.ts) and of the client workflow
    registry store (workspace switch and deployment status), with the
    properties the specification states about them.

    Conventions.  A request handler is a computation over a [World]: the
    database tables, the module-level membership cache, the number of clock
    readings taken so far and the trace of database accesses.  Logging is
    not modelled.  [Date.now()] and [new Date()] read the clock of the
    environment, one reading per call, in the order the source makes them. *)

From Stdlib Require Import ZArith List Bool Floats Lia Sorted Permutation.
From stdpp Require Import gmap strings list.

Local Open Scope string_scope.
Local Open Scope list_scope.
Local Set Warnings "-register-all".

(** ** JavaScript values *)

(** A value of type [T | null | undefined]. *)
Inductive Nullish (A : Type) : Type :=
| JsUndefined
| JsNull
| JsValue (a : A).
Arguments JsUndefined {A}.
Arguments JsNull {A}.
Arguments JsValue {A} a.

(** [T | undefined]: an optional property, [None] is [undefined]. *)
Definition of_optional {A} (o : option A) : Nullish A :=
  match o with Some a => JsValue a | None => JsUndefined end.

(** [T | null]: a nullable column, [None] is [null]. *)
Definition of_nullable {A} (o : option A) : Nullish A :=
  match o with Some a => JsValue a | None => JsNull end.

(** [a === b], with [eqb] deciding equality of two proper values. *)
Definition strict_eq {A} (eqb : A -> A -> bool) (a b : Nullish A) : bool :=
  match a, b with
  | JsUndefined, JsUndefined => true
  | JsNull, JsNull => true
  | JsValue x, JsValue y => eqb x y
  | _, _ => false
  end.

(** [a !== b]. *)
Definition strict_neq {A} (eqb : A -> A -> bool) (a b : Nullish A) : bool :=
  negb (strict_eq eqb a b).

(** Truthiness: [null] and [undefined] are falsy, a proper value is judged
    by [tr]. *)
Definition truthy {A} (tr : A -> bool) (a : Nullish A) : bool :=
  match a with JsValue x => tr x | _ => false end.

Definition string_truthy (s : string) : bool := negb (String.eqb s "").
Definition bool_truthy (b : bool) : bool := b.
Definition object_truthy {A} (_ : A) : bool := true.

(** [a || b]. *)
Definition js_or {A} (tr : A -> bool) (a b : Nullish A) : Nullish A :=
  if truthy tr a then a else b.

(** [a || null] read back as a nullable value. *)
Definition or_null {A} (tr : A -> bool) (a : Nullish A) : option A :=
  match a with
  | JsValue x => if tr x then Some x else None
  | _ => None
  end.

(** A [Date] object: a time value in milliseconds, or an invalid date. *)
Inductive JsDate : Type :=
| Date (ms : Z)
| InvalidDate.

(** The numbers [getTime] returns. *)
Inductive JsNumber : Type :=
| Num (z : Z)
| NaN.

Definition getTime (d : JsDate) : JsNumber :=
  match d with Date ms => Num ms | InvalidDate => NaN end.

(** [===] on numbers: [NaN] equals nothing. *)
Definition number_eqb (a b : JsNumber) : bool :=
  match a, b with
  | Num x, Num y => Z.eqb x y
  | _, _ => false
  end.

(** A value read from a JSON text: what [req.json()] returns and what a
    json column holds. *)
Inductive Json : Type :=
| JNull
| JBool (b : bool)
| JNum (f : float)
| JStr (s : string)
| JArr (xs : list Json)
| JObj (fields : list (string * Json)).

Definition json_truthy (j : Json) : bool :=
  match j with
  | JNull => false
  | JBool b => b
  | JNum f => negb (PrimFloat.eqb f PrimFloat.zero || PrimFloat.is_nan f)
  | JStr s => string_truthy s
  | JArr _ | JObj _ => true
  end.

(** [obj[key]] on the entries of an object. *)
Fixpoint property {A} (fields : list (string * A)) (key : string) : option A :=
  match fields with
  | [] => None
  | (k, v) :: rest => if String.eqb k key then Some v else property rest key
  end.

(** ** Zod schemas

    A schema reads a value found at [path] ([None] when the property is
    missing) and returns the parsed output or the issues it raised.  An
    issue keeps its code and its path. *)

Record ZodIssue : Type := { issue_code : string; issue_path : list string }.

Inductive ZodResult (A : Type) : Type :=
| ZodOk (a : A)
| ZodInvalid (issues : list ZodIssue).
Arguments ZodOk {A} a.
Arguments ZodInvalid {A} issues.

Definition Schema (A : Type) : Type := list string -> option Json -> ZodResult A.

Definition zod_map {A B} (f : A -> B) (r : ZodResult A) : ZodResult B :=
  match r with ZodOk a => ZodOk (f a) | ZodInvalid e => ZodInvalid e end.

(** Every property of an object is parsed; the issues of all add up. *)
Definition zod_ap {A B} (f : ZodResult (A -> B)) (x : ZodResult A) : ZodResult B :=
  match f, x with
  | ZodOk g, ZodOk a => ZodOk (g a)
  | ZodOk _, ZodInvalid e => ZodInvalid e
  | ZodInvalid e, ZodOk _ => ZodInvalid e
  | ZodInvalid e1, ZodInvalid e2 => ZodInvalid (e1 ++ e2)
  end.

Notation "f <&> x" := (zod_ap f x) (at level 50, left associativity).

Definition issue {A} (code : string) (path : list string) : ZodResult A :=
  ZodInvalid [ {| issue_code := code; issue_path := path |} ].

Definition z_string : Schema string := fun path v =>
  match v with Some (JStr s) => ZodOk s | _ => issue "invalid_type" path end.

Definition z_number : Schema float := fun path v =>
  match v with
  | Some (JNum f) => if PrimFloat.is_nan f then issue "invalid_type" path else ZodOk f
  | _ => issue "invalid_type" path
  end.

Definition z_boolean : Schema bool := fun path v =>
  match v with Some (JBool b) => ZodOk b | _ => issue "invalid_type" path end.

Definition z_optional {A} (s : Schema A) : Schema (option A) := fun path v =>
  match v with None => ZodOk None | Some _ => zod_map Some (s path v) end.

Definition z_nullable {A} (s : Schema A) : Schema (option A) := fun path v =>
  match v with Some JNull => ZodOk None | _ => zod_map Some (s path v) end.

(** [s.nullable().optional()]. *)
Definition z_nullish {A} (s : Schema A) : Schema (Nullish A) := fun path v =>
  zod_map (fun o => match o with
                    | None => JsUndefined
                    | Some None => JsNull
                    | Some (Some a) => JsValue a
                    end)
          (z_optional (z_nullable s) path v).

Definition z_default {A} (s : Schema A) (d : Json) : Schema A := fun path v =>
  match v with None => s path (Some d) | Some _ => s path v end.

Definition z_enum {A} (values : list (string * A)) : Schema A := fun path v =>
  match v with
  | Some (JStr s) =>
      match property values s with
      | Some a => ZodOk a
      | None => issue "invalid_enum_value" path
      end
  | _ => issue "invalid_type" path
  end.

(** The entries of a record Zod has parsed: it builds its output by
    assignment and leaves out the key [__proto__]. *)
Definition is_proto (key : string) : bool := String.eqb key "__proto__".

Definition kept_entries {A} (entries : list (string * A)) : list (string * A) :=
  List.filter (fun kv => negb (is_proto (fst kv))) entries.

(** [z.record(z.any())]: any object, its entries kept but for the key
    [__proto__]. *)
Definition z_record_any : Schema (list (string * Json)) := fun path v =>
  match v with
  | Some (JObj fields) => ZodOk (kept_entries fields)
  | _ => issue "invalid_type" path
  end.

(** [z.array(z.any())]. *)
Definition z_array_any : Schema (list Json) := fun path v =>
  match v with Some (JArr xs) => ZodOk xs | _ => issue "invalid_type" path end.

(** [z.record(z.string(), s)]: every entry of the object is parsed by [s]
    under its key, the entry under [__proto__] too; the output keeps the
    parsed entries but for the key [__proto__]. *)
Fixpoint record_entries {A} (s : Schema A) (path : list string)
    (fields : list (string * Json)) : ZodResult (list (string * A)) :=
  match fields with
  | [] => ZodOk []
  | (k, v) :: rest =>
      ZodOk (fun a tl => if is_proto k then tl else (k, a) :: tl)
        <&> s (path ++ [k]) (Some v)
        <&> record_entries s path rest
  end.

Definition z_record {A} (s : Schema A) : Schema (list (string * A)) := fun path v =>
  match v with
  | Some (JObj fields) => record_entries s path fields
  | _ => issue "invalid_type" path
  end.

(** [z.object({...})]: the value must be an object; [shape] parses its
    properties. *)
Definition z_object {A} (shape : list string -> list (string * Json) -> ZodResult A)
  : Schema A := fun path v =>
  match v with
  | Some (JObj fields) => shape path fields
  | _ => issue "invalid_type" path
  end.

(** [z.union([z.string(), z.date()])] on a JSON value: no JSON value is a
    [Date], so only a string passes. *)
Definition z_string_or_date : Schema string := fun path v =>
  match v with Some (JStr s) => ZodOk s | _ => issue "invalid_union" path end.

(** ** The payload of a sync request (route.ts, lines 12-51) *)

Inductive MarketplaceStatus : Type := owner | temp.

Record MarketplaceData : Type := {
  md_id : string;
  md_status : MarketplaceStatus
}.

(** The output of [WorkflowStateSchema].  Unknown keys of the input are
    stripped, so the parsed state has these properties and no other. *)
Record WorkflowState : Type := {
  s_blocks : list (string * Json);
  s_edges : list Json;
  s_loops : list (string * Json);
  s_parallels : list (string * Json);
  s_lastSaved : option float;
  s_isDeployed : option bool;
  s_deployedAt : option JsDate;
  s_isPublished : option bool;
  s_marketplaceData : Nullish MarketplaceData
}.

(** The output of [WorkflowSchema]. *)
Record Workflow : Type := {
  w_id : string;
  w_name : string;
  w_description : option string;
  w_color : option string;
  w_state : WorkflowState;
  w_marketplaceData : Nullish MarketplaceData;
  w_workspaceId : option string;
  w_folderId : Nullish string
}.

(** The output of [SyncPayloadSchema]: the entries of [workflows] in the
    order [Object.entries] lists them. *)
Record SyncPayload : Type := {
  p_workflows : list (string * Workflow);
  p_workspaceId : option string
}.

Definition MarketplaceDataSchema : Schema (Nullish MarketplaceData) :=
  z_nullish (z_object (fun path o =>
    ZodOk Build_MarketplaceData
      <&> z_string (path ++ ["id"]) (property o "id")
      <&> z_enum [("owner", owner); ("temp", temp)] (path ++ ["status"]) (property o "status"))).

Section Schemas.

(** [new Date(text)]. *)
Variable Date_parse : string -> JsDate.

Definition WorkflowStateSchema : Schema WorkflowState :=
  z_object (fun path o =>
    ZodOk Build_WorkflowState
      <&> z_record_any (path ++ ["blocks"]) (property o "blocks")
      <&> z_array_any (path ++ ["edges"]) (property o "edges")
      <&> z_default z_record_any (JObj []) (path ++ ["loops"]) (property o "loops")
      <&> z_default z_record_any (JObj []) (path ++ ["parallels"]) (property o "parallels")
      <&> z_optional z_number (path ++ ["lastSaved"]) (property o "lastSaved")
      <&> z_optional z_boolean (path ++ ["isDeployed"]) (property o "isDeployed")
      <&> zod_map (option_map Date_parse)
            (z_optional z_string_or_date (path ++ ["deployedAt"]) (property o "deployedAt"))
      <&> z_optional z_boolean (path ++ ["isPublished"]) (property o "isPublished")
      <&> MarketplaceDataSchema (path ++ ["marketplaceData"]) (property o "marketplaceData")).

Definition WorkflowSchema : Schema Workflow :=
  z_object (fun path o =>
    ZodOk Build_Workflow
      <&> z_string (path ++ ["id"]) (property o "id")
      <&> z_string (path ++ ["name"]) (property o "name")
      <&> z_optional z_string (path ++ ["description"]) (property o "description")
      <&> z_optional z_string (path ++ ["color"]) (property o "color")
      <&> WorkflowStateSchema (path ++ ["state"]) (property o "state")
      <&> MarketplaceDataSchema (path ++ ["marketplaceData"]) (property o "marketplaceData")
      <&> z_optional z_string (path ++ ["workspaceId"]) (property o "workspaceId")
      <&> z_nullish z_string (path ++ ["folderId"]) (property o "folderId")).

Definition SyncPayloadSchema : Schema SyncPayload :=
  z_object (fun path o =>
    ZodOk Build_SyncPayload
      <&> z_record WorkflowSchema (path ++ ["workflows"]) (property o "workflows")
      <&> z_optional z_string (path ++ ["workspaceId"]) (property o "workspaceId")).

(** [SyncPayloadSchema.parse(body)]. *)
Definition SyncPayloadSchema_parse (body : Json) : ZodResult SyncPayload :=
  SyncPayloadSchema [] (Some body).

End Schemas.

(** ** The database (the columns the route reads and writes) *)

Record WorkflowRow : Type := {
  r_id : string;
  r_userId : string;
  r_workspaceId : option string;
  r_folderId : option string;
  r_name : string;
  r_description : option string;
  r_color : option string;
  r_state : Json;
  r_marketplaceData : option Json;
  r_isDeployed : bool;
  r_deployedAt : option JsDate;
  r_deployedState : option Json;
  r_lastSynced : JsDate;
  r_createdAt : JsDate;
  r_updatedAt : JsDate
}.

Record MemberRow : Type := {
  m_workspaceId : string;
  m_userId : string;
  m_role : string
}.

(** The tables, and whether the database answers: with [db_fault = Some
    message] every query the route awaits rejects with that message. *)
Record Database : Type := {
  workflow_table : list WorkflowRow;
  workspace_table : list string;
  member_table : list MemberRow;
  db_fault : option string
}.

(** The value the route writes to the [state] column: the blob the
    normalized save returned, or the state object the client sent. *)
Inductive StateValue : Type :=
| BlobState (jsonBlob : Json)
| ClientState (state : WorkflowState).

(** The object passed to [db.insert(workflow).values]. *)
Record InsertValues : Type := {
  i_id : string;
  i_userId : string;
  i_workspaceId : Nullish string;
  i_folderId : Nullish string;
  i_name : string;
  i_description : Nullish string;
  i_color : Nullish string;
  i_state : StateValue;
  i_marketplaceData : Nullish MarketplaceData;
  i_isDeployed : bool;
  i_deployedAt : Nullish JsDate;
  i_deployedState : Nullish Json;
  i_lastSynced : JsDate;
  i_createdAt : JsDate;
  i_updatedAt : JsDate
}.

(** A value assigned to a column in the object passed to
    [db.update(workflow).set]. *)
Inductive ColumnValue : Type :=
| VString (s : Nullish string)
| VBool (b : bool)
| VDate (d : Nullish JsDate)
| VState (s : StateValue)
| VMarketplace (m : Nullish MarketplaceData)
| VJson (j : Nullish Json).

(** The writes to the workflow table the route builds: an insert, or an
    update of the rows whose id is [target]. *)
Inductive Operation : Type :=
| InsertWorkflow (values : InsertValues)
| UpdateWorkflow (data : gmap string ColumnValue) (target : string).

(** The graph handed to [saveWorkflowToNormalizedTables] and its answer. *)
Record NormalizedInput : Type := {
  n_blocks : list (string * Json);
  n_edges : list Json;
  n_loops : list (string * Json);
  n_parallels : list (string * Json);
  n_lastSaved : option float;
  n_isDeployed : option bool;
  n_deployedAt : option JsDate;
  n_deploymentStatuses : Nullish Json;
  n_hasActiveSchedule : Nullish Json;
  n_hasActiveWebhook : Nullish Json
}.

Record NormalizedResult : Type := {
  success : bool;
  jsonBlob : option Json;
  error : option string
}.

(** The selects of the route. *)
Inductive Query : Type :=
| WorkspaceById (workspaceId : string)
| MembershipOf (workspaceId userId : string)
| WorkflowsOfWorkspace (workspaceId : string)
| WorkflowsOfUser (userId : string)
| OneWorkflowOfWorkspace (workspaceId : string)
| OneWorkflowOfUser (userId : string).

(** What a handler does to the outside, in order. *)
Inductive Event : Type :=
| Queried (q : Query)
| NormalizedSave (id : string) (graph : NormalizedInput)
| Executed (op : Operation)
| SpawnedMigration (userId workspaceId : string).

Record CacheEntry : Type := { role : string; expires : Z }.

Record World : Type := {
  db : Database;
  workspaceMembershipCache : list (string * CacheEntry);
  ticks : nat;
  trace : list Event
}.

(** What the handlers take from their environment: the clock, the date
    parser and JSON serialiser of the JavaScript runtime, the JSON value a
    parsed state object serialises to, and the helper
    [saveWorkflowToNormalizedTables] of lib/workflows/db-helpers, which is
    not part of the files at hand. *)
Record Env : Type := {
  clock : nat -> Z;
  Date_parse : string -> JsDate;
  JSON_stringify : Json -> string;
  state_json : WorkflowState -> Json;
  saveWorkflowToNormalizedTables : string -> NormalizedInput -> NormalizedResult
}.

(** ** Computations that may throw *)

Inductive Exn : Type :=
| ZodError (issues : list ZodIssue)
| Error (message : string).

Inductive Outcome (A : Type) : Type :=
| Returned (a : A)
| Thrown (e : Exn).
Arguments Returned {A} a.
Arguments Thrown {A} e.

Definition M (A : Type) : Type := World -> Outcome A * World.

Definition ret {A} (a : A) : M A := fun w => (Returned a, w).

Definition bind {A B} (m : M A) (k : A -> M B) : M B := fun w =>
  match m w with
  | (Returned a, w') => k a w'
  | (Thrown e, w') => (Thrown e, w')
  end.

Definition throw {A} (e : Exn) : M A := fun w => (Thrown e, w).

(** [try { m } catch (e) { handler e }]. *)
Definition try_catch {A} (m : M A) (handler : Exn -> M A) : M A := fun w =>
  match m w with
  | (Returned a, w') => (Returned a, w')
  | (Thrown e, w') => handler e w'
  end.

Notation "'let!' x ':=' m 'in' k" := (bind m (fun x => k))
  (at level 10, x name, m at level 100, k at level 200).
Notation "'run' m 'then' k" := (bind m (fun _ => k))
  (at level 10, m at level 100, k at level 200).

(** A world with one component replaced. *)
Definition with_trace (t : list Event) (w : World) : World :=
  {| db := db w; workspaceMembershipCache := workspaceMembershipCache w;
     ticks := ticks w; trace := t |}.

Definition with_ticks (n : nat) (w : World) : World :=
  {| db := db w; workspaceMembershipCache := workspaceMembershipCache w;
     ticks := n; trace := trace w |}.

Definition with_cache (c : list (string * CacheEntry)) (w : World) : World :=
  {| db := db w; workspaceMembershipCache := c; ticks := ticks w; trace := trace w |}.

Definition with_table (t : list WorkflowRow) (w : World) : World :=
  {| db := {| workflow_table := t; workspace_table := workspace_table (db w);
              member_table := member_table (db w); db_fault := db_fault (db w) |};
     workspaceMembershipCache := workspaceMembershipCache w;
     ticks := ticks w; trace := trace w |}.

Definition get_world : M World := fun w => (Returned w, w).

Definition log (e : Event) : M unit := fun w =>
  (Returned tt, with_trace (trace w ++ [e]) w).

(** [Date.now()]. *)
Definition Date_now (E : Env) : M Z := fun w =>
  (Returned (clock E (ticks w)), with_ticks (S (ticks w)) w).

(** [new Date()]. *)
Definition new_Date (E : Env) : M JsDate :=
  let! t := Date_now E in ret (Date t).

Definition set_cache (c : list (string * CacheEntry)) : M unit := fun w =>
  (Returned tt, with_cache c w).

Definition set_workflow_table (t : list WorkflowRow) : M unit := fun w =>
  (Returned tt, with_table t w).

(** An awaited select: it is recorded, and it rejects when the database is
    at fault. *)
Definition select {A} (q : Query) (rows : Database -> list A) : M (list A) :=
  run log (Queried q) then
  let! w := get_world in
  match db_fault (db w) with
  | Some message => throw (Error message)
  | None => ret (rows (db w))
  end.

(** ** The membership cache (route.ts, lines 53-138)

    A JavaScript [Map]: entries with distinct keys, in insertion order. *)

Definition CACHE_TTL : Z := 60000.
Definition MAX_CACHE_SIZE : nat := 1000.

(** [map.set(key, value)]: a present key keeps its place. *)
Fixpoint map_set {A} (key : string) (value : A) (m : list (string * A))
  : list (string * A) :=
  match m with
  | [] => [(key, value)]
  | (k, v) :: rest =>
      if String.eqb k key then (key, value) :: rest
      else (k, v) :: map_set key value rest
  end.

(** [map.delete(key)]. *)
Definition map_delete {A} (key : string) (m : list (string * A)) : list (string * A) :=
  List.filter (fun kv => negb (String.eqb (fst kv) key)) m.

(** [new Map(entries)]. *)
Definition new_Map {A} (entries : list (string * A)) : list (string * A) :=
  fold_left (fun m kv => map_set (fst kv) (snd kv) m) entries [].

(** [entries.sort((a, b) => a[1].expires - b[1].expires)]: a stable sort by
    ascending expiry. *)
Fixpoint insert_by_expires (x : string * CacheEntry) (sorted : list (string * CacheEntry))
  : list (string * CacheEntry) :=
  match sorted with
  | [] => [x]
  | y :: rest =>
      if (expires (snd x) <=? expires (snd y))%Z then x :: y :: rest
      else y :: insert_by_expires x rest
  end.

Definition sort_by_expires (entries : list (string * CacheEntry))
  : list (string * CacheEntry) :=
  fold_right insert_by_expires [] entries.

Definition cleanupExpiredCacheEntries (E : Env) : M unit :=
  let! now := Date_now E in
  let! w := get_world in
  let live :=
    List.filter (fun kv => negb (expires (snd kv) <=? now)%Z) (workspaceMembershipCache w) in
  if (MAX_CACHE_SIZE <? length live)%nat then
    let entries := sort_by_expires live in
    let toRemove := firstn (length live - MAX_CACHE_SIZE) entries in
    set_cache (fold_left (fun m kv => map_delete (fst kv) m) toRemove live)
  else set_cache live.

Definition cacheKey (userId workspaceId : string) : string :=
  userId +:+ ":" +:+ workspaceId.

(** The rows of the membership select. *)
Definition membership_rows (workspaceId userId : string) (d : Database) : list MemberRow :=
  List.filter (fun m => String.eqb (m_workspaceId m) workspaceId
                        && String.eqb (m_userId m) userId)
              (member_table d).

(** Lines 101-104: the opportunistic cleanup. *)
Definition opportunistic_cleanup (E : Env) : M unit :=
  let! w := get_world in
  if (MAX_CACHE_SIZE / 2 <? length (workspaceMembershipCache w))%nat
  then cleanupExpiredCacheEntries E
  else ret tt.

(** Lines 115-137: ask the database, cache the role found; [null] when
    there is no membership or the query fails. *)
Definition query_membership (E : Env) (userId workspaceId : string) : M (option string) :=
  try_catch
    (let! rows := select (MembershipOf workspaceId userId)
                         (membership_rows workspaceId userId) in
     match rows with
     | [] => ret None
     | membership :: _ =>
         let! now := Date_now E in
         let! w := get_world in
         run set_cache (map_set (cacheKey userId workspaceId)
                          {| role := m_role membership; expires := (now + CACHE_TTL)%Z |}
                          (workspaceMembershipCache w)) then
         ret (Some (m_role membership))
     end)
    (fun _ => ret None).

(** The role of the user in the workspace, [None] for [null]. *)
Definition verifyWorkspaceMembership (E : Env) (userId workspaceId : string)
  : M (option string) :=
  run opportunistic_cleanup E then
  let! w := get_world in
  match property (workspaceMembershipCache w) (cacheKey userId workspaceId) with
  | Some cached =>
      let! now := Date_now E in
      if (now <? expires cached)%Z then ret (Some (role cached))
      else query_membership E userId workspaceId
  | None => query_membership E userId workspaceId
  end.

(** ** Responses *)

Inductive Body : Type :=
| ErrorBody (error : string) (code : option string) (message : option string)
| InvalidBody (error : string) (details : list ZodIssue)
| DataBody (data : list WorkflowRow)
| SuccessBody (elapsed : Z) (operations : nat) (workflows : nat).

Record Response : Type := { status : Z; body : Body }.

(** [session?.user?.id] when it is truthy. *)
Definition session_user (id : option string) : option string :=
  or_null string_truthy (of_optional id).

(** A workspace id that passes [if (workspaceId)]. *)
Definition given (workspaceId : option string) : option string :=
  or_null string_truthy (of_optional workspaceId).

Definition workspace_rows (workspaceId : string) (d : Database) : list string :=
  List.filter (String.eqb workspaceId) (workspace_table d).

Definition workflows_of_workspace (workspaceId : string) (d : Database) : list WorkflowRow :=
  List.filter (fun r => strict_eq String.eqb (of_nullable (r_workspaceId r)) (JsValue workspaceId))
              (workflow_table d).

Definition workflows_of_user (userId : string) (d : Database) : list WorkflowRow :=
  List.filter (fun r => String.eqb (r_userId r) userId) (workflow_table d).

Definition workspace_not_found : Response :=
  {| status := 404;
     body := ErrorBody "Workspace not found" (Some "WORKSPACE_NOT_FOUND") None |}.

Definition workspace_access_denied : Response :=
  {| status := 403;
     body := ErrorBody "Access denied to this workspace" (Some "WORKSPACE_ACCESS_DENIED") None |}.

Definition unauthorized : Response :=
  {| status := 401; body := ErrorBody "Unauthorized" None None |}.

(** ** GET (route.ts, lines 140-215) *)

Record GetRequest : Type := {
  get_session : option string;
  get_workspaceId : option string
}.

(** Lines 194-209. *)
Definition GET_workflows (E : Env) (userId : string) (workspaceId : option string)
  : M Response :=
  let! workflows :=
    match given workspaceId with
    | Some ws => select (WorkflowsOfWorkspace ws) (workflows_of_workspace ws)
    | None => select (WorkflowsOfUser userId) (workflows_of_user userId)
    end in
  let! finished := Date_now E in
  ret {| status := 200; body := DataBody workflows |}.

(** Lines 210-214: the answer to an error, with its message (GET raises
    no [ZodError]). *)
Definition GET_failed (E : Env) (e : Exn) : M Response :=
  let! finished := Date_now E in
  ret {| status := 500;
         body := ErrorBody (match e with Error message => message | ZodError _ => "" end)
                           None None |}.

Definition GET (E : Env) (req : GetRequest) : M Response :=
  let! startTime := Date_now E in
  try_catch
    (match session_user (get_session req) with
     | None => ret unauthorized
     | Some userId =>
         match given (get_workspaceId req) with
         | Some ws =>
             let! found := select (WorkspaceById ws) (workspace_rows ws) in
             if negb (0 <? length found)%nat then ret workspace_not_found
             else
               let! userRole := verifyWorkspaceMembership E userId ws in
               if negb (truthy string_truthy (of_nullable userRole))
               then ret workspace_access_denied
               else
                 run log (SpawnedMigration userId ws) then
                 GET_workflows E userId (get_workspaceId req)
         | None => GET_workflows E userId (get_workspaceId req)
         end
     end)
    (GET_failed E).

(** ** POST (route.ts, lines 272-561) *)

Record PostRequest : Type := {
  post_session : option string;
  (** [None]: the body is no JSON text and [req.json()] rejects. *)
  post_body : option Json
}.

Definition status_name (s : MarketplaceStatus) : string :=
  match s with owner => "owner" | temp => "temp" end.

Definition marketplace_json (m : MarketplaceData) : Json :=
  JObj [("id", JStr (md_id m)); ("status", JStr (status_name (md_status m)))].

(** The JSON value a written state is stored as. *)
Definition stored_state (E : Env) (v : StateValue) : Json :=
  match v with
  | BlobState j => j
  | ClientState s => state_json E s
  end.

(** Lines 381-385: a published workflow without marketplace data gets one
    with owner status. *)
Definition migrate_published (clientWorkflow : Workflow) : Workflow :=
  if truthy bool_truthy (of_optional (s_isPublished (w_state clientWorkflow)))
     && negb (truthy object_truthy (w_marketplaceData clientWorkflow))
  then {| w_id := w_id clientWorkflow;
          w_name := w_name clientWorkflow;
          w_description := w_description clientWorkflow;
          w_color := w_color clientWorkflow;
          w_state := w_state clientWorkflow;
          w_marketplaceData := JsValue {| md_id := w_id clientWorkflow; md_status := owner |};
          w_workspaceId := w_workspaceId clientWorkflow;
          w_folderId := w_folderId clientWorkflow |}
  else clientWorkflow.

(** Line 388. *)
Definition effectiveWorkspaceId (clientWorkflow : Workflow) (workspaceId : option string)
  : Nullish string :=
  js_or string_truthy (of_optional (w_workspaceId clientWorkflow)) (of_optional workspaceId).

(** Lines 391-402.  The parsed state has no [deploymentStatuses],
    [hasActiveSchedule] or [hasActiveWebhook]: reading them gives
    [undefined]. *)
Definition normalized_input (clientWorkflow : Workflow) : NormalizedInput :=
  let state := w_state clientWorkflow in
  {| n_blocks := s_blocks state;
     n_edges := s_edges state;
     n_loops := s_loops state;
     n_parallels := s_parallels state;
     n_lastSaved := s_lastSaved state;
     n_isDeployed := s_isDeployed state;
     n_deployedAt := s_deployedAt state;
     n_deploymentStatuses := js_or json_truthy JsUndefined (JsValue (JObj []));
     n_hasActiveSchedule := JsUndefined;
     n_hasActiveWebhook := JsUndefined |}.

(** Lines 405-408. *)
Definition stateToSave (normalizedResult : NormalizedResult) (clientWorkflow : Workflow)
  : StateValue :=
  match jsonBlob normalizedResult with
  | Some blob =>
      if success normalizedResult && json_truthy blob then BlobState blob
      else ClientState (w_state clientWorkflow)
  | None => ClientState (w_state clientWorkflow)
  end.

(** Lines 421-439. *)
Definition insert_values (userId : string) (clientWorkflow : Workflow)
    (workspaceId : option string) (state : StateValue) (now : JsDate) : InsertValues :=
  {| i_id := w_id clientWorkflow;
     i_userId := userId;
     i_workspaceId := effectiveWorkspaceId clientWorkflow workspaceId;
     i_folderId := of_nullable (or_null string_truthy (w_folderId clientWorkflow));
     i_name := w_name clientWorkflow;
     i_description := of_optional (w_description clientWorkflow);
     i_color := of_optional (w_color clientWorkflow);
     i_state := state;
     i_marketplaceData := of_nullable (or_null object_truthy (w_marketplaceData clientWorkflow));
     i_isDeployed :=
       truthy bool_truthy (of_optional (s_isDeployed (w_state clientWorkflow)));
     i_deployedAt :=
       of_nullable (or_null object_truthy (of_optional (s_deployedAt (w_state clientWorkflow))));
     i_deployedState := JsNull;
     i_lastSynced := now;
     i_createdAt := now;
     i_updatedAt := now |}.

Definition role_is (userRole : option string) (name : string) : bool :=
  strict_eq String.eqb (of_nullable userRole) (JsValue name).

(** Lines 443-445. *)
Definition canUpdate (dbWorkflow : WorkflowRow) (userId : string)
    (workspaceId : option string) (userRole : option string) : bool :=
  String.eqb (r_userId dbWorkflow) userId
  || (truthy string_truthy (of_optional workspaceId)
      && (role_is userRole "owner" || role_is userRole "admin" || role_is userRole "member")).

(** [JSON.stringify] of a nullable json column and of the client's
    marketplace data ([undefined] for [undefined]). *)
Definition stringify_column (E : Env) (j : option Json) : Nullish string :=
  JsValue (JSON_stringify E (match j with Some v => v | None => JNull end)).

Definition stringify_marketplace (E : Env) (m : Nullish MarketplaceData) : Nullish string :=
  match m with
  | JsUndefined => JsUndefined
  | JsNull => JsValue (JSON_stringify E JNull)
  | JsValue v => JsValue (JSON_stringify E (marketplace_json v))
  end.

(** [date ? new Date(date).getTime() : null]. *)
Definition time_of (d : option JsDate) : Nullish JsNumber :=
  of_nullable (option_map getTime d).

(** [if (changed) { updateData[key] = value; needsUpdate = true }]. *)
Definition assign (changed : bool) (key : string) (value : ColumnValue)
    (acc : bool * gmap string ColumnValue) : bool * gmap string ColumnValue :=
  if changed then (true, <[key := value]> (snd acc)) else acc.

Definition clientIsDeployed (clientWorkflow : Workflow) : bool :=
  truthy bool_truthy (of_optional (s_isDeployed (w_state clientWorkflow))).

Definition clientDeployedAt (clientWorkflow : Workflow) : option JsDate :=
  or_null object_truthy (of_optional (s_deployedAt (w_state clientWorkflow))).

(** Lines 455-513: [needsUpdate] and [updateData] after the comparisons. *)
Definition compare_workflow (E : Env) (dbWorkflow : WorkflowRow) (clientWorkflow : Workflow)
    (workspaceId : option string) (state : StateValue) : bool * gmap string ColumnValue :=
  let effective := effectiveWorkspaceId clientWorkflow workspaceId in
  let folder := or_null string_truthy (w_folderId clientWorkflow) in
  let s1 := assign (negb (String.eqb (r_name dbWorkflow) (w_name clientWorkflow)))
              "name" (VString (JsValue (w_name clientWorkflow))) (false, ∅) in
  let s2 := assign (strict_neq String.eqb (of_nullable (r_description dbWorkflow))
                                          (of_optional (w_description clientWorkflow)))
              "description" (VString (of_optional (w_description clientWorkflow))) s1 in
  let s3 := assign (strict_neq String.eqb (of_nullable (r_color dbWorkflow))
                                          (of_optional (w_color clientWorkflow)))
              "color" (VString (of_optional (w_color clientWorkflow))) s2 in
  let s4 := assign (strict_neq String.eqb (of_nullable (r_workspaceId dbWorkflow)) effective)
              "workspaceId" (VString effective) s3 in
  let s5 := assign (strict_neq String.eqb (of_nullable (r_folderId dbWorkflow))
                                          (of_nullable folder))
              "folderId" (VString (of_nullable folder)) s4 in
  let s6 := assign (strict_neq String.eqb
                      (stringify_column E (r_marketplaceData dbWorkflow))
                      (stringify_marketplace E (w_marketplaceData clientWorkflow)))
              "marketplaceData"
              (VMarketplace (of_nullable (or_null object_truthy (w_marketplaceData clientWorkflow))))
              s5 in
  let s7 := assign (negb (String.eqb (JSON_stringify E (r_state dbWorkflow))
                                     (JSON_stringify E (stored_state E state))))
              "state" (VState state) s6 in
  let s8 := assign (negb (Bool.eqb (r_isDeployed dbWorkflow) (clientIsDeployed clientWorkflow)))
              "isDeployed" (VBool (clientIsDeployed clientWorkflow)) s7 in
  assign (strict_neq number_eqb (time_of (r_deployedAt dbWorkflow))
                                (time_of (clientDeployedAt clientWorkflow)))
         "deployedAt" (VDate (of_nullable (clientDeployedAt clientWorkflow))) s8.

(** Lines 519-524: the update pushed for an existing workflow, if any. *)
Definition update_operation (E : Env) (id : string) (dbWorkflow : WorkflowRow)
    (clientWorkflow : Workflow) (workspaceId : option string) (state : StateValue)
    (now : JsDate) : list Operation :=
  let '(needsUpdate, updateData) :=
    compare_workflow E dbWorkflow clientWorkflow workspaceId state in
  if needsUpdate then
    [UpdateWorkflow (<["updatedAt" := VDate (JsValue now)]>
                       (<["lastSynced" := VDate (JsValue now)]> updateData)) id]
  else [].

(** Lines 405-525 for one client workflow: the operation pushed to
    [operations], if any, once the normalized save has answered. *)
Definition pushed_operations (E : Env) (userId : string) (workspaceId userRole : option string)
    (dbWorkflowMap : list (string * WorkflowRow)) (now : JsDate)
    (entry : string * Workflow) : list Operation :=
  let id := fst entry in
  let dbWorkflow := property dbWorkflowMap id in
  let clientWorkflow := migrate_published (snd entry) in
  let normalizedResult :=
    saveWorkflowToNormalizedTables E id (normalized_input clientWorkflow) in
  let state := stateToSave normalizedResult clientWorkflow in
  match dbWorkflow with
  | None => [InsertWorkflow (insert_values userId clientWorkflow workspaceId state now)]
  | Some row =>
      if negb (canUpdate row userId workspaceId userRole) then []
      else update_operation E id row clientWorkflow workspaceId state now
  end.

(** One turn of the loop of lines 377-526: the normalized save is awaited
    first, then the operation is pushed.  ([processedIds] is only written
    and is left out.) *)
Definition process_workflow (E : Env) (userId : string) (workspaceId userRole : option string)
    (dbWorkflowMap : list (string * WorkflowRow)) (now : JsDate)
    (entry : string * Workflow) : M (list Operation) :=
  run log (NormalizedSave (fst entry) (normalized_input (migrate_published (snd entry)))) then
  ret (pushed_operations E userId workspaceId userRole dbWorkflowMap now entry).

(** The loop over [Object.entries(clientWorkflows)]: the array
    [operations] when it ends. *)
Fixpoint process_workflows (E : Env) (userId : string) (workspaceId userRole : option string)
    (dbWorkflowMap : list (string * WorkflowRow)) (now : JsDate)
    (entries : list (string * Workflow)) : M (list Operation) :=
  match entries with
  | [] => ret []
  | entry :: rest =>
      let! pushed := process_workflow E userId workspaceId userRole dbWorkflowMap now entry in
      let! others := process_workflows E userId workspaceId userRole dbWorkflowMap now rest in
      ret (pushed ++ others)
  end.

(** *** What the database does with a write

    An update changes the columns its object names, on the rows with the
    target id; a key holding [undefined] is skipped.  An insert adds a row.
    Constraints of the schema are not modelled. *)

Definition set_string (old : string) (v : option ColumnValue) : string :=
  match v with Some (VString (JsValue s)) => s | _ => old end.

Definition set_nullable_string (old : option string) (v : option ColumnValue) : option string :=
  match v with
  | Some (VString (JsValue s)) => Some s
  | Some (VString JsNull) => None
  | _ => old
  end.

Definition set_bool (old : bool) (v : option ColumnValue) : bool :=
  match v with Some (VBool b) => b | _ => old end.

Definition set_date (old : JsDate) (v : option ColumnValue) : JsDate :=
  match v with Some (VDate (JsValue d)) => d | _ => old end.

Definition set_nullable_date (old : option JsDate) (v : option ColumnValue) : option JsDate :=
  match v with
  | Some (VDate (JsValue d)) => Some d
  | Some (VDate JsNull) => None
  | _ => old
  end.

Definition set_json (E : Env) (old : Json) (v : option ColumnValue) : Json :=
  match v with
  | Some (VState s) => stored_state E s
  | Some (VJson (JsValue j)) => j
  | _ => old
  end.

Definition set_nullable_json (old : option Json) (v : option ColumnValue) : option Json :=
  match v with
  | Some (VJson (JsValue j)) => Some j
  | Some (VMarketplace (JsValue m)) => Some (marketplace_json m)
  | Some (VJson JsNull) | Some (VMarketplace JsNull) => None
  | _ => old
  end.

Definition apply_update (E : Env) (data : gmap string ColumnValue) (r : WorkflowRow)
  : WorkflowRow :=
  {| r_id := set_string (r_id r) (data !! "id");
     r_userId := set_string (r_userId r) (data !! "userId");
     r_workspaceId := set_nullable_string (r_workspaceId r) (data !! "workspaceId");
     r_folderId := set_nullable_string (r_folderId r) (data !! "folderId");
     r_name := set_string (r_name r) (data !! "name");
     r_description := set_nullable_string (r_description r) (data !! "description");
     r_color := set_nullable_string (r_color r) (data !! "color");
     r_state := set_json E (r_state r) (data !! "state");
     r_marketplaceData := set_nullable_json (r_marketplaceData r) (data !! "marketplaceData");
     r_isDeployed := set_bool (r_isDeployed r) (data !! "isDeployed");
     r_deployedAt := set_nullable_date (r_deployedAt r) (data !! "deployedAt");
     r_deployedState := set_nullable_json (r_deployedState r) (data !! "deployedState");
     r_lastSynced := set_date (r_lastSynced r) (data !! "lastSynced");
     r_createdAt := set_date (r_createdAt r) (data !! "createdAt");
     r_updatedAt := set_date (r_updatedAt r) (data !! "updatedAt") |}.

Definition nullable_of {A} (v : Nullish A) : option A :=
  match v with JsValue a => Some a | _ => None end.

Definition inserted_row (E : Env) (v : InsertValues) : WorkflowRow :=
  {| r_id := i_id v;
     r_userId := i_userId v;
     r_workspaceId := nullable_of (i_workspaceId v);
     r_folderId := nullable_of (i_folderId v);
     r_name := i_name v;
     r_description := nullable_of (i_description v);
     r_color := nullable_of (i_color v);
     r_state := stored_state E (i_state v);
     r_marketplaceData := option_map marketplace_json (nullable_of (i_marketplaceData v));
     r_isDeployed := i_isDeployed v;
     r_deployedAt := nullable_of (i_deployedAt v);
     r_deployedState := nullable_of (i_deployedState v);
     r_lastSynced := i_lastSynced v;
     r_createdAt := i_createdAt v;
     r_updatedAt := i_updatedAt v |}.

Definition apply_operation (E : Env) (op : Operation) (table : list WorkflowRow)
  : list WorkflowRow :=
  match op with
  | InsertWorkflow values => table ++ [inserted_row E values]
  | UpdateWorkflow data target =>
      map (fun r => if String.eqb (r_id r) target then apply_update E data r else r) table
  end.

(** An awaited write. *)
Definition execute (E : Env) (op : Operation) : M unit :=
  run log (Executed op) then
  let! w := get_world in
  match db_fault (db w) with
  | Some message => throw (Error message)
  | None => set_workflow_table (apply_operation E op (workflow_table (db w)))
  end.

(** [await Promise.all(operations)]. *)
Fixpoint execute_all (E : Env) (operations : list Operation) : M unit :=
  match operations with
  | [] => ret tt
  | op :: rest => run execute E op then execute_all E rest
  end.

Definition sync_rejected : Response :=
  {| status := 409;
     body := ErrorBody "Sync rejected to prevent data loss" None
               (Some "Client sent empty workflows, but user has existing workflows in database") |}.

(** Lines 359-543. *)
Definition POST_reconcile (E : Env) (userId : string) (payload : SyncPayload)
    (userRole : option string) (startTime : Z) : M Response :=
  let workspaceId := p_workspaceId payload in
  let! dbWorkflows :=
    match given workspaceId with
    | Some ws => select (WorkflowsOfWorkspace ws) (workflows_of_workspace ws)
    | None => select (WorkflowsOfUser userId) (workflows_of_user userId)
    end in
  let! now := new_Date E in
  let dbWorkflowMap := new_Map (map (fun w => (r_id w, w)) dbWorkflows) in
  let! operations :=
    process_workflows E userId workspaceId userRole dbWorkflowMap now (p_workflows payload) in
  run execute_all E operations then
  let! finished := Date_now E in
  ret {| status := 200;
         body := SuccessBody (finished - startTime) (length operations)
                             (length (p_workflows payload)) |}.

(** Lines 322-357. *)
Definition POST_authorize (E : Env) (userId : string) (payload : SyncPayload)
    (startTime : Z) : M Response :=
  match given (p_workspaceId payload) with
  | Some ws =>
      let! found := select (WorkspaceById ws) (workspace_rows ws) in
      if negb (0 <? length found)%nat then ret workspace_not_found
      else
        let! userRole := verifyWorkspaceMembership E userId ws in
        if negb (truthy string_truthy (of_nullable userRole))
        then ret workspace_access_denied
        else POST_reconcile E userId payload userRole startTime
  | None => POST_reconcile E userId payload None startTime
  end.

(** Lines 288-320. *)
Definition POST_guard (E : Env) (userId : string) (payload : SyncPayload)
    (startTime : Z) : M Response :=
  if (length (p_workflows payload) =? 0)%nat then
    let! existingWorkflows :=
      match given (p_workspaceId payload) with
      | Some ws => select (OneWorkflowOfWorkspace ws)
                          (fun d => firstn 1 (workflows_of_workspace ws d))
      | None => select (OneWorkflowOfUser userId)
                       (fun d => firstn 1 (workflows_of_user userId d))
      end in
    if (0 <? length existingWorkflows)%nat then ret sync_rejected
    else POST_authorize E userId payload startTime
  else POST_authorize E userId payload startTime.

Definition invalid_request (issues : list ZodIssue) : Response :=
  {| status := 400; body := InvalidBody "Invalid request data" issues |}.

Definition sync_failed : Response :=
  {| status := 500; body := ErrorBody "Workflow sync failed" None None |}.

Definition POST (E : Env) (req : PostRequest) : M Response :=
  let! startTime := Date_now E in
  try_catch
    (match session_user (post_session req) with
     | None => ret unauthorized
     | Some userId =>
         let! body :=
           match post_body req with
           | Some json => ret json
           | None => throw (Error "Unexpected token")
           end in
         try_catch
           (let! payload :=
              match SyncPayloadSchema_parse (Date_parse E) body with
              | ZodOk payload => ret payload
              | ZodInvalid issues => throw (ZodError issues)
              end in
            POST_guard E userId payload startTime)
           (fun validationError =>
              match validationError with
              | ZodError issues => ret (invalid_request issues)
              | _ => throw validationError
              end)
     end)
    (fun _ =>
       let! finished := Date_now E in
       ret sync_failed).

(** ** Reading a run *)

(** The events a handler added to the trace. *)
Definition events_since (before after : World) : list Event :=
  skipn (length (trace before)) (trace after).

(** The writes to the workflow table among some events. *)
Definition executed (events : list Event) : list Operation :=
  flat_map (fun e => match e with Executed op => [op] | _ => [] end) events.

Definition is_select (e : Event) : bool :=
  match e with Queried _ => true | _ => false end.

(** A select of whole workflow rows: the read a response is built from. *)
Definition is_workflow_read (e : Event) : bool :=
  match e with
  | Queried (WorkflowsOfWorkspace _) | Queried (WorkflowsOfUser _) => true
  | _ => false
  end.

(** The world once a handler has read its start time. *)
Definition started (w : World) : World := with_ticks (S (ticks w)) w.

(** The rows the route reconciles against (lines 363-367) and the map it
    builds from them (line 373). *)
Definition dbWorkflows_of (userId : string) (workspaceId : option string) (d : Database)
  : list WorkflowRow :=
  match given workspaceId with
  | Some ws => workflows_of_workspace ws d
  | None => workflows_of_user userId d
  end.

Definition dbWorkflowMap_of (userId : string) (workspaceId : option string) (d : Database)
  : list (string * WorkflowRow) :=
  new_Map (map (fun r => (r_id r, r)) (dbWorkflows_of userId workspaceId d)).

(** The select of lines 363-367. *)
Definition reconcile_query (userId : string) (workspaceId : option string) : Query :=
  match given workspaceId with
  | Some ws => WorkflowsOfWorkspace ws
  | None => WorkflowsOfUser userId
  end.

(** The array [operations] of a sync that reached line 532, for the role
    the workspace check gave and the date read at line 369. *)
Definition sync_operations (E : Env) (userId : string) (payload : SyncPayload)
    (userRole : option string) (d : Database) (now : JsDate) : list Operation :=
  flat_map (pushed_operations E userId (p_workspaceId payload) userRole
              (dbWorkflowMap_of userId (p_workspaceId payload) d) now)
           (p_workflows payload).

(** The normalized save of one client workflow, as an event. *)
Definition save_event (entry : string * Workflow) : Event :=
  NormalizedSave (fst entry) (normalized_input (migrate_published (snd entry))).

(** The table after the writes of [operations], in order. *)
Definition apply_operations (E : Env) (operations : list Operation)
    (table : list WorkflowRow) : list WorkflowRow :=
  fold_left (fun t op => apply_operation E op t) operations table.

(** A handler that did nothing but selects. *)
Definition quiet (w w' : World) : Prop :=
  Forall (fun e => is_select e = true) (events_since w w') /\ db w' = db w.

(** The role a sync holds once it is past the workspace check of lines
    322-357: none without a workspace; with one, the workspace exists and
    the membership check gave a truthy role. *)
Definition checked_role (E : Env) (userId : string) (payload : SyncPayload) (w : World)
    (userRole : option string) : Prop :=
  match given (p_workspaceId payload) with
  | None => userRole = None
  | Some ws =>
      workspace_rows ws (db w) <> []
      /\ fst (verifyWorkspaceMembership E userId ws (started w)) = Returned userRole
      /\ truthy string_truthy (of_nullable userRole) = true
  end.

(** What a sync that answered 200 did. *)
Definition synced (E : Env) (req : PostRequest) (w : World) (resp : Response) (w' : World)
    (userId : string) (payload : SyncPayload) (userRole : option string) (now : JsDate)
  : Prop :=
  session_user (post_session req) = Some userId
  /\ (exists json, post_body req = Some json
                   /\ SyncPayloadSchema_parse (Date_parse E) json = ZodOk payload)
  /\ db_fault (db w) = None
  /\ checked_role E userId payload w userRole
  /\ (exists elapsed,
        resp = {| status := 200;
                  body := SuccessBody elapsed
                            (length (sync_operations E userId payload userRole (db w) now))
                            (length (p_workflows payload)) |})
  /\ (exists queries,
        Forall (fun e => is_select e = true) queries
        /\ events_since w w' =
             queries ++ map save_event (p_workflows payload)
               ++ map Executed (sync_operations E userId payload userRole (db w) now))
  /\ workflow_table (db w') =
       apply_operations E (sync_operations E userId payload userRole (db w) now)
                        (workflow_table (db w)).

(** The outcomes of the part of POST that follows the parsing. *)
Definition sync_outcome (E : Env) (req : PostRequest) (w : World)
    (userId : string) (payload : SyncPayload) (r : Outcome Response * World) : Prop :=
  match r with
  | (Thrown _, w') => quiet w w'
  | (Returned resp, w') =>
      (status resp <> 200%Z /\ quiet w w')
      \/ exists userRole now, synced E req w resp w' userId payload userRole now
  end.

(** What an operation does to the column [deployedState]: an insert sets
    it to [null], an update does not name it. *)
Definition spares_deployedState (op : Operation) : Prop :=
  match op with
  | InsertWorkflow values => i_deployedState values = JsNull
  | UpdateWorkflow data _ => data !! "deployedState" = None
  end.

(** Two nullable dates name the same instant: their time values are equal
    numbers, or both are absent. *)
Definition same_instant (a b : option JsDate) : Prop :=
  match a, b with
  | None, None => True
  | Some (Date x), Some (Date y) => x = y
  | _, _ => False
  end.

(** *** The client workflow as the comparison reads it *)

(** The deployment flag of a client workflow, an absent one read as
    [false]. *)
Definition stated_isDeployed (cw : Workflow) : bool :=
  match s_isDeployed (w_state cw) with
  | Some b => b
  | None => false
  end.

(** Its folder, an absent, null or empty one read as [null]. *)
Definition stated_folder (cw : Workflow) : option string :=
  match w_folderId cw with
  | JsValue folder => if String.eqb folder "" then None else Some folder
  | JsNull | JsUndefined => None
  end.

(** Its effective workspace: the one the workflow names, unless it names
    none or the empty string, and then the one the payload names ([None]
    when the payload names none either). *)
Definition stated_workspace (cw : Workflow) (workspaceId : option string) : option string :=
  match w_workspaceId cw with
  | Some own => if String.eqb own "" then workspaceId else Some own
  | None => workspaceId
  end.

(** Its marketplace data: the data it holds, or, when it holds none and
    its state says it is published, owner data under its id. *)
Definition stated_marketplace (cw : Workflow) : Nullish MarketplaceData :=
  match w_marketplaceData cw, s_isPublished (w_state cw) with
  | JsValue m, _ => JsValue m
  | _, Some true => JsValue {| md_id := w_id cw; md_status := owner |}
  | absent, _ => absent
  end.

(** The JSON text of a json column (a [null] column serialises to the
    text of [null]) is not the JSON text of the marketplace data of the
    client; [undefined] has no JSON text and differs from every column. *)
Definition marketplace_differs (E : Env) (column : option Json)
    (client : Nullish MarketplaceData) : Prop :=
  match client with
  | JsUndefined => True
  | JsNull => JSON_stringify E (default JNull column) <> JSON_stringify E JNull
  | JsValue m => JSON_stringify E (default JNull column) <> JSON_stringify E (marketplace_json m)
  end.

(** The comparison the specification describes, field by field, between a
    row and the client workflow as it was sent, as JavaScript values: a
    [null] of the database and an [undefined] of the client differ, a
    folder id that is absent counts as [null], an absent [isDeployed] as
    [false], and [state] is the state chosen for saving. *)
Definition fields_differ (E : Env) (dbWorkflow : WorkflowRow) (clientWorkflow : Workflow)
    (workspaceId : option string) (state : StateValue) : Prop :=
  r_name dbWorkflow <> w_name clientWorkflow
  \/ of_nullable (r_description dbWorkflow) <> of_optional (w_description clientWorkflow)
  \/ of_nullable (r_color dbWorkflow) <> of_optional (w_color clientWorkflow)
  \/ of_nullable (r_workspaceId dbWorkflow)
       <> of_optional (stated_workspace clientWorkflow workspaceId)
  \/ r_folderId dbWorkflow <> stated_folder clientWorkflow
  \/ marketplace_differs E (r_marketplaceData dbWorkflow) (stated_marketplace clientWorkflow)
  \/ JSON_stringify E (r_state dbWorkflow) <> JSON_stringify E (stored_state E state)
  \/ r_isDeployed dbWorkflow <> stated_isDeployed clientWorkflow
  \/ ~ same_instant (r_deployedAt dbWorkflow) (s_deployedAt (w_state clientWorkflow)).

(** The user may update a row: they own it, or the payload names a
    workspace, not the empty string, in which their role is owner, admin or
    member. *)
Definition may_update (userId : string) (workspaceId userRole : option string)
    (row : WorkflowRow) : Prop :=
  r_userId row = userId
  \/ ((exists ws, workspaceId = Some ws /\ ws <> "")
      /\ (userRole = Some "owner" \/ userRole = Some "admin" \/ userRole = Some "member")).

(** A handler that only checked the workspace: it made selects, none of
    them of workflow rows, and left the workflow table as it was. *)
Definition only_checked (w w' : World) : Prop :=
  Forall (fun e => is_select e = true /\ is_workflow_read e = false) (events_since w w')
  /\ workflow_table (db w') = workflow_table (db w).

(** The database holds a workflow row for the workspace the payload
    names, when that is not the empty string, and otherwise (no workspace
    named, or the empty string) a row the user owns. *)
Definition has_workflows (userId : string) (workspaceId : option string) (d : Database)
  : Prop :=
  match workspaceId with
  | Some ws =>
      if String.eqb ws ""
      then exists r, In r (workflow_table d) /\ r_userId r = userId
      else exists r, In r (workflow_table d) /\ r_workspaceId r = Some ws
  | None => exists r, In r (workflow_table d) /\ r_userId r = userId
  end.

(** The select the guard of lines 290-310 makes: one workflow row of the
    workspace the payload names, when that is not the empty string, and
    otherwise one row the user owns. *)
Definition guard_query (userId : string) (workspaceId : option string) : Query :=
  match workspaceId with
  | Some ws => if String.eqb ws "" then OneWorkflowOfUser userId else OneWorkflowOfWorkspace ws
  | None => OneWorkflowOfUser userId
  end.

(** The value an operation writes to the [state] column, if it writes one. *)
Definition written_state (op : Operation) : option StateValue :=
  match op with
  | InsertWorkflow values => Some (i_state values)
  | UpdateWorkflow data _ =>
      match data !! "state" with
      | Some (VState s) => Some s
      | _ => None
      end
  end.

(** [g] is the graph of the client state: its blocks, edges, loops and
    parallels and its deployment fields. *)
Definition graph_of (state : WorkflowState) (g : NormalizedInput) : Prop :=
  n_blocks g = s_blocks state
  /\ n_edges g = s_edges state
  /\ n_loops g = s_loops state
  /\ n_parallels g = s_parallels state
  /\ n_isDeployed g = s_isDeployed state
  /\ n_deployedAt g = s_deployedAt state.

(** [v] is the blob the normalized save returned when the save succeeded
    and the blob it returned is truthy, and the state the client sent
    otherwise. *)
Definition blob_or_client (result : NormalizedResult) (clientState : WorkflowState)
    (v : StateValue) : Prop :=
  (forall blob, success result = true -> jsonBlob result = Some blob ->
                json_truthy blob = true -> v = BlobState blob)
  /\ (success result = false
      \/ jsonBlob result = None
      \/ (exists blob, jsonBlob result = Some blob /\ json_truthy blob = false) ->
      v = ClientState clientState).

(** [v] is the state a sync chose to save for the workflow it received
    under [id]: the blob, or the state the client sent, by the answer to
    the normalized save the handler made for [id]. *)
Definition chosen_state (E : Env) (events : list Event) (id : string) (cw : Workflow)
    (v : StateValue) : Prop :=
  exists graph,
    In (NormalizedSave id graph) events
    /\ blob_or_client (saveWorkflowToNormalizedTables E id graph) (w_state cw) v.

(** A parse that raised issues. *)
Definition is_invalid {A} (r : ZodResult A) : Prop := exists issues, r = ZodInvalid issues.

(** A workflow entry of a body lacks a required property: its id, name or
    state, or the blocks or edges of its state. *)
Definition lacks_required (entry : list (string * Json)) : Prop :=
  property entry "id" = None
  \/ property entry "name" = None
  \/ property entry "state" = None
  \/ exists state, property entry "state" = Some (JObj state)
                   /\ (property state "blocks" = None \/ property state "edges" = None).

(** The world the membership check looks its entry up in: the one the
    opportunistic cleanup of lines 101-104 leaves. *)
Definition after_cleanup (E : Env) (w : World) : World :=
  snd (opportunistic_cleanup E w).

(** The cache of [w] holds an entry for [key] that expires strictly after
    the next reading of the clock. *)
Definition holds_fresh (E : Env) (w : World) (key : string) (c : CacheEntry) : Prop :=
  property (workspaceMembershipCache w) key = Some c
  /\ (clock E (ticks w) < expires c)%Z.

(** ** More on reading a run *)

(** What an operation does to the columns that identify a row and its
    owner: an update names none of [id], [userId] and [createdAt]. *)
Definition keeps_identity (op : Operation) : Prop :=
  match op with
  | InsertWorkflow _ => True
  | UpdateWorkflow data _ =>
      data !! "id" = None /\ data !! "userId" = None /\ data !! "createdAt" = None
  end.

(** Two rows are the same workflow of the same owner. *)
Definition same_identity (r r' : WorkflowRow) : Prop :=
  r_id r' = r_id r /\ r_userId r' = r_userId r /\ r_createdAt r' = r_createdAt r.

(** The state a sync saves for a client workflow (lines 391-408). *)
Definition saved_state (E : Env) (id : string) (cw : Workflow) : StateValue :=
  stateToSave (saveWorkflowToNormalizedTables E id (normalized_input (migrate_published cw)))
              (migrate_published cw).

(** [row] is the row a sync creates for the client workflow [cw] sent by
    [userId], with [state] in its state column: the columns hold what the
    client stated, the workspace is the one the workflow names or else the
    one of the payload, and the three dates are one date. *)
Definition created_for (E : Env) (userId : string) (workspaceId : option string)
    (state : StateValue) (cw : Workflow) (row : WorkflowRow) : Prop :=
  r_id row = w_id cw
  /\ r_userId row = userId
  /\ r_name row = w_name cw
  /\ r_description row = w_description cw
  /\ r_color row = w_color cw
  /\ r_workspaceId row = stated_workspace cw workspaceId
  /\ r_folderId row = stated_folder cw
  /\ r_state row = stored_state E state
  /\ r_isDeployed row = stated_isDeployed cw
  /\ r_deployedAt row = s_deployedAt (w_state cw)
  /\ r_deployedState row = None
  /\ r_createdAt row = r_lastSynced row
  /\ r_updatedAt row = r_lastSynced row.

(** [row] holds what the client workflow [cw] says, for the columns a
    sync brings up to date: the name, the folder, the deployment flag and
    date, the state (up to serialisation), and the description, the color,
    the workspace and the marketplace data (up to serialisation) when the
    client names one. *)
Definition agrees_with (E : Env) (workspaceId : option string) (state : StateValue)
    (cw : Workflow) (row : WorkflowRow) : Prop :=
  r_name row = w_name cw
  /\ r_folderId row = stated_folder cw
  /\ r_isDeployed row = stated_isDeployed cw
  /\ r_deployedAt row = s_deployedAt (w_state cw)
  /\ JSON_stringify E (r_state row) = JSON_stringify E (stored_state E state)
  /\ (forall d, w_description cw = Some d -> r_description row = Some d)
  /\ (forall c, w_color cw = Some c -> r_color row = Some c)
  /\ (forall e, stated_workspace cw workspaceId = Some e -> r_workspaceId row = Some e)
  /\ (forall m, stated_marketplace cw = JsValue m ->
        JSON_stringify E (default JNull (r_marketplaceData row))
        = JSON_stringify E (marketplace_json m)).

(** An operation that adds a row. *)
Definition is_insert (op : Operation) : bool :=
  match op with InsertWorkflow _ => true | UpdateWorkflow _ _ => false end.

(** The keys of a [Map] are distinct. *)
Definition distinct_keys {A} (m : list (string * A)) : Prop := NoDup (map fst m).

(** An entry that has not expired at [now]. *)
Definition unexpired (now : Z) (kv : string * CacheEntry) : bool :=
  negb (expires (snd kv) <=? now)%Z.

(** [a] expires no later than [b]. *)
Definition expires_before (a b : string * CacheEntry) : Prop :=
  (expires (snd a) <= expires (snd b))%Z.

(** The key of [kv] is the key of one of [removed]. *)
Definition key_among {A} (removed : list (string * A)) (kv : string * A) : bool :=
  existsb (fun r => String.eqb (fst kv) (fst r)) removed.

(** ** The migration of orphaned workflows (route.ts, lines 217-270)

    GET starts it without awaiting it; it runs on the world it finds.  Its
    statements are not part of the trace of a handler. *)

(** The writes of the migration the database rejects: the batch update,
    and the update of the row with a given id. *)
Record MigrationFaults : Type := {
  batch_rejects : bool;
  update_rejects : string -> bool
}.

(** [and(eq(workflow.userId, userId), isNull(workflow.workspaceId))]. *)
Definition is_orphan (userId : string) (r : WorkflowRow) : bool :=
  String.eqb (r_userId r) userId
  && match r_workspaceId r with None => true | Some _ => false end.

(** The object passed to [set] at lines 239-242 and 256-259. *)
Definition adoption (workspaceId : string) (now : JsDate) : gmap string ColumnValue :=
  <["workspaceId" := VString (JsValue workspaceId)]>
    (<["updatedAt" := VDate (JsValue now)]> ∅).

(** Lines 237-243: the batch update of the rows of the user that have no
    workspace. *)
Definition adopt_orphans (E : Env) (userId workspaceId : string) (now : JsDate)
    (table : list WorkflowRow) : list WorkflowRow :=
  map (fun r => if is_orphan userId r then apply_update E (adoption workspaceId now) r else r)
      table.

(** Lines 252-264: the fallback, one update per orphan found, each with
    its own date; a rejected update is logged and the loop goes on. *)
Fixpoint adopt_each (E : Env) (F : MigrationFaults) (workspaceId : string)
    (ids : list string) : M unit :=
  match ids with
  | [] => ret tt
  | id :: rest =>
      let! now := new_Date E in
      run (if update_rejects F id then ret tt
           else
             let! w := get_world in
             set_workflow_table
               (apply_operation E (UpdateWorkflow (adoption workspaceId now) id)
                                (workflow_table (db w)))) then
      adopt_each E F workspaceId rest
  end.

Definition migrateOrphanedWorkflows (E : Env) (F : MigrationFaults)
    (userId workspaceId : string) : M unit :=
  try_catch
    (let! w := get_world in
     match db_fault (db w) with
     | Some message => throw (Error message)
     | None =>
         let orphanedWorkflows := List.filter (is_orphan userId) (workflow_table (db w)) in
         if (length orphanedWorkflows =? 0)%nat then ret tt
         else
           let! now := new_Date E in
           if batch_rejects F
           then adopt_each E F workspaceId (map r_id orphanedWorkflows)
           else set_workflow_table
                  (adopt_orphans E userId workspaceId now (workflow_table (db w)))
     end)
    (fun _ => ret tt).

(** The row [r] once it is moved to [workspaceId] at [now]: its workspace
    and its update date are new, every other column is as it was. *)
Definition adopted (workspaceId : string) (now : JsDate) (r : WorkflowRow) : WorkflowRow :=
  {| r_id := r_id r;
     r_userId := r_userId r;
     r_workspaceId := Some workspaceId;
     r_folderId := r_folderId r;
     r_name := r_name r;
     r_description := r_description r;
     r_color := r_color r;
     r_state := r_state r;
     r_marketplaceData := r_marketplaceData r;
     r_isDeployed := r_isDeployed r;
     r_deployedAt := r_deployedAt r;
     r_deployedState := r_deployedState r;
     r_lastSynced := r_lastSynced r;
     r_createdAt := r_createdAt r;
     r_updatedAt := now |}.

(** [row'] is [row], or [row] moved to [workspaceId] when [row] is a
    workflow of [userId] without a workspace. *)
Definition kept_or_adopted (userId workspaceId : string) (row row' : WorkflowRow) : Prop :=
  row' = row
  \/ (is_orphan userId row = true /\ exists now, row' = adopted workspaceId now row).

(** Lines 381-385 and 430: the marketplace data a sync stores for a client
    workflow: owner data under the id of the workflow for a published
    workflow that has none, else the data the client sent, else [null]. *)
Definition stored_marketplaceData (cw : Workflow) : option Json :=
  if truthy bool_truthy (of_optional (s_isPublished (w_state cw)))
     && negb (truthy object_truthy (w_marketplaceData cw))
  then Some (marketplace_json {| md_id := w_id cw; md_status := owner |})
  else option_map marketplace_json (or_null object_truthy (w_marketplaceData cw)).

(** ** The client registry store (stores/workflows/registry/store.ts)

    The three zustand stores, the module variable
    [isWorkspaceTransitioning], browser storage, and the calls made to
    collaborators outside the store, in order. *)

Module Registry.

Record DeploymentStatus : Type := {
  isDeployed : bool;
  deployedAt : option JsDate;
  apiKey : option string;
  needsRedeployment : option bool
}.

(** The graph kept in a history entry. *)
Record GraphState : Type := {
  g_blocks : gmap string Json;
  g_edges : list Json;
  g_loops : gmap string Json;
  g_parallels : gmap string Json;
  g_isDeployed : bool;
  g_deployedAt : option JsDate
}.

Record HistoryEntry : Type := {
  h_state : GraphState;
  h_timestamp : Z;
  h_action : string;
  h_subblockValues : gmap string Json
}.

Record History : Type := {
  past : list HistoryEntry;
  present : HistoryEntry;
  future : list HistoryEntry
}.

(** The state of [useWorkflowStore] the registry reads and writes. *)
Record WorkflowStore : Type := {
  blocks : gmap string Json;
  edges : list Json;
  loops : gmap string Json;
  parallels : gmap string Json;
  ws_isDeployed : bool;
  ws_deployedAt : option JsDate;
  ws_needsRedeployment : option bool;
  ws_deploymentStatuses : gmap string DeploymentStatus;
  hasActiveSchedule : bool;
  history : History;
  lastSaved : Z
}.

Record SubBlockStore : Type := {
  workflowValues : gmap string Json;
  toolParams : gmap string Json
}.

(** The state of [useWorkflowRegistry]. *)
Record RegistryState : Type := {
  workflows : gmap string Json;
  activeWorkflowId : option string;
  activeWorkspaceId : option string;
  isLoading : bool;
  error : option string;
  deploymentStatuses : gmap string DeploymentStatus
}.

(** A workflow state kept in browser storage. *)
Record PersistedState : Type := {
  ps_graph : Json;
  ps_isDeployed : option bool;
  ps_deployedAt : option JsDate;
  ps_deploymentStatuses : option (gmap string DeploymentStatus);
  ps_needsRedeployment : option bool
}.

(** Calls that leave the store. *)
Inductive Effect : Type :=
| ClearWorkflowVariablesTracking
| ResetRegistryInitialization
| FetchWorkflowsFromDB
| WorkflowSync
| SetTimeout (ms : Z).

Record Client : Type := {
  registry : RegistryState;
  workflowStore : WorkflowStore;
  subBlockStore : SubBlockStore;
  isWorkspaceTransitioning : bool;
  localStorage : gmap string string;
  effects : list Effect;
  readings : nat
}.

(** The browser: its clock, and whether [window] is defined. *)
Record Browser : Type := {
  now : nat -> Z;
  has_window : bool
}.

Definition ACTIVE_WORKSPACE_KEY : string := "active-workspace-id".
Definition TRANSITION_TIMEOUT : Z := 5000.

Definition with_registry (r : RegistryState) (c : Client) : Client :=
  {| registry := r; workflowStore := workflowStore c; subBlockStore := subBlockStore c;
     isWorkspaceTransitioning := isWorkspaceTransitioning c; localStorage := localStorage c;
     effects := effects c; readings := readings c |}.

Definition with_workflowStore (s : WorkflowStore) (c : Client) : Client :=
  {| registry := registry c; workflowStore := s; subBlockStore := subBlockStore c;
     isWorkspaceTransitioning := isWorkspaceTransitioning c; localStorage := localStorage c;
     effects := effects c; readings := readings c |}.

Definition with_subBlockStore (s : SubBlockStore) (c : Client) : Client :=
  {| registry := registry c; workflowStore := workflowStore c; subBlockStore := s;
     isWorkspaceTransitioning := isWorkspaceTransitioning c; localStorage := localStorage c;
     effects := effects c; readings := readings c |}.

Definition with_transitioning (b : bool) (c : Client) : Client :=
  {| registry := registry c; workflowStore := workflowStore c;
     subBlockStore := subBlockStore c;
     isWorkspaceTransitioning := b; localStorage := localStorage c;
     effects := effects c; readings := readings c |}.

Definition with_localStorage (l : gmap string string) (c : Client) : Client :=
  {| registry := registry c; workflowStore := workflowStore c;
     subBlockStore := subBlockStore c;
     isWorkspaceTransitioning := isWorkspaceTransitioning c; localStorage := l;
     effects := effects c; readings := readings c |}.

Definition call (e : Effect) (c : Client) : Client :=
  {| registry := registry c; workflowStore := workflowStore c;
     subBlockStore := subBlockStore c;
     isWorkspaceTransitioning := isWorkspaceTransitioning c; localStorage := localStorage c;
     effects := effects c ++ [e]; readings := readings c |}.

(** [Date.now()]. *)
Definition Date_now (B : Browser) (c : Client) : Z * Client :=
  (now B (readings c),
   {| registry := registry c; workflowStore := workflowStore c;
      subBlockStore := subBlockStore c;
      isWorkspaceTransitioning := isWorkspaceTransitioning c; localStorage := localStorage c;
      effects := effects c; readings := S (readings c) |}).

(** What the helpers of stores/workflows/persistence take from the
    JavaScript runtime: the state object a JSON text is read as ([None]
    when the helper returns [null] for it), and the JSON text of a state
    object. *)
Record Persistence : Type := {
  parse_state : string -> option PersistedState;
  stringify_state : PersistedState -> string
}.

(** Modelled from the spec: [loadWorkflowState] of stores/workflows/persistence,
    a local persistence helper that reads the state of a workflow from browser
    storage ([None] when none is stored).  The state of workflow [id] is kept
    under the key [workflow-<id>], the key the cleanup reads at lines 57 and
    76. *)
Definition loadWorkflowState (P : Persistence) (id : string) (c : Client)
  : option PersistedState :=
  match localStorage c !! ("workflow-" +:+ id) with
  | Some text => parse_state P text
  | None => None
  end.

(** Modelled from the spec: [saveWorkflowState] of stores/workflows/persistence,
    a local persistence helper that writes the state of a workflow to browser
    storage, under the same key. *)
Definition saveWorkflowState (P : Persistence) (id : string) (s : PersistedState)
    (c : Client) : Client :=
  with_localStorage (<["workflow-" +:+ id := stringify_state P s]> (localStorage c)) c.

Definition empty_graph_state : GraphState :=
  {| g_blocks := ∅; g_edges := []; g_loops := ∅; g_parallels := ∅;
     g_isDeployed := false; g_deployedAt := None |}.

(** Lines 111-149.  [setState] merges: the properties it does not name keep
    their value. *)
Definition resetWorkflowStores (B : Browser) (c : Client) : Client :=
  let c1 := call ClearWorkflowVariablesTracking c in
  let '(timestamp, c2) := Date_now B c1 in
  let '(saved, c3) := Date_now B c2 in
  let old := workflowStore c3 in
  let c4 :=
    with_workflowStore
      {| blocks := ∅;
         edges := [];
         loops := ∅;
         parallels := parallels old;
         ws_isDeployed := false;
         ws_deployedAt := None;
         ws_needsRedeployment := ws_needsRedeployment old;
         ws_deploymentStatuses := ∅;
         hasActiveSchedule := false;
         history := {| past := [];
                       present := {| h_state := empty_graph_state;
                                     h_timestamp := timestamp;
                                     h_action := "Initial state";
                                     h_subblockValues := ∅ |};
                       future := [] |};
         lastSaved := saved |} c3 in
  with_subBlockStore {| workflowValues := ∅; toolParams := ∅ |} c4.

(** Lines 155-167: the flag, and the safety timer when it is raised. *)
Definition setWorkspaceTransitioning (isTransitioning : bool) (c : Client) : Client :=
  let c1 := with_transitioning isTransitioning c in
  if isTransitioning then call (SetTimeout TRANSITION_TIMEOUT) c1 else c1.

(** Lines 255-314, up to the call of [fetchWorkflowsFromDB]; what follows
    runs when the fetch settles. *)
Definition setActiveWorkspace (B : Browser) (id : string) (c : Client) : Client :=
  let currentWorkspaceId := activeWorkspaceId (registry c) in
  if strict_eq String.eqb (JsValue id) (of_nullable currentWorkspaceId) then c
  else if isWorkspaceTransitioning c then c
  else
    let c1 := setWorkspaceTransitioning true c in
    let c2 := resetWorkflowStores B c1 in
    let c3 := call ResetRegistryInitialization c2 in
    let c4 := if has_window B
              then with_localStorage (<[ACTIVE_WORKSPACE_KEY := id]> (localStorage c3)) c3
              else c3 in
    let r := registry c4 in
    let c5 :=
      with_registry
        {| workflows := ∅;
           activeWorkflowId := None;
           activeWorkspaceId := Some id;
           isLoading := true;
           error := error r;
           deploymentStatuses := deploymentStatuses r |} c4 in
    call FetchWorkflowsFromDB c5.

(** [deployedAt || (isDeployed ? new Date() : undefined)]. *)
Definition deployedAt_or_now (B : Browser) (given : option JsDate) (deployed : bool)
    (c : Client) : option JsDate * Client :=
  match given with
  | Some d => (Some d, c)
  | None =>
      if deployed then let '(t, c') := Date_now B c in (Some (Date t), c')
      else (None, c)
  end.

(** [isDeployed ? false : (statuses?.[id]?.needsRedeployment ?? false)]. *)
Definition kept_needsRedeployment (deployed : bool)
    (statuses : option (gmap string DeploymentStatus)) (id : string) : bool :=
  if deployed then false
  else match statuses with
       | Some m => match m !! id with
                   | Some st => match needsRedeployment st with
                                | Some b => b
                                | None => false
                                end
                   | None => false
                   end
       | None => false
       end.

(** The entry written for the workflow, lines 369-378 (and again at
    392-400 and 418-426). *)
Definition status_entry (B : Browser) (deployed : bool) (given : option JsDate)
    (key : option string) (statuses : option (gmap string DeploymentStatus)) (id : string)
    (c : Client) : DeploymentStatus * Client :=
  let '(at_, c') := deployedAt_or_now B given deployed c in
  ({| isDeployed := deployed; deployedAt := at_; apiKey := key;
      needsRedeployment := Some (kept_needsRedeployment deployed statuses id) |}, c').

(** The id a call is about: the one given when it is truthy, the active
    workflow otherwise; [None] when neither is. *)
Definition resolve (workflowId : option string) (c : Client) : option string :=
  match or_null string_truthy (of_nullable workflowId) with
  | Some id => Some id
  | None => or_null string_truthy (of_nullable (activeWorkflowId (registry c)))
  end.

(** Lines 354-433. *)
Definition setDeploymentStatus (B : Browser) (P : Persistence) (workflowId : option string)
    (deployed : bool) (given : option JsDate) (key : option string) (c : Client) : Client :=
  match resolve workflowId c with
  | None => c
  | Some id =>
      (* the registry *)
      let r := registry c in
      let '(entry, c1) := status_entry B deployed given key (Some (deploymentStatuses r)) id c in
      let c2 :=
        with_registry
          {| workflows := workflows r; activeWorkflowId := activeWorkflowId r;
             activeWorkspaceId := activeWorkspaceId r; isLoading := isLoading r;
             error := error r;
             deploymentStatuses := <[id := entry]> (deploymentStatuses r) |} c1 in
      let active := strict_eq String.eqb (JsValue id)
                              (of_nullable (activeWorkflowId (registry c2))) in
      (* the workflow store *)
      let c5 :=
        if active then
          let s := workflowStore c2 in
          let '(legacy_at, c3) := deployedAt_or_now B given deployed c2 in
          let '(entry', c4) :=
            status_entry B deployed given key (Some (ws_deploymentStatuses s)) id c3 in
          with_workflowStore
            {| blocks := blocks s; edges := edges s; loops := loops s;
               parallels := parallels s;
               ws_isDeployed := deployed;
               ws_deployedAt := legacy_at;
               ws_needsRedeployment :=
                 if deployed then Some false else ws_needsRedeployment s;
               ws_deploymentStatuses := <[id := entry']> (ws_deploymentStatuses s);
               hasActiveSchedule := hasActiveSchedule s;
               history := history s;
               lastSaved := lastSaved s |} c4
        else c2 in
      (* browser storage *)
      let c8 :=
        match loadWorkflowState P id c5 with
        | Some workflowState =>
            let '(legacy_at, c6) :=
              if active then deployedAt_or_now B given deployed c5
              else (ps_deployedAt workflowState, c5) in
            let '(entry'', c7) :=
              status_entry B deployed given key (ps_deploymentStatuses workflowState) id c6 in
            saveWorkflowState P id
              {| ps_graph := ps_graph workflowState;
                 ps_isDeployed :=
                   if active then Some deployed else ps_isDeployed workflowState;
                 ps_deployedAt := legacy_at;
                 ps_deploymentStatuses :=
                   Some (<[id := entry'']>
                           (default ∅ (ps_deploymentStatuses workflowState)));
                 ps_needsRedeployment := ps_needsRedeployment workflowState |} c7
        | None => c5
        end in
      call WorkflowSync c8
  end.

(** What the switch to workspace [id] leaves in the stores: an empty graph
    that is not deployed and has no schedule, a history of one entry, the
    initial state with an empty graph and no subblock values, no subblock
    values and tool parameters, and a registry without workflows that
    points at [id]. *)
Definition reset_for (id : string) (c : Client) : Prop :=
  blocks (workflowStore c) = ∅
  /\ edges (workflowStore c) = []
  /\ loops (workflowStore c) = ∅
  /\ ws_isDeployed (workflowStore c) = false
  /\ ws_deployedAt (workflowStore c) = None
  /\ ws_deploymentStatuses (workflowStore c) = ∅
  /\ hasActiveSchedule (workflowStore c) = false
  /\ past (history (workflowStore c)) = []
  /\ future (history (workflowStore c)) = []
  /\ h_state (present (history (workflowStore c)))
     = {| g_blocks := ∅; g_edges := []; g_loops := ∅; g_parallels := ∅;
          g_isDeployed := false; g_deployedAt := None |}
  /\ h_action (present (history (workflowStore c))) = "Initial state"
  /\ h_subblockValues (present (history (workflowStore c))) = ∅
  /\ workflowValues (subBlockStore c) = ∅
  /\ toolParams (subBlockStore c) = ∅
  /\ workflows (registry c) = ∅
  /\ activeWorkflowId (registry c) = None
  /\ activeWorkspaceId (registry c) = Some id.

(** The history entry and the save time of [c'] are fresh: stamped with
    the first two readings of the clock taken after [c], in that order. *)
Definition fresh_since (B : Browser) (c c' : Client) : Prop :=
  h_timestamp (present (history (workflowStore c'))) = now B (readings c)
  /\ lastSaved (workflowStore c') = now B (S (readings c)).

(** [at_] is the date given, or, when none is given, a reading of the
    clock taken between [c] and [c'] for a deployment and nothing
    otherwise. *)
Definition stamped (B : Browser) (c c' : Client) (given : option JsDate) (deployed : bool)
    (at_ : option JsDate) : Prop :=
  match given with
  | Some d => at_ = Some d
  | None =>
      if deployed
      then exists n, (readings c <= n < readings c')%nat /\ at_ = Some (Date (now B n))
      else at_ = None
  end.

(** The entry a call writes for a workflow. *)
Definition carries (B : Browser) (c c' : Client) (given : option JsDate) (deployed : bool)
    (key : option string) (entry : DeploymentStatus) : Prop :=
  isDeployed entry = deployed
  /\ apiKey entry = key
  /\ stamped B c c' given deployed (deployedAt entry).

(** Lines 199-252, up to the call of [fetchWorkflowsFromDB]: the switch
    after the current workspace was deleted.  It does not look at the
    transition flag. *)
Definition handleWorkspaceDeletion (B : Browser) (newWorkspaceId : string) (c : Client)
  : Client :=
  let currentWorkspaceId := activeWorkspaceId (registry c) in
  if negb (string_truthy newWorkspaceId)
     || strict_eq String.eqb (JsValue newWorkspaceId) (of_nullable currentWorkspaceId)
  then c
  else
    let c1 := setWorkspaceTransitioning true c in
    let c2 := resetWorkflowStores B c1 in
    let c3 := call ResetRegistryInitialization c2 in
    let c4 := if has_window B
              then with_localStorage
                     (<[ACTIVE_WORKSPACE_KEY := newWorkspaceId]> (localStorage c3)) c3
              else c3 in
    let r := registry c4 in
    let c5 :=
      with_registry
        {| workflows := ∅;
           activeWorkflowId := None;
           activeWorkspaceId := Some newWorkspaceId;
           isLoading := true;
           error := error r;
           deploymentStatuses := deploymentStatuses r |} c4 in
    call FetchWorkflowsFromDB c5.

(** Lines 160-165: the callback of the safety timer. *)
Definition transition_timeout (c : Client) : Client :=
  if isWorkspaceTransitioning c then with_transitioning false c else c.

(** What the cleanup of browser storage takes from the JavaScript
    runtime: [JSON.parse] ([None] when it throws), [JSON.stringify], and
    the order in which [Object.keys(localStorage)] lists the keys. *)
Record Runtime : Type := {
  JSON_parse : string -> option Json;
  JSON_stringify : Json -> string;
  Object_keys : gmap string string -> list string
}.

(** What follows [prefix] in [key]: [key.replace(prefix, '')] for a key
    that passes [key.startsWith(prefix)], [None] for a key that does not. *)
Fixpoint after_prefix (prefix key : string) : option string :=
  match prefix, key with
  | EmptyString, rest => Some rest
  | String a p, String b k => if Ascii.eqb a b then after_prefix p k else None
  | String _ _, EmptyString => None
  end.

(** [value.key] for a value [JSON.parse] returned and that is not [null]:
    a property of an object, [undefined] on anything else. *)
Definition member_of (value : Json) (key : string) : option Json :=
  match value with
  | JObj fields => property fields key
  | _ => None
  end.

(** [a === b] on two values [JSON.parse] returned: objects and arrays of
    two parses are never the same object. *)
Definition json_strict_eq (a b : Json) : bool :=
  match a, b with
  | JNull, JNull => true
  | JBool x, JBool y => Bool.eqb x y
  | JNum x, JNum y => PrimFloat.eqb x y
  | JStr x, JStr y => String.eqb x y
  | _, _ => false
  end.

(** [workspaces.some((w) => w.id === target)] on the elements of an
    array; [None] when it throws, on an element that is [null]. *)
Fixpoint some_has_id (workspaces : list Json) (target : Json) : option bool :=
  match workspaces with
  | [] => Some false
  | JNull :: _ => None
  | w :: rest =>
      if match member_of w "id" with
         | Some id => json_strict_eq id target
         | None => false
         end
      then Some true
      else some_has_id rest target
  end.

(** Lines 54-73: the data of a workflow the registry does not list. *)
Definition cleanup_unlisted (J : Runtime) (workspaceId key workflowId : string)
    (storage : gmap string string) : gmap string string :=
  match or_null string_truthy (of_nullable (storage !! ("workflow-" +:+ workflowId))) with
  | Some text =>
      match JSON_parse J text with
      | Some parsed =>
          match member_of parsed "workspaceId" with
          | Some stored =>
              if json_truthy stored && json_strict_eq stored (JStr workspaceId)
              then delete key storage
              else storage
          | None => storage
          end
      | None => storage
      end
  | None => delete key storage
  end.

(** Lines 75-102: the data of a workflow the registry lists. *)
Definition cleanup_listed (J : Runtime) (workspaceId workflowId : string)
    (storage : gmap string string) : gmap string string :=
  match or_null string_truthy (of_nullable (storage !! ("workflow-" +:+ workflowId))) with
  | Some text =>
      match JSON_parse J text with
      | Some (JObj fields) =>
          match property fields "workspaceId" with
          | Some stored =>
              if json_truthy stored && negb (json_strict_eq stored (JStr workspaceId)) then
                match or_null string_truthy (of_nullable (storage !! "workspaces")) with
                | Some workspacesData =>
                    match JSON_parse J workspacesData with
                    | Some (JArr workspaces) =>
                        match some_has_id workspaces stored with
                        | Some false =>
                            <["workflow-" +:+ workflowId :=
                                JSON_stringify J
                                  (JObj (map_set "workspaceId" (JStr workspaceId) fields))]>
                              storage
                        | _ => storage
                        end
                    | _ => storage
                    end
                | None => storage
                end
              else storage
          | None => storage
          end
      | _ => storage
      end
  | None => storage
  end.

(** One turn of the loop of lines 43-104. *)
Definition cleanup_key (J : Runtime) (listed : gmap string Json) (workspaceId key : string)
    (storage : gmap string string) : gmap string string :=
  let workflowId :=
    match after_prefix "workflow-" key with
    | Some rest => Some rest
    | None => after_prefix "subblock-values-" key
    end in
  match or_null string_truthy (of_nullable workflowId) with
  | Some id =>
      match listed !! id with
      | None => cleanup_unlisted J workspaceId key id storage
      | Some _ => cleanup_listed J workspaceId id storage
      end
  | None => storage
  end.

(** Lines 38-40. *)
Definition is_workflow_key (key : string) : bool :=
  match after_prefix "workflow-" key, after_prefix "subblock-values-" key with
  | None, None => false
  | _, _ => true
  end.

(** Lines 29-108. *)
Definition cleanupLocalStorageForWorkspace (B : Browser) (J : Runtime) (workspaceId : string)
    (c : Client) : Client :=
  if negb (has_window B) then c
  else
    let listed := workflows (registry c) in
    let workflowKeys := List.filter is_workflow_key (Object_keys J (localStorage c)) in
    with_localStorage
      (fold_left (fun storage key => cleanup_key J listed workspaceId key storage)
                 workflowKeys (localStorage c))
      c.

(** Lines 298-306: what runs when the fetch of the workflows succeeds. *)
Definition workspace_loaded (B : Browser) (J : Runtime) (id : string) (c : Client) : Client :=
  let r := registry c in
  let c1 :=
    with_registry
      {| workflows := workflows r; activeWorkflowId := activeWorkflowId r;
         activeWorkspaceId := activeWorkspaceId r; isLoading := false;
         error := error r; deploymentStatuses := deploymentStatuses r |} c in
  let c2 := cleanupLocalStorageForWorkspace B J id c1 in
  setWorkspaceTransitioning false c2.

(** Lines 307-313: what runs when it fails. *)
Definition workspace_load_failed (c : Client) : Client :=
  let r := registry c in
  let c1 :=
    with_registry
      {| workflows := workflows r; activeWorkflowId := activeWorkflowId r;
         activeWorkspaceId := activeWorkspaceId r; isLoading := false;
         error := Some "Failed to load workspace data";
         deploymentStatuses := deploymentStatuses r |} c in
  setWorkspaceTransitioning false c1.

(** Lines 317-351. *)
Definition getWorkflowDeploymentStatus (P : Persistence) (workflowId : option string)
    (c : Client) : option DeploymentStatus :=
  match resolve workflowId c with
  | None => None
  | Some id =>
      match deploymentStatuses (registry c) !! id with
      | Some status => Some status
      | None =>
          match loadWorkflowState P id c with
          | Some workflowState =>
              match ps_deploymentStatuses workflowState ≫= (fun statuses => statuses !! id) with
              | Some status => Some status
              | None =>
                  if truthy bool_truthy (of_optional (ps_isDeployed workflowState))
                  then Some {| isDeployed := true;
                               deployedAt := ps_deployedAt workflowState;
                               apiKey := None;
                               needsRedeployment := None |}
                  else None
              end
          | None => None
          end
      end
  end.

(** [{ ...currentStatus, needsRedeployment }] with
    [currentStatus = statuses[id] || { isDeployed: false }]. *)
Definition flagged (statuses : gmap string DeploymentStatus) (id : string)
    (flag : bool) : DeploymentStatus :=
  match statuses !! id with
  | Some currentStatus =>
      {| isDeployed := isDeployed currentStatus;
         deployedAt := deployedAt currentStatus;
         apiKey := apiKey currentStatus;
         needsRedeployment := Some flag |}
  | None =>
      {| isDeployed := false; deployedAt := None; apiKey := None;
         needsRedeployment := Some flag |}
  end.

(** Lines 436-480.  [setNeedsRedeploymentFlag] is an action of the
    workflow store, which is not part of the files at hand. *)
Definition setWorkflowNeedsRedeployment (P : Persistence)
    (setNeedsRedeploymentFlag : bool -> WorkflowStore -> WorkflowStore)
    (workflowId : option string) (flag : bool) (c : Client) : Client :=
  match resolve workflowId c with
  | None => c
  | Some id =>
      let r := registry c in
      let c1 :=
        with_registry
          {| workflows := workflows r; activeWorkflowId := activeWorkflowId r;
             activeWorkspaceId := activeWorkspaceId r; isLoading := isLoading r;
             error := error r;
             deploymentStatuses :=
               <[id := flagged (deploymentStatuses r) id flag]> (deploymentStatuses r) |} c in
      let c2 :=
        if strict_eq String.eqb (JsValue id) (of_nullable (activeWorkflowId (registry c1)))
        then with_workflowStore (setNeedsRedeploymentFlag flag (workflowStore c1)) c1
        else c1 in
      match loadWorkflowState P id c2 with
      | Some workflowState =>
          let statuses := default ∅ (ps_deploymentStatuses workflowState) in
          saveWorkflowState P id
            {| ps_graph := ps_graph workflowState;
               ps_isDeployed := ps_isDeployed workflowState;
               ps_deployedAt := ps_deployedAt workflowState;
               ps_deploymentStatuses := Some (<[id := flagged statuses id flag]> statuses);
               ps_needsRedeployment := ps_needsRedeployment workflowState |} c2
      | None => c2
      end
  end.

(** The data kept for a workflow the registry does not list is stale for
    [workspaceId]: there is no [workflow-] entry for it (or an empty one),
    or the entry parses to a value whose [workspaceId] is that workspace.
    An entry that does not parse, or names no workspace or another one, is
    not stale. *)
Definition stale (J : Runtime) (workspaceId : string) (entry : option string) : bool :=
  match or_null string_truthy (of_nullable entry) with
  | Some text =>
      match JSON_parse J text with
      | Some parsed =>
          match member_of parsed "workspaceId" with
          | Some stored => json_truthy stored && json_strict_eq stored (JStr workspaceId)
          | None => false
          end
      | None => false
      end
  | None => true
  end.

End Registry.

(** ** Sample data for the examples *)

Definition quote : string := String (Ascii.ascii_of_nat 34) EmptyString.

(** A serialiser for the examples: compact JSON text, numbers left out. *)
Fixpoint sample_stringify (j : Json) : string :=
  match j with
  | JNull => "null"
  | JBool true => "true"
  | JBool false => "false"
  | JNum _ => "0"
  | JStr s => quote +:+ s +:+ quote
  | JArr xs =>
      "[" +:+ (fix items (l : list Json) : string :=
                 match l with
                 | [] => ""
                 | [x] => sample_stringify x
                 | x :: rest => sample_stringify x +:+ "," +:+ items rest
                 end) xs +:+ "]"
  | JObj fields =>
      "{" +:+ (fix members (l : list (string * Json)) : string :=
                 match l with
                 | [] => ""
                 | [(k, v)] => quote +:+ k +:+ quote +:+ ":" +:+ sample_stringify v
                 | (k, v) :: rest =>
                     quote +:+ k +:+ quote +:+ ":" +:+ sample_stringify v +:+ "," +:+ members rest
                 end) fields +:+ "}"
  end.

Definition sample_state_json (s : WorkflowState) : Json :=
  JObj [("blocks", JObj (s_blocks s)); ("edges", JArr (s_edges s));
        ("loops", JObj (s_loops s)); ("parallels", JObj (s_parallels s))].

(** The normalized save of the examples succeeds and returns the graph. *)
Definition sample_save (id : string) (g : NormalizedInput) : NormalizedResult :=
  {| success := true;
     jsonBlob := Some (JObj [("blocks", JObj (n_blocks g)); ("edges", JArr (n_edges g));
                             ("loops", JObj (n_loops g)); ("parallels", JObj (n_parallels g))]);
     error := None |}.

(** A clock that advances one millisecond per reading. *)
Definition sample_env : Env :=
  {| clock := fun n => (1000 + Z.of_nat n)%Z;
     Date_parse := fun _ => InvalidDate;
     JSON_stringify := sample_stringify;
     state_json := sample_state_json;
     saveWorkflowToNormalizedTables := sample_save |}.

Definition empty_graph : Json :=
  JObj [("blocks", JObj []); ("edges", JArr [])].

Definition sample_row (id userId : string) (workspaceId : option string) : WorkflowRow :=
  {| r_id := id; r_userId := userId; r_workspaceId := workspaceId; r_folderId := None;
     r_name := "Flow"; r_description := None; r_color := Some "#3972F6";
     r_state := empty_graph; r_marketplaceData := None;
     r_isDeployed := false; r_deployedAt := None; r_deployedState := None;
     r_lastSynced := Date 0; r_createdAt := Date 0; r_updatedAt := Date 0 |}.

Definition sample_world (d : Database) : World :=
  {| db := d; workspaceMembershipCache := []; ticks := 0; trace := [] |}.

Definition body_of (workflows : list (string * Json)) (workspaceId : option string) : Json :=
  JObj (("workflows", JObj workflows)
        :: match workspaceId with Some ws => [("workspaceId", JStr ws)] | None => [] end).

Definition workflow_json (id name : string) : Json :=
  JObj [("id", JStr id); ("name", JStr name); ("state", empty_graph)].

Definition member (workspaceId userId userRole : string) : MemberRow :=
  {| m_workspaceId := workspaceId; m_userId := userId; m_role := userRole |}.

(** Workspace ws1 with two workflows, of u1 and of u2; u1 is a member and
    u3 a viewer; u4 is no member. *)
Definition sample_db : Database :=
  {| workflow_table := [sample_row "wf1" "u1" (Some "ws1"); sample_row "wf2" "u2" (Some "ws1")];
     workspace_table := ["ws1"];
     member_table := [member "ws1" "u1" "member"; member "ws1" "u3" "viewer"];
     db_fault := None |}.

Definition post (userId : string) (json : Json) : PostRequest :=
  {| post_session := Some userId; post_body := Some json |}.

(** The payload a body parses to (an empty one when it does not parse). *)
Definition parsed (E : Env) (json : Json) : SyncPayload :=
  match SyncPayloadSchema_parse (Date_parse E) json with
  | ZodOk payload => payload
  | ZodInvalid _ => {| p_workflows := []; p_workspaceId := None |}
  end.

(** The response of a run (a 500 when it threw). *)
Definition response_of (r : Outcome Response * World) : Response :=
  match fst r with Returned resp => resp | Thrown _ => sync_failed end.

(** A database in which the workspace of u2 has the empty string as its
    id, and holds a workflow. *)
Definition odd_db : Database :=
  {| workflow_table := [sample_row "wf1" "u2" (Some "")];
     workspace_table := [""; "ws1"];
     member_table := [member "" "u2" "owner"];
     db_fault := None |}.

(** An environment whose normalized save succeeds without returning a blob. *)
Definition blobless_env : Env :=
  {| clock := clock sample_env;
     Date_parse := Date_parse sample_env;
     JSON_stringify := JSON_stringify sample_env;
     state_json := state_json sample_env;
     saveWorkflowToNormalizedTables :=
       fun _ _ => {| success := true; jsonBlob := None; error := None |} |}.

(** Users u1, u10, u11, u100, ...: one per positive number, written in binary. *)
Fixpoint binary (p : positive) : string :=
  match p with
  | xH => "1"
  | xO q => binary q +:+ "0"
  | xI q => binary q +:+ "1"
  end.

Definition user (n : nat) : string := "u" +:+ binary (Pos.of_succ_nat n).

(** Workspace ws1 with [n] members, and the world after each of them has
    had their membership checked once, starting from an empty cache. *)
Definition crowd_db (n : nat) : Database :=
  {| workflow_table := [];
     workspace_table := ["ws1"];
     member_table := map (fun i => member "ws1" (user i) "member") (seq 0 n);
     db_fault := None |}.

Definition crowded_world (n : nat) : World :=
  fold_left (fun w i => snd (verifyWorkspaceMembership sample_env (user i) "ws1" w))
            (seq 0 n) (sample_world (crowd_db n)).

(** u1 posts no workflows for workspace ws1, which holds two. *)
Definition empty_sync : Json := body_of [] (Some "ws1").

(** u1 renames workflow wf1 and adds workflow wf9. *)
Definition rename_and_add : Json :=
  body_of [("wf1", workflow_json "wf1" "Renamed"); ("wf9", workflow_json "wf9" "New")]
          (Some "ws1").

(** u3, a viewer of ws1, sends workflow wf2 of u2 and a new workflow wf9. *)
Definition viewer_sync : Json :=
  body_of [("wf2", workflow_json "wf2" "Taken"); ("wf9", workflow_json "wf9" "New")]
          (Some "ws1").

Definition sample_browser : Registry.Browser :=
  {| Registry.now := fun n => (5000 + Z.of_nat n)%Z; Registry.has_window := true |}.

(** A client that edits workflow wf1 of workspace ws1 and keeps nothing in
    browser storage. *)
Definition sample_client : Registry.Client :=
  {| Registry.registry :=
       {| Registry.workflows := {["wf1" := JObj [("name", JStr "First")]]};
          Registry.activeWorkflowId := Some "wf1";
          Registry.activeWorkspaceId := Some "ws1";
          Registry.isLoading := false;
          Registry.error := None;
          Registry.deploymentStatuses := ∅ |};
     Registry.workflowStore :=
       {| Registry.blocks := {["b1" := JObj []]};
          Registry.edges := [];
          Registry.loops := ∅;
          Registry.parallels := ∅;
          Registry.ws_isDeployed := false;
          Registry.ws_deployedAt := None;
          Registry.ws_needsRedeployment := None;
          Registry.ws_deploymentStatuses := ∅;
          Registry.hasActiveSchedule := false;
          Registry.history :=
            {| Registry.past := [];
               Registry.present :=
                 {| Registry.h_state := Registry.empty_graph_state;
                    Registry.h_timestamp := 0;
                    Registry.h_action := "Initial state";
                    Registry.h_subblockValues := ∅ |};
               Registry.future := [] |};
          Registry.lastSaved := 0 |};
     Registry.subBlockStore :=
       {| Registry.workflowValues := {["wf1" := JObj []]}; Registry.toolParams := ∅ |};
     Registry.isWorkspaceTransitioning := false;
     Registry.localStorage := ∅;
     Registry.effects := [];
     Registry.readings := 0 |}.

(** The workflow [workflow_json id name] parses to. *)
Definition sample_workflow (id name : string) : Workflow :=
  {| w_id := id; w_name := name; w_description := None; w_color := None;
     w_state := {| s_blocks := []; s_edges := []; s_loops := []; s_parallels := [];
                   s_lastSaved := None; s_isDeployed := None; s_deployedAt := None;
                   s_isPublished := None; s_marketplaceData := JsUndefined |};
     w_marketplaceData := JsUndefined; w_workspaceId := None; w_folderId := JsUndefined |}.

(** The sample database when it rejects every query. *)
Definition faulty_db : Database :=
  {| workflow_table := workflow_table sample_db;
     workspace_table := workspace_table sample_db;
     member_table := member_table sample_db;
     db_fault := Some "connection refused" |}.

(** u1 sends wf1 as the database holds it, but for the description and the
    color, which the client does not name: the row is written. *)
Definition unchanged_sync : Json := body_of [("wf1", workflow_json "wf1" "Flow")] (Some "ws1").

(** A cache with an entry that expired before the clock of the examples
    starts, and one that has not. *)
Definition stale_world : World :=
  {| db := sample_db;
     workspaceMembershipCache :=
       [(cacheKey "u1" "ws1", {| role := "member"; expires := 500 |});
        (cacheKey "u3" "ws1", {| role := "viewer"; expires := 9000 |})];
     ticks := 0;
     trace := [] |}.

(** Two workflows without a workspace, of u1 and of u2, and a workflow of
    u1 in ws1. *)
Definition orphan_db : Database :=
  {| workflow_table := [sample_row "wf1" "u1" None; sample_row "wf2" "u2" None;
                        sample_row "wf3" "u1" (Some "ws1")];
     workspace_table := ["ws1"];
     member_table := [member "ws1" "u1" "member"];
     db_fault := None |}.

Definition all_accepted : MigrationFaults :=
  {| batch_rejects := false; update_rejects := fun _ => false |}.

Definition batch_rejected : MigrationFaults :=
  {| batch_rejects := true; update_rejects := fun _ => false |}.

(** The text browser storage keeps for a workflow of workspace [ws]. *)
Definition stored_in (ws : string) : string :=
  sample_stringify (JObj [("workspaceId", JStr ws)]).

(** A runtime for the examples: it parses the texts [stored_in "ws1"] and
    [stored_in "ws2"] and nothing else. *)
Definition sample_runtime : Registry.Runtime :=
  {| Registry.JSON_parse := fun text =>
       if String.eqb text (stored_in "ws1") then Some (JObj [("workspaceId", JStr "ws1")])
       else if String.eqb text (stored_in "ws2") then Some (JObj [("workspaceId", JStr "ws2")])
       else None;
     Registry.JSON_stringify := sample_stringify;
     Registry.Object_keys := fun storage => map fst (map_to_list storage) |}.

(** The sample client with data of three workflows it does not list in
    browser storage: one of ws1 with its subblock values, one of ws2. *)
Definition stored_client : Registry.Client :=
  Registry.with_localStorage
    (<["workflow-old" := stored_in "ws1"]>
       (<["subblock-values-old" := "{}"]>
          (<["workflow-kept" := stored_in "ws2"]> ∅)))
    sample_client.

(** A setter of the needs-redeployment flag of the workflow store. *)
Definition sample_setter (flag : bool) (s : Registry.WorkflowStore) : Registry.WorkflowStore :=
  {| Registry.blocks := Registry.blocks s; Registry.edges := Registry.edges s;
     Registry.loops := Registry.loops s; Registry.parallels := Registry.parallels s;
     Registry.ws_isDeployed := Registry.ws_isDeployed s;
     Registry.ws_deployedAt := Registry.ws_deployedAt s;
     Registry.ws_needsRedeployment := Some flag;
     Registry.ws_deploymentStatuses := Registry.ws_deploymentStatuses s;
     Registry.hasActiveSchedule := Registry.hasActiveSchedule s;
     Registry.history := Registry.history s;
     Registry.lastSaved := Registry.lastSaved s |}.

(** A workflow published before marketplace data existed. *)
Definition published_json (id name : string) : Json :=
  JObj [("id", JStr id); ("name", JStr name);
        ("state", JObj [("blocks", JObj []); ("edges", JArr []); ("isPublished", JBool true)])].

Definition published_workflow (id name : string) : Workflow :=
  {| w_id := id; w_name := name; w_description := None; w_color := None;
     w_state := {| s_blocks := []; s_edges := []; s_loops := []; s_parallels := [];
                   s_lastSaved := None; s_isDeployed := None; s_deployedAt := None;
                   s_isPublished := Some true; s_marketplaceData := JsUndefined |};
     w_marketplaceData := JsUndefined; w_workspaceId := None; w_folderId := JsUndefined |}.

Definition publishing_sync : Json :=
  body_of [("wf7", published_json "wf7" "Shared")] (Some "ws1").

(** A workflow that names its own workspace and says it is deployed. *)
Definition deployed_json (id name ws : string) : Json :=
  JObj [("id", JStr id); ("name", JStr name);
        ("state", JObj [("blocks", JObj []); ("edges", JArr []); ("isDeployed", JBool true)]);
        ("workspaceId", JStr ws)].

Definition deployed_workflow (id name ws : string) : Workflow :=
  {| w_id := id; w_name := name; w_description := None; w_color := None;
     w_state := {| s_blocks := []; s_edges := []; s_loops := []; s_parallels := [];
                   s_lastSaved := None; s_isDeployed := Some true; s_deployedAt := None;
                   s_isPublished := None; s_marketplaceData := JsUndefined |};
     w_marketplaceData := JsUndefined; w_workspaceId := Some ws; w_folderId := JsUndefined |}.

(** In a sync to ws1, u1 sends wf1 and a new workflow wf9, both deployed
    and both naming workspace ws2. *)
Definition moving_sync : Json :=
  body_of [("wf1", deployed_json "wf1" "Flow" "ws2"); ("wf9", deployed_json "wf9" "New" "ws2")]
          (Some "ws1").

(** A body with an entry under the key [__proto__]. *)
Definition polluted_sync : Json :=
  body_of [("__proto__", workflow_json "wf0" "Hidden"); ("wf9", workflow_json "wf9" "New")] None.

(** A workflow state kept for a workflow of workspace [ws]. *)
Definition sample_persisted (ws : string) : Registry.PersistedState :=
  {| Registry.ps_graph := JObj [("workspaceId", JStr ws)];
     Registry.ps_isDeployed := None;
     Registry.ps_deployedAt := None;
     Registry.ps_deploymentStatuses := None;
     Registry.ps_needsRedeployment := None |}.

(** A persistence for the examples: it reads the texts [stored_in "ws1"]
    and [stored_in "ws2"] and nothing else, and writes the graph and the
    deployment flag of a state. *)
Definition sample_persistence : Registry.Persistence :=
  {| Registry.parse_state := fun text =>
       if String.eqb text (stored_in "ws1") then Some (sample_persisted "ws1")
       else if String.eqb text (stored_in "ws2") then Some (sample_persisted "ws2")
       else None;
     Registry.stringify_state := fun s =>
       sample_stringify
         (JObj [("state", Registry.ps_graph s);
                ("isDeployed", JBool (default false (Registry.ps_isDeployed s)))]) |}.

(** The sample client with the state of its workflow wf1 in browser
    storage. *)
Definition persisted_client : Registry.Client :=
  Registry.with_localStorage (<["workflow-" +:+ "wf1" := stored_in "ws1"]> ∅) sample_client.

(** * Properties *)

Local Arguments MAX_CACHE_SIZE : simpl never.

(** ** Running computations *)

Ltac simpl_world :=
  unfold started in *; unfold with_trace, with_ticks, with_cache, with_table in *;
  cbn [db workspaceMembershipCache ticks trace workflow_table workspace_table
       member_table db_fault fst snd] in *.

Lemma bind_run {A B} (m : M A) (k : A -> M B) (w : World) :
  bind m k w = match m w with
               | (Returned a, w') => k a w'
               | (Thrown e, w') => (Thrown e, w')
               end.
Proof. reflexivity. Qed.

Lemma try_catch_run {A} (m : M A) (h : Exn -> M A) (w : World) :
  try_catch m h w = match m w with
                    | (Returned a, w') => (Returned a, w')
                    | (Thrown e, w') => h e w'
                    end.
Proof. reflexivity. Qed.

Lemma select_run {A} (q : Query) (rows : Database -> list A) (w : World) :
  select q rows w =
  (match db_fault (db w) with
   | Some message => Thrown (Error message)
   | None => Returned (rows (db w))
   end,
   with_trace (trace w ++ [Queried q]) w).
Proof.
  unfold select, bind, log, get_world, throw, ret. simpl.
  destruct (db_fault (db w)); reflexivity.
Qed.

Lemma events_since_app (w w' : World) (new : list Event) :
  trace w' = trace w ++ new -> events_since w w' = new.
Proof. intros H. unfold events_since. rewrite H. apply drop_app_length. Qed.

Lemma events_since_same (w w' : World) :
  trace w' = trace w -> events_since w w' = [].
Proof. intros H. unfold events_since. rewrite H. apply drop_all. Qed.

(** ** The membership check *)

Lemma cleanup_run (E : Env) (w : World) :
  exists c n, opportunistic_cleanup E w = (Returned tt, with_ticks n (with_cache c w)).
Proof.
  unfold opportunistic_cleanup. rewrite bind_run. unfold get_world at 1.
  destruct (_ <? _)%nat.
  - unfold cleanupExpiredCacheEntries, bind, Date_now, get_world, set_cache. simpl.
    match goal with |- context [if ?b then _ else _] => destruct b end; eauto.
  - exists (workspaceMembershipCache w), (ticks w). destruct w; reflexivity.
Qed.

Lemma cleanup_trace (E : Env) (w : World) (t : list Event) :
  opportunistic_cleanup E (with_trace t w) =
  (fst (opportunistic_cleanup E w), with_trace t (snd (opportunistic_cleanup E w))).
Proof.
  unfold opportunistic_cleanup. rewrite !bind_run. unfold get_world.
  simpl_world.
  destruct (_ <? _)%nat.
  - unfold cleanupExpiredCacheEntries, bind, Date_now, get_world, set_cache. simpl.
    match goal with |- context [if ?b then _ else _] => destruct b end; reflexivity.
  - reflexivity.
Qed.

Lemma query_membership_run (E : Env) (userId workspaceId : string) (w : World) :
  query_membership E userId workspaceId w =
  match db_fault (db w), membership_rows workspaceId userId (db w) with
  | None, membership :: _ =>
      (Returned (Some (m_role membership)),
       with_cache (map_set (cacheKey userId workspaceId)
                     {| role := m_role membership;
                        expires := (clock E (ticks w) + CACHE_TTL)%Z |}
                     (workspaceMembershipCache w))
         (with_ticks (S (ticks w))
            (with_trace (trace w ++ [Queried (MembershipOf workspaceId userId)]) w)))
  | _, _ => (Returned None,
             with_trace (trace w ++ [Queried (MembershipOf workspaceId userId)]) w)
  end.
Proof.
  unfold query_membership. rewrite try_catch_run, bind_run, select_run.
  destruct (db_fault (db w)); [reflexivity|].
  destruct (membership_rows workspaceId userId (db w)); reflexivity.
Qed.

(** The check never throws, leaves the tables alone and asks the database
    at most once. *)
Lemma verify_effects (E : Env) (userId workspaceId : string) (w : World) :
  exists r w', verifyWorkspaceMembership E userId workspaceId w = (Returned r, w')
    /\ db w' = db w
    /\ (trace w' = trace w
        \/ trace w' = trace w ++ [Queried (MembershipOf workspaceId userId)]).
Proof.
  unfold verifyWorkspaceMembership. rewrite bind_run.
  destruct (cleanup_run E w) as (c & n & ->).
  rewrite bind_run. unfold get_world at 1. simpl_world.
  destruct (property c (cacheKey userId workspaceId)) as [entry|].
  - rewrite bind_run. unfold Date_now at 1. simpl_world.
    destruct (_ <? _)%Z.
    + do 2 eexists. split; [reflexivity|]. cbn. auto.
    + rewrite query_membership_run. simpl_world.
      destruct (db_fault (db w)); [|destruct (membership_rows _ _ _)];
        (do 2 eexists; split; [reflexivity|]; cbn; auto).
  - rewrite query_membership_run. simpl_world.
    destruct (db_fault (db w)); [|destruct (membership_rows _ _ _)];
        (do 2 eexists; split; [reflexivity|]; cbn; auto).
Qed.

(** Its answer does not depend on the trace. *)
Lemma verify_trace (E : Env) (userId workspaceId : string) (w : World) (t : list Event) :
  verifyWorkspaceMembership E userId workspaceId (with_trace t w) =
  (fst (verifyWorkspaceMembership E userId workspaceId w),
   with_trace (t ++ events_since w (snd (verifyWorkspaceMembership E userId workspaceId w)))
              (snd (verifyWorkspaceMembership E userId workspaceId w))).
Proof.
  unfold verifyWorkspaceMembership. rewrite !bind_run, cleanup_trace.
  destruct (cleanup_run E w) as (c & n & ->).
  simpl_world. rewrite !bind_run. unfold get_world. simpl_world.
  destruct (property c (cacheKey userId workspaceId)) as [entry|].
  - rewrite !bind_run. unfold Date_now. simpl_world.
    destruct (_ <? _)%Z.
    + cbn. unfold events_since. cbn. rewrite drop_all, app_nil_r. reflexivity.
    + rewrite !query_membership_run. simpl_world.
      destruct (db_fault (db w)); [|destruct (membership_rows _ _ _)];
        cbn; unfold events_since; cbn; rewrite drop_app_length; reflexivity.
  - rewrite !query_membership_run. simpl_world.
      destruct (db_fault (db w)); [|destruct (membership_rows _ _ _)];
        cbn; unfold events_since; cbn; rewrite drop_app_length; reflexivity.
Qed.

Lemma verify_same_state (E : Env) (userId workspaceId : string) (w1 w0 : World) :
  db w1 = db w0 ->
  workspaceMembershipCache w1 = workspaceMembershipCache w0 ->
  ticks w1 = ticks w0 ->
  verifyWorkspaceMembership E userId workspaceId w1 =
  (fst (verifyWorkspaceMembership E userId workspaceId w0),
   with_trace (trace w1 ++ events_since w0 (snd (verifyWorkspaceMembership E userId workspaceId w0)))
              (snd (verifyWorkspaceMembership E userId workspaceId w0))).
Proof.
  intros Hd Hc Ht. rewrite <- verify_trace. f_equal.
  destruct w1, w0; cbn in *; subst; reflexivity.
Qed.

(** ** The reconciliation *)

Lemma process_workflows_run (E : Env) (userId : string) (workspaceId userRole : option string)
    (dbWorkflowMap : list (string * WorkflowRow)) (now : JsDate)
    (entries : list (string * Workflow)) (w : World) :
  process_workflows E userId workspaceId userRole dbWorkflowMap now entries w =
  (Returned (flat_map (pushed_operations E userId workspaceId userRole dbWorkflowMap now) entries),
   with_trace (trace w ++ map save_event entries) w).
Proof.
  revert w. induction entries as [|entry rest IH]; intros w.
  - cbn. unfold ret, with_trace. rewrite app_nil_r. destruct w; reflexivity.
  - cbn [process_workflows flat_map map]. rewrite bind_run.
    unfold process_workflow at 1. rewrite bind_run. unfold log at 1, ret at 1.
    rewrite bind_run, IH. unfold ret, with_trace, save_event. cbn.
    rewrite <- app_assoc. reflexivity.
Qed.

Lemma execute_all_run (E : Env) (operations : list Operation) (w : World) :
  db_fault (db w) = None ->
  execute_all E operations w =
  (Returned tt,
   with_table (apply_operations E operations (workflow_table (db w)))
     (with_trace (trace w ++ map Executed operations) w)).
Proof.
  revert w. induction operations as [|op rest IH]; intros w Hok.
  - cbn. unfold ret, with_table, with_trace. rewrite app_nil_r.
    destruct w as [[]]; cbn in *. reflexivity.
  - cbn [execute_all]. rewrite bind_run. unfold execute at 1.
    rewrite bind_run. unfold log at 1. rewrite bind_run. unfold get_world at 1.
    cbn [with_trace db]. rewrite Hok. unfold set_workflow_table at 1.
    rewrite IH by (cbn; exact Hok).
    unfold with_table, with_trace, apply_operations. cbn.
    rewrite <- app_assoc. reflexivity.
Qed.

Lemma POST_reconcile_run (E : Env) (userId : string) (payload : SyncPayload)
    (userRole : option string) (startTime : Z) (w : World) :
  db_fault (db w) = None ->
  POST_reconcile E userId payload userRole startTime w =
  (Returned {| status := 200;
               body := SuccessBody (clock E (S (ticks w)) - startTime)
                         (length (sync_operations E userId payload userRole (db w)
                                    (Date (clock E (ticks w)))))
                         (length (p_workflows payload)) |},
   with_ticks (S (S (ticks w)))
     (with_table (apply_operations E
                    (sync_operations E userId payload userRole (db w) (Date (clock E (ticks w))))
                    (workflow_table (db w)))
        (with_trace (trace w ++ [Queried (reconcile_query userId (p_workspaceId payload))]
                       ++ map save_event (p_workflows payload)
                       ++ map Executed (sync_operations E userId payload userRole (db w)
                                          (Date (clock E (ticks w)))))
           w))).
Proof.
  intros Hok. unfold POST_reconcile. rewrite bind_run.
  assert (Hsel :
    match given (p_workspaceId payload) with
    | Some ws => select (WorkflowsOfWorkspace ws) (workflows_of_workspace ws)
    | None => select (WorkflowsOfUser userId) (workflows_of_user userId)
    end w = (Returned (dbWorkflows_of userId (p_workspaceId payload) (db w)),
             with_trace (trace w ++ [Queried (reconcile_query userId (p_workspaceId payload))]) w)).
  { unfold dbWorkflows_of, reconcile_query.
    destruct (given (p_workspaceId payload)); rewrite select_run, Hok; reflexivity. }
  rewrite Hsel. clear Hsel.
  rewrite bind_run. unfold new_Date. rewrite bind_run. unfold Date_now at 1.
  cbn [ret with_trace ticks].
  rewrite bind_run, process_workflows_run.
  rewrite bind_run, execute_all_run by (cbn; exact Hok).
  rewrite bind_run. unfold Date_now at 1. unfold ret.
  unfold sync_operations, dbWorkflowMap_of.
  unfold with_ticks, with_table, with_trace. cbn.
  rewrite <- !app_assoc. reflexivity.
Qed.

Lemma POST_reconcile_synced (E : Env) (req : PostRequest) (w w1 : World) (userId : string)
    (json : Json) (payload : SyncPayload) (userRole : option string) (queries : list Event) :
  session_user (post_session req) = Some userId ->
  post_body req = Some json ->
  SyncPayloadSchema_parse (Date_parse E) json = ZodOk payload ->
  db_fault (db w) = None ->
  checked_role E userId payload w userRole ->
  db w1 = db w ->
  trace w1 = trace w ++ queries ->
  Forall (fun e => is_select e = true) queries ->
  exists resp w',
    POST_reconcile E userId payload userRole (clock E (ticks w)) w1 = (Returned resp, w')
    /\ synced E req w resp w' userId payload userRole (Date (clock E (ticks w1))).
Proof.
  intros Hs Hb Hp Hok Hrole Hdb Htr Hq.
  rewrite POST_reconcile_run by (rewrite Hdb; exact Hok).
  do 2 eexists. split; [reflexivity|].
  unfold synced. rewrite Hdb.
  split; [exact Hs|]. split; [eauto|]. split; [exact Hok|]. split; [exact Hrole|].
  split; [eauto|]. split.
  - exists (queries ++ [Queried (reconcile_query userId (p_workspaceId payload))]).
    split.
    + apply Forall_app. split; [exact Hq|]. repeat constructor.
    + apply events_since_app. simpl_world. rewrite Htr, <- !app_assoc. reflexivity.
  - simpl_world. reflexivity.
Qed.

Lemma quiet_selects (w w' : World) (queries : list Event) :
  db w' = db w -> trace w' = trace w ++ queries ->
  Forall (fun e => is_select e = true) queries -> quiet w w'.
Proof.
  intros Hdb Htr Hq. split; [|exact Hdb].
  rewrite (events_since_app _ _ _ Htr). exact Hq.
Qed.

Lemma POST_authorize_run (E : Env) (req : PostRequest) (w : World) (userId : string)
    (json : Json) (payload : SyncPayload) (queries : list Event) :
  session_user (post_session req) = Some userId ->
  post_body req = Some json ->
  SyncPayloadSchema_parse (Date_parse E) json = ZodOk payload ->
  Forall (fun e => is_select e = true) queries ->
  sync_outcome E req w userId payload
    (POST_authorize E userId payload (clock E (ticks w))
       (with_trace (trace w ++ queries) (started w))).
Proof.
  intros Hs Hb Hp Hq. unfold POST_authorize.
  destruct (given (p_workspaceId payload)) as [ws|] eqn:Hg.
  - rewrite bind_run, select_run. simpl_world.
    destruct (db_fault (db w)) as [message|] eqn:Hok.
    { cbn. eapply quiet_selects; [reflexivity|cbn; rewrite <- app_assoc; reflexivity|].
      apply Forall_app. split; [exact Hq|]. repeat constructor. }
    destruct (workspace_rows ws (db w)) as [|found more] eqn:Hws.
    { cbn. left. split; [discriminate|].
      eapply quiet_selects; [reflexivity|cbn; rewrite <- app_assoc; reflexivity|].
      apply Forall_app. split; [exact Hq|]. repeat constructor. }
    cbn [length Nat.ltb Nat.leb negb].
    rewrite bind_run.
    rewrite (verify_same_state E userId ws _ (started w)) by reflexivity.
    destruct (verify_effects E userId ws (started w)) as (r & w2 & Hv & Hdb & Htr).
    assert (Hsel : Forall (fun e => is_select e = true) (events_since (started w) w2)).
    { destruct Htr as [Htr|Htr];
        [rewrite (events_since_same _ _ Htr)|rewrite (events_since_app _ _ _ Htr)];
        repeat constructor. }
    rewrite Hv. simpl_world.
    destruct (truthy string_truthy (of_nullable r)) eqn:Hr; cbn [negb].
    + pose proof (POST_reconcile_synced E req w
                    {| db := db w2; workspaceMembershipCache := workspaceMembershipCache w2;
                       ticks := ticks w2;
                       trace := ((trace w ++ queries) ++ [Queried (WorkspaceById ws)])
                                  ++ events_since
                                       {| db := db w;
                                          workspaceMembershipCache := workspaceMembershipCache w;
                                          ticks := S (ticks w); trace := trace w |} w2 |}
                    userId json payload r
                    (queries ++ [Queried (WorkspaceById ws)]
                       ++ events_since
                            {| db := db w;
                               workspaceMembershipCache := workspaceMembershipCache w;
                               ticks := S (ticks w); trace := trace w |} w2)
                    Hs Hb Hp Hok) as Hrec.
      destruct Hrec as (resp & w' & Heq & Hsync).
      * unfold checked_role. rewrite Hg. simpl_world. rewrite Hws, Hv. cbn. auto.
      * exact Hdb.
      * cbn. rewrite <- !app_assoc. reflexivity.
      * apply Forall_app. split; [exact Hq|]. constructor; [reflexivity|exact Hsel].
      * rewrite Heq. cbn. right. eauto.
    + cbn. left. split; [discriminate|].
      eapply quiet_selects; [exact Hdb|cbn; rewrite <- !app_assoc; reflexivity|].
      apply Forall_app. split; [exact Hq|]. constructor; [reflexivity|exact Hsel].
  - destruct (db_fault (db w)) as [message|] eqn:Hok.
    + unfold POST_reconcile. rewrite bind_run, Hg, select_run. simpl_world. rewrite Hok.
      cbn. eapply quiet_selects; [reflexivity|cbn; rewrite <- app_assoc; reflexivity|].
      apply Forall_app. split; [exact Hq|]. repeat constructor.
    + pose proof (POST_reconcile_synced E req w (with_trace (trace w ++ queries) (started w))
                    userId json payload None queries Hs Hb Hp Hok) as Hrec.
      destruct Hrec as (resp & w' & Heq & Hsync).
      * unfold checked_role. rewrite Hg. reflexivity.
      * reflexivity.
      * reflexivity.
      * exact Hq.
      * rewrite Heq. cbn. right. eauto.
Qed.

Lemma with_trace_same (w : World) : with_trace (trace w) w = w.
Proof. destruct w; reflexivity. Qed.

Lemma POST_guard_run (E : Env) (req : PostRequest) (w : World) (userId : string)
    (json : Json) (payload : SyncPayload) :
  session_user (post_session req) = Some userId ->
  post_body req = Some json ->
  SyncPayloadSchema_parse (Date_parse E) json = ZodOk payload ->
  sync_outcome E req w userId payload
    (POST_guard E userId payload (clock E (ticks w)) (started w)).
Proof.
  intros Hs Hb Hp. unfold POST_guard.
  assert (Hdirect : sync_outcome E req w userId payload
                      (POST_authorize E userId payload (clock E (ticks w)) (started w))).
  { pose proof (POST_authorize_run E req w userId json payload [] Hs Hb Hp (List.Forall_nil _)) as H.
    rewrite app_nil_r in H. change (trace w) with (trace (started w)) in H.
    rewrite with_trace_same in H. exact H. }
  destruct (length (p_workflows payload) =? 0)%nat; [|exact Hdirect].
  rewrite bind_run.
  set (q := match given (p_workspaceId payload) with
            | Some ws => OneWorkflowOfWorkspace ws
            | None => OneWorkflowOfUser userId
            end).
  set (rows := fun d : Database =>
                 match given (p_workspaceId payload) with
                 | Some ws => firstn 1 (workflows_of_workspace ws d)
                 | None => firstn 1 (workflows_of_user userId d)
                 end).
  assert (Hsel :
    match given (p_workspaceId payload) with
    | Some ws => select (OneWorkflowOfWorkspace ws)
                        (fun d => firstn 1 (workflows_of_workspace ws d))
    | None => select (OneWorkflowOfUser userId)
                     (fun d => firstn 1 (workflows_of_user userId d))
    end (started w) = select q rows (started w)).
  { unfold q, rows. destruct (given (p_workspaceId payload)); reflexivity. }
  rewrite Hsel, select_run. clear Hsel.
  change (db (started w)) with (db w). change (trace (started w)) with (trace w).
  destruct (db_fault (db w)) as [message|] eqn:Hok.
  { cbn. eapply quiet_selects; [reflexivity|cbn; reflexivity|]. repeat constructor. }
  destruct (rows (db w)) as [|existing more].
  - cbn [length Nat.ltb Nat.leb].
    apply (POST_authorize_run E req w userId json payload [Queried q] Hs Hb Hp).
    repeat constructor.
  - cbn. left. split; [discriminate|].
    eapply quiet_selects; [reflexivity|cbn; reflexivity|]. repeat constructor.
Qed.

(** Every POST answers; it either answers 200 after a sync, or answers
    something else having done nothing but selects. *)
Lemma POST_run (E : Env) (req : PostRequest) (w : World) :
  exists resp w', POST E req w = (Returned resp, w')
    /\ ((status resp <> 200%Z /\ quiet w w')
        \/ exists userId payload userRole now, synced E req w resp w' userId payload userRole now).
Proof.
  unfold POST. rewrite bind_run. unfold Date_now at 1. rewrite try_catch_run.
  fold (started w).
  destruct (session_user (post_session req)) as [userId|] eqn:Hs.
  2:{ do 2 eexists. split; [reflexivity|]. left. split; [discriminate|].
      eapply quiet_selects; [reflexivity|cbn; symmetry; apply app_nil_r|]. constructor. }
  rewrite bind_run.
  destruct (post_body req) as [json|] eqn:Hb.
  2:{ do 2 eexists. split; [reflexivity|]. left. split; [discriminate|].
      eapply quiet_selects; [reflexivity|cbn; symmetry; apply app_nil_r|]. constructor. }
  unfold ret at 1. rewrite try_catch_run, bind_run.
  destruct (SyncPayloadSchema_parse (Date_parse E) json) as [payload|issues] eqn:Hp.
  2:{ do 2 eexists. split; [reflexivity|]. left. split; [discriminate|].
      eapply quiet_selects; [reflexivity|cbn; symmetry; apply app_nil_r|]. constructor. }
  unfold ret at 1.
  pose proof (POST_guard_run E req w userId json payload Hs Hb Hp) as Hout.
  destruct (POST_guard E userId payload (clock E (ticks w)) (started w)) as [[resp|e] w'].
  - do 2 eexists. split; [reflexivity|]. cbn in Hout.
    destruct Hout as [Hout|(userRole & now & Hout)]; [left; exact Hout|right; eauto].
  - cbn in Hout. destruct Hout as [Hsel Hdb].
    destruct e; (do 2 eexists; split; [reflexivity|]; left; split; [discriminate|]);
      (split; [exact Hsel|exact Hdb]).
Qed.

(** ** What the writes contain *)

Lemma executed_app (a b : list Event) : executed (a ++ b) = executed a ++ executed b.
Proof. unfold executed. apply flat_map_app. Qed.

Lemma executed_selects (queries : list Event) :
  Forall (fun e => is_select e = true) queries -> executed queries = [].
Proof.
  induction 1 as [|e rest He _ IH]; [reflexivity|].
  destruct e; try discriminate He. exact IH.
Qed.

Lemma executed_saves (entries : list (string * Workflow)) :
  executed (map save_event entries) = [].
Proof. induction entries as [|e rest IH]; [reflexivity|exact IH]. Qed.

Lemma executed_writes (operations : list Operation) :
  executed (map Executed operations) = operations.
Proof.
  induction operations as [|op rest IH]; [reflexivity|].
  cbn. f_equal. exact IH.
Qed.

(** The writes of a handler that did nothing but selects, and of a sync. *)
Lemma quiet_executed (w w' : World) : quiet w w' -> executed (events_since w w') = [].
Proof. intros [H _]. apply executed_selects, H. Qed.

Lemma synced_executed (E : Env) (req : PostRequest) (w : World) (resp : Response)
    (w' : World) (userId : string) (payload : SyncPayload) (userRole : option string)
    (now : JsDate) :
  synced E req w resp w' userId payload userRole now ->
  executed (events_since w w') = sync_operations E userId payload userRole (db w) now.
Proof.
  intros (_ & _ & _ & _ & _ & (queries & Hq & Hev) & _).
  rewrite Hev, !executed_app, (executed_selects _ Hq), executed_saves, executed_writes.
  reflexivity.
Qed.

Lemma assign_other (changed : bool) (key : string) (value : ColumnValue)
    (acc : bool * gmap string ColumnValue) (k : string) :
  key <> k -> snd (assign changed key value acc) !! k = snd acc !! k.
Proof.
  intros Hne. unfold assign. destruct changed; [|reflexivity].
  cbn. apply lookup_insert_ne, Hne.
Qed.

(** The comparisons never assign [deployedState]. *)
Lemma compare_workflow_deployedState (E : Env) (dbWorkflow : WorkflowRow)
    (clientWorkflow : Workflow) (workspaceId : option string) (state : StateValue) :
  snd (compare_workflow E dbWorkflow clientWorkflow workspaceId state) !! "deployedState" = None.
Proof.
  unfold compare_workflow. cbv zeta.
  repeat (rewrite assign_other by discriminate). reflexivity.
Qed.

Lemma pushed_spare_deployedState (E : Env) (userId : string)
    (workspaceId userRole : option string) (dbWorkflowMap : list (string * WorkflowRow))
    (now : JsDate) (entry : string * Workflow) (op : Operation) :
  In op (pushed_operations E userId workspaceId userRole dbWorkflowMap now entry) ->
  spares_deployedState op.
Proof.
  unfold pushed_operations.
  destruct (property dbWorkflowMap (fst entry)) as [row|].
  - destruct (negb (canUpdate row userId workspaceId userRole)); [intros []|].
    unfold update_operation.
    pose proof (compare_workflow_deployedState E row (migrate_published (snd entry)) workspaceId
      (stateToSave (saveWorkflowToNormalizedTables E (fst entry)
                      (normalized_input (migrate_published (snd entry))))
                   (migrate_published (snd entry)))) as Hc.
    destruct (compare_workflow _ _ _ _ _) as [needsUpdate updateData].
    destruct needsUpdate; [|intros []].
    intros [<-|[]]. cbn in *.
    rewrite !lookup_insert_ne by discriminate. exact Hc.
  - intros [<-|[]]. reflexivity.
Qed.

Lemma sync_operations_spare (E : Env) (userId : string) (payload : SyncPayload)
    (userRole : option string) (d : Database) (now : JsDate) :
  Forall spares_deployedState (sync_operations E userId payload userRole d now).
Proof.
  apply List.Forall_forall. intros op Hin. unfold sync_operations in Hin.
  apply in_flat_map in Hin. destruct Hin as (entry & _ & Hin).
  eapply pushed_spare_deployedState, Hin.
Qed.

Lemma apply_operation_deployedState (E : Env) (op : Operation) (table : list WorkflowRow)
    (i : nat) (r : WorkflowRow) :
  spares_deployedState op -> table !! i = Some r ->
  exists r', apply_operation E op table !! i = Some r'
             /\ r_deployedState r' = r_deployedState r.
Proof.
  intros Hop Hi. destruct op as [values|data target]; cbn in *.
  - exists r. split; [|reflexivity]. apply lookup_app_l_Some, Hi.
  - rewrite list_lookup_fmap, Hi. cbn.
    destruct (String.eqb (r_id r) target); eexists; (split; [reflexivity|]); [|reflexivity].
    cbn. rewrite Hop. reflexivity.
Qed.

Lemma apply_operations_deployedState (E : Env) (operations : list Operation)
    (table : list WorkflowRow) (i : nat) (r : WorkflowRow) :
  Forall spares_deployedState operations -> table !! i = Some r ->
  exists r', apply_operations E operations table !! i = Some r'
             /\ r_deployedState r' = r_deployedState r.
Proof.
  intros Hall. revert table r.
  induction Hall as [|op rest Hop _ IH]; intros table r Hi.
  - exists r. split; [exact Hi|reflexivity].
  - destruct (apply_operation_deployedState E op table i r Hop Hi) as (r1 & H1 & E1).
    destruct (IH _ _ H1) as (r2 & H2 & E2).
    exists r2. split; [exact H2|]. rewrite E2. exact E1.
Qed.

(** C9.  Whatever the request, the writes of POST leave [deployedState]
    alone: no update names the column, every insert sets it to [null], and
    every row the table held keeps the value it had. *)
Theorem post_preserves_deployedState (E : Env) (req : PostRequest) (w : World) :
  Forall spares_deployedState (executed (events_since w (snd (POST E req w))))
  /\ forall i r, workflow_table (db w) !! i = Some r ->
       exists r', workflow_table (db (snd (POST E req w))) !! i = Some r'
                  /\ r_deployedState r' = r_deployedState r.
Proof.
  destruct (POST_run E req w) as (resp & w' & -> & Hrun). cbn [snd].
  destruct Hrun as [[_ Hquiet]|(userId & payload & userRole & now & Hsync)].
  - rewrite (quiet_executed _ _ Hquiet). split; [constructor|].
    intros i r Hi. destruct Hquiet as [_ ->]. eauto.
  - rewrite (synced_executed _ _ _ _ _ _ _ _ _ Hsync). split.
    + apply sync_operations_spare.
    + intros i r Hi. destruct Hsync as (_ & _ & _ & _ & _ & _ & ->).
      apply apply_operations_deployedState; [apply sync_operations_spare|exact Hi].
Qed.

(** ** The comparisons *)

Lemma string_eqb_false (a b : string) : String.eqb a b = false <-> a <> b.
Proof. apply String.eqb_neq. Qed.

Lemma strict_neq_string (a b : Nullish string) :
  strict_neq String.eqb a b = true <-> a <> b.
Proof.
  unfold strict_neq. rewrite negb_true_iff.
  destruct a as [| |x], b as [| |y]; cbn; try (split; [discriminate|congruence]);
    try (split; [discriminate|intros H; exfalso; apply H; reflexivity]).
  rewrite String.eqb_neq. split; congruence.
Qed.

Lemma strict_neq_time (a b : option JsDate) :
  strict_neq number_eqb (time_of a) (time_of b) = true <-> ~ same_instant a b.
Proof.
  unfold strict_neq, time_of. rewrite negb_true_iff.
  destruct a as [[x|]|], b as [[y|]|]; cbn;
    try (split; [intros _ []|reflexivity]);
    try (split; [discriminate|intros H; exfalso; apply H; exact I]).
  rewrite Z.eqb_neq. tauto.
Qed.

Lemma assign_flag (changed : bool) (key : string) (value : ColumnValue)
    (acc : bool * gmap string ColumnValue) :
  fst (assign changed key value acc) = changed || fst acc.
Proof. unfold assign. destruct changed; reflexivity. Qed.

Lemma migrate_published_state (clientWorkflow : Workflow) :
  w_state (migrate_published clientWorkflow) = w_state clientWorkflow.
Proof. unfold migrate_published. destruct (_ && _); reflexivity. Qed.

Lemma migrate_published_fields (cw : Workflow) :
  w_id (migrate_published cw) = w_id cw
  /\ w_name (migrate_published cw) = w_name cw
  /\ w_description (migrate_published cw) = w_description cw
  /\ w_color (migrate_published cw) = w_color cw
  /\ w_state (migrate_published cw) = w_state cw
  /\ w_workspaceId (migrate_published cw) = w_workspaceId cw
  /\ w_folderId (migrate_published cw) = w_folderId cw.
Proof. unfold migrate_published. destruct (_ && _); repeat split. Qed.

Lemma stateToSave_choice (result : NormalizedResult) (clientWorkflow : Workflow) :
  blob_or_client result (w_state clientWorkflow) (stateToSave result clientWorkflow).
Proof.
  unfold blob_or_client, stateToSave. split.
  - intros blob Hs Hb Ht. rewrite Hb, Hs, Ht. reflexivity.
  - intros [Hs|[Hb|(blob & Hb & Ht)]].
    + rewrite Hs. destruct (jsonBlob result); reflexivity.
    + rewrite Hb. reflexivity.
    + rewrite Hb, Ht, andb_false_r. reflexivity.
Qed.

(** What the comparisons read in a client workflow, once the legacy
    migration of lines 381-385 has run on it. *)
Lemma migrate_published_reads (cw : Workflow) (workspaceId : option string) :
  effectiveWorkspaceId (migrate_published cw) workspaceId
  = of_optional (stated_workspace cw workspaceId)
  /\ or_null string_truthy (w_folderId (migrate_published cw)) = stated_folder cw
  /\ w_marketplaceData (migrate_published cw) = stated_marketplace cw
  /\ clientIsDeployed (migrate_published cw) = stated_isDeployed cw
  /\ clientDeployedAt (migrate_published cw) = s_deployedAt (w_state cw).
Proof.
  destruct (migrate_published_fields cw)
    as (Mid & Mname & Mdesc & Mcolor & Mstate & Mws & Mfolder).
  unfold effectiveWorkspaceId, clientIsDeployed, clientDeployedAt.
  rewrite Mws, Mfolder, Mstate. repeat split.
  - unfold stated_workspace, js_or. destruct (w_workspaceId cw) as [own|]; cbn; [|reflexivity].
    unfold string_truthy. destruct (String.eqb own ""); reflexivity.
  - unfold stated_folder. destruct (w_folderId cw) as [| |folder]; cbn; try reflexivity.
    unfold string_truthy. destruct (String.eqb folder ""); reflexivity.
  - unfold migrate_published, stated_marketplace.
    destruct (w_marketplaceData cw) as [| |data] eqn:Hdata,
             (s_isPublished (w_state cw)) as [[|]|];
      cbn; first [reflexivity|exact Hdata].
  - unfold stated_isDeployed. destruct (s_isDeployed (w_state cw)) as [[|]|]; reflexivity.
  - destruct (s_deployedAt (w_state cw)); reflexivity.
Qed.

Lemma marketplace_neq (E : Env) (column : option Json) (client : Nullish MarketplaceData) :
  strict_neq String.eqb (stringify_column E column) (stringify_marketplace E client) = true
  <-> marketplace_differs E column client.
Proof.
  rewrite strict_neq_string.
  unfold stringify_column, stringify_marketplace, marketplace_differs.
  destruct client as [| |data], column as [j|]; cbn;
    (split; [intros H|intros H Heq]); try exact I; try discriminate Heq;
    try (intros Heq; apply H; congruence); apply H; congruence.
Qed.

(** [needsUpdate] is set exactly when a compared field differs. *)
Lemma needsUpdate_iff (E : Env) (dbWorkflow : WorkflowRow) (clientWorkflow : Workflow)
    (workspaceId : option string) (state : StateValue) :
  fst (compare_workflow E dbWorkflow (migrate_published clientWorkflow) workspaceId state) = true
  <-> fields_differ E dbWorkflow clientWorkflow workspaceId state.
Proof.
  destruct (migrate_published_fields clientWorkflow)
    as (Mid & Mname & Mdesc & Mcolor & Mstate & Mws & Mfolder).
  destruct (migrate_published_reads clientWorkflow workspaceId)
    as (Rws & Rfolder & Rmarket & Rdeployed & Rat).
  unfold compare_workflow, fields_differ. cbv zeta.
  rewrite Rws, Rfolder, Rmarket, Rdeployed, Rat, Mname, Mdesc, Mcolor.
  rewrite !assign_flag. cbn [fst]. rewrite orb_false_r, !orb_true_iff.
  rewrite marketplace_neq, !strict_neq_string, strict_neq_time, !negb_true_iff, !String.eqb_neq.
  assert (Hb : Bool.eqb (r_isDeployed dbWorkflow) (stated_isDeployed clientWorkflow) = false
               <-> r_isDeployed dbWorkflow <> stated_isDeployed clientWorkflow).
  { destruct (r_isDeployed dbWorkflow), (stated_isDeployed clientWorkflow); cbn;
      split; congruence. }
  assert (Hf : of_nullable (r_folderId dbWorkflow) <> of_nullable (stated_folder clientWorkflow)
               <-> r_folderId dbWorkflow <> stated_folder clientWorkflow).
  { destruct (r_folderId dbWorkflow), (stated_folder clientWorkflow);
      cbn; split; congruence. }
  rewrite Hb, Hf. tauto.
Qed.

(** The check of lines 443-445 in the words of the specification. *)
Lemma canUpdate_iff (row : WorkflowRow) (userId : string)
    (workspaceId userRole : option string) :
  canUpdate row userId workspaceId userRole = true
  <-> may_update userId workspaceId userRole row.
Proof.
  unfold canUpdate, may_update, role_is.
  rewrite orb_true_iff, andb_true_iff, !orb_true_iff, String.eqb_eq.
  assert (Hws : truthy string_truthy (of_optional workspaceId) = true
                <-> exists ws, workspaceId = Some ws /\ ws <> "").
  { destruct workspaceId as [ws|]; cbn.
    - unfold string_truthy. rewrite negb_true_iff, String.eqb_neq. split.
      + intros H. exists ws. split; [reflexivity|exact H].
      + intros (ws' & [= <-] & H). exact H.
    - split; [discriminate|]. intros (ws' & H & _). discriminate H. }
  assert (Hrole : forall name,
            strict_eq String.eqb (of_nullable userRole) (JsValue name) = true
            <-> userRole = Some name).
  { intros name. destruct userRole as [r|]; cbn.
    - rewrite String.eqb_eq. split; congruence.
    - split; discriminate. }
  rewrite Hws, !Hrole. tauto.
Qed.

Lemma blob_or_client_unique (result : NormalizedResult) (clientState : WorkflowState)
    (v v' : StateValue) :
  blob_or_client result clientState v -> blob_or_client result clientState v' -> v = v'.
Proof.
  intros [Hblob Hclient] [Hblob' Hclient'].
  destruct (success result) eqn:Hs.
  - destruct (jsonBlob result) as [blob|] eqn:Hj.
    + destruct (json_truthy blob) eqn:Ht.
      * rewrite (Hblob blob eq_refl eq_refl Ht), (Hblob' blob eq_refl eq_refl Ht). reflexivity.
      * rewrite Hclient, Hclient'; [reflexivity| |]; right; right; exists blob; auto.
    + rewrite Hclient, Hclient'; auto.
  - rewrite Hclient, Hclient'; auto.
Qed.

Lemma update_operation_issued (E : Env) (id : string) (dbWorkflow : WorkflowRow)
    (clientWorkflow : Workflow) (workspaceId : option string) (state : StateValue)
    (now : JsDate) :
  (exists data, In (UpdateWorkflow data id)
                   (update_operation E id dbWorkflow clientWorkflow workspaceId state now))
  <-> fst (compare_workflow E dbWorkflow clientWorkflow workspaceId state) = true.
Proof.
  unfold update_operation.
  destruct (compare_workflow E dbWorkflow clientWorkflow workspaceId state)
    as [needsUpdate updateData].
  destruct needsUpdate; cbn.
  - split; [reflexivity|]. intros _. eexists. left. reflexivity.
  - split; [intros [_ []]|discriminate].
Qed.

(** An update pushed for an entry targets the key of the entry. *)
Lemma pushed_update_target (E : Env) (userId : string) (workspaceId userRole : option string)
    (dbWorkflowMap : list (string * WorkflowRow)) (now : JsDate)
    (entry : string * Workflow) (data : gmap string ColumnValue) (target : string) :
  In (UpdateWorkflow data target)
     (pushed_operations E userId workspaceId userRole dbWorkflowMap now entry) ->
  target = fst entry.
Proof.
  unfold pushed_operations.
  destruct (property dbWorkflowMap (fst entry)) as [row|].
  - destruct (negb (canUpdate row userId workspaceId userRole)); [intros []|].
    unfold update_operation. destruct (compare_workflow _ _ _ _ _) as [[] ?].
    + intros [H|[]]. congruence.
    + intros [].
  - intros [H|[]]. discriminate H.
Qed.

Lemma NoDup_keys_unique {A} (entries : list (string * A)) (k : string) (a b : A) :
  NoDup (map fst entries) -> In (k, a) entries -> In (k, b) entries -> a = b.
Proof.
  induction entries as [|[k' c] rest IH]; intros Hnd Ha Hb; [destruct Ha|].
  cbn in Hnd. apply NoDup_cons in Hnd. destruct Hnd as [Hnot Hnd].
  destruct Ha as [Ha|Ha], Hb as [Hb|Hb].
  - congruence.
  - exfalso. apply Hnot. inversion Ha; subst.
    apply list_elem_of_In. change k with (fst (k, b)). apply in_map, Hb.
  - exfalso. apply Hnot. inversion Hb; subst.
    apply list_elem_of_In. change k with (fst (k, a)). apply in_map, Ha.
  - apply IH; assumption.
Qed.

(** The updates of a sync that target [id] are those pushed for the entry
    of [id]. *)
Lemma sync_update_of_entry (E : Env) (userId : string) (payload : SyncPayload)
    (userRole : option string) (d : Database) (now : JsDate) (id : string) (cw : Workflow) :
  NoDup (map fst (p_workflows payload)) ->
  In (id, cw) (p_workflows payload) ->
  forall data,
    In (UpdateWorkflow data id) (sync_operations E userId payload userRole d now)
    <-> In (UpdateWorkflow data id)
           (pushed_operations E userId (p_workspaceId payload) userRole
              (dbWorkflowMap_of userId (p_workspaceId payload) d) now (id, cw)).
Proof.
  intros Hnd Hin data. unfold sync_operations. rewrite in_flat_map. split.
  - intros ([k c] & Hentry & Hop).
    pose proof (pushed_update_target _ _ _ _ _ _ _ _ _ Hop) as Hk. cbn in Hk. subst k.
    rewrite (NoDup_keys_unique _ _ _ _ Hnd Hin Hentry). exact Hop.
  - intros Hop. exists (id, cw). split; assumption.
Qed.

(** Rows whose id no update targets stay as they are, where they are. *)
Lemma apply_operations_untouched (E : Env) (operations : list Operation)
    (table : list WorkflowRow) (id : string) (i : nat) (r : WorkflowRow) :
  (forall data, ~ In (UpdateWorkflow data id) operations) ->
  table !! i = Some r -> r_id r = id ->
  apply_operations E operations table !! i = Some r.
Proof.
  revert table. induction operations as [|op rest IH]; intros table Hno Hi Hid.
  - exact Hi.
  - cbn. apply IH.
    + intros data Hin. apply (Hno data). right. exact Hin.
    + destruct op as [values|data target]; cbn.
      * apply lookup_app_l_Some, Hi.
      * rewrite list_lookup_fmap, Hi. cbn.
        destruct (String.eqb (r_id r) target) eqn:Heq; [|reflexivity].
        exfalso. apply String.eqb_eq in Heq. apply (Hno data). left. congruence.
    + exact Hid.
Qed.

(** A POST that answered 200 is a sync of the payload it parsed. *)
Lemma POST_synced (E : Env) (req : PostRequest) (w : World) (resp : Response) (w' : World)
    (userId : string) (json : Json) (payload : SyncPayload) :
  session_user (post_session req) = Some userId ->
  post_body req = Some json ->
  SyncPayloadSchema_parse (Date_parse E) json = ZodOk payload ->
  POST E req w = (Returned resp, w') ->
  status resp = 200%Z ->
  exists userRole now, synced E req w resp w' userId payload userRole now.
Proof.
  intros Hs Hb Hp Hrun Hst.
  destruct (POST_run E req w) as (resp0 & w0 & Hrun0 & Hcase).
  rewrite Hrun in Hrun0. inversion Hrun0; subst resp0 w0.
  destruct Hcase as [[Hne _]|(userId' & payload' & userRole & now & Hsync)]; [contradiction|].
  exists userRole, now.
  pose proof Hsync as (Hs' & (json' & Hb' & Hp') & _).
  rewrite Hs in Hs'. inversion Hs'; subst userId'.
  rewrite Hb in Hb'. inversion Hb'; subst json'.
  rewrite Hp in Hp'. inversion Hp'; subst payload'.
  exact Hsync.
Qed.

(** The state a sync chose for an entry of the payload is the one the
    handler computed at lines 405-408 for it, and no other. *)
Lemma synced_chosen_state (E : Env) (req : PostRequest) (w : World) (resp : Response)
    (w' : World) (userId : string) (payload : SyncPayload) (userRole : option string)
    (now : JsDate) (id : string) (cw : Workflow) (v : StateValue) :
  synced E req w resp w' userId payload userRole now ->
  NoDup (map fst (p_workflows payload)) ->
  In (id, cw) (p_workflows payload) ->
  chosen_state E (events_since w w') id cw v <-> v = saved_state E id cw.
Proof.
  intros Hsync Hnd Hin.
  destruct Hsync as (_ & _ & _ & _ & _ & (queries & Hq & Hev) & _).
  pose proof (stateToSave_choice
                (saveWorkflowToNormalizedTables E id (normalized_input (migrate_published cw)))
                (migrate_published cw)) as Hchoice.
  rewrite migrate_published_state in Hchoice.
  unfold chosen_state. rewrite Hev. split.
  - intros (graph & Hsave & Hv).
    apply in_app_or in Hsave. destruct Hsave as [Hsave|Hsave].
    { rewrite List.Forall_forall in Hq. apply Hq in Hsave. discriminate Hsave. }
    apply in_app_or in Hsave. destruct Hsave as [Hsave|Hsave].
    + apply in_map_iff in Hsave. destruct Hsave as ([k c] & Heq & Hentry).
      unfold save_event in Heq. cbn [fst snd] in Heq. injection Heq as -> <-.
      rewrite (NoDup_keys_unique _ _ _ _ Hnd Hentry Hin) in Hv.
      apply (blob_or_client_unique _ _ _ _ Hv Hchoice).
    + apply in_map_iff in Hsave. destruct Hsave as (op & Heq & _). discriminate Heq.
  - intros ->. exists (normalized_input (migrate_published cw)). split; [|exact Hchoice].
    apply in_or_app. right. apply in_or_app. left.
    apply in_map_iff. exists (id, cw). split; [reflexivity|exact Hin].
Qed.

(** C5.  In a sync that answered 200, for a workflow of the payload that
    the database holds and the user may update (the user owns the row, or
    is owner, admin or member of the workspace the payload names), an
    update of its row is issued exactly when a compared field differs
    (name, description, color, effective workspace id, folder id with
    absent read as null, marketplace data and state by their JSON text, the
    state being the one chosen for saving, isDeployed with absent read as
    false, deployedAt as a time value); when none differs, every row with
    that id is left as it was, [lastSynced] and [updatedAt] included. *)
Theorem update_iff_fields_differ (E : Env) (req : PostRequest) (w : World)
    (resp : Response) (w' : World) (userId : string) (json : Json) (payload : SyncPayload) :
  session_user (post_session req) = Some userId ->
  post_body req = Some json ->
  SyncPayloadSchema_parse (Date_parse E) json = ZodOk payload ->
  NoDup (map fst (p_workflows payload)) ->
  POST E req w = (Returned resp, w') ->
  status resp = 200%Z ->
  exists userRole,
    checked_role E userId payload w userRole
    /\ forall id cw row,
         In (id, cw) (p_workflows payload) ->
         property (dbWorkflowMap_of userId (p_workspaceId payload) (db w)) id = Some row ->
         may_update userId (p_workspaceId payload) userRole row ->
         exists state,
           chosen_state E (events_since w w') id cw state
           /\ (forall other, chosen_state E (events_since w w') id cw other -> other = state)
           /\ ((exists data, In (UpdateWorkflow data id) (executed (events_since w w')))
               <-> fields_differ E row cw (p_workspaceId payload) state)
           /\ (~ fields_differ E row cw (p_workspaceId payload) state ->
               forall i r, workflow_table (db w) !! i = Some r -> r_id r = id ->
                           workflow_table (db w') !! i = Some r).
Proof.
  intros Hs Hb Hp Hnd Hrun Hst.
  destruct (POST_synced E req w resp w' userId json payload Hs Hb Hp Hrun Hst)
    as (userRole & now & Hsync).
  exists userRole. split; [apply Hsync|].
  intros id cw row Hin Hrow Hcan. apply canUpdate_iff in Hcan.
  exists (saved_state E id cw).
  split; [apply (synced_chosen_state _ _ _ _ _ _ _ _ _ _ _ _ Hsync Hnd Hin); reflexivity|].
  split; [intros other Hother;
          apply (synced_chosen_state _ _ _ _ _ _ _ _ _ _ _ _ Hsync Hnd Hin); exact Hother|].
  rewrite (synced_executed _ _ _ _ _ _ _ _ _ Hsync).
  assert (Hiff : (exists data, In (UpdateWorkflow data id)
                                (sync_operations E userId payload userRole (db w) now))
                 <-> fields_differ E row cw (p_workspaceId payload) (saved_state E id cw)).
  { rewrite <- needsUpdate_iff, <- (update_operation_issued E id _ _ _ _ now).
    split; intros [data Hd]; exists data;
      [apply (sync_update_of_entry E userId payload userRole (db w) now id cw Hnd Hin) in Hd
      |apply (sync_update_of_entry E userId payload userRole (db w) now id cw Hnd Hin)];
      unfold pushed_operations, saved_state in *; cbn [fst snd] in *;
      rewrite Hrow, Hcan in *; exact Hd. }
  split; [exact Hiff|].
  intros Hsame i r Hi Hid.
  destruct Hsync as (_ & _ & _ & _ & _ & _ & ->).
  apply apply_operations_untouched with (id := id); [|exact Hi|exact Hid].
  intros data Hd. apply Hsame, Hiff. eauto.
Qed.

(** ** Following one request *)

(** The start of POST for an authenticated request whose body parses. *)
Lemma POST_parsed (E : Env) (req : PostRequest) (w : World) (userId : string) (json : Json)
    (payload : SyncPayload) :
  session_user (post_session req) = Some userId ->
  post_body req = Some json ->
  SyncPayloadSchema_parse (Date_parse E) json = ZodOk payload ->
  POST E req w =
  match POST_guard E userId payload (clock E (ticks w)) (started w) with
  | (Returned resp, w') => (Returned resp, w')
  | (Thrown (ZodError issues), w') => (Returned (invalid_request issues), w')
  | (Thrown (Error _), w') => (Returned sync_failed, with_ticks (S (ticks w')) w')
  end.
Proof.
  intros Hs Hb Hp. unfold POST. rewrite bind_run. unfold Date_now at 1.
  rewrite try_catch_run, Hs, bind_run, Hb. unfold ret at 1.
  rewrite try_catch_run, bind_run, Hp. unfold ret at 1.
  fold (started w).
  destruct (POST_guard E userId payload (clock E (ticks w)) (started w)) as [[resp|e] w'].
  - reflexivity.
  - destruct e; reflexivity.
Qed.

(** The guard of lines 288-320 on an empty payload. *)
Lemma POST_guard_empty (E : Env) (userId : string) (payload : SyncPayload)
    (startTime : Z) (w : World) :
  p_workflows payload = [] ->
  db_fault (db w) = None ->
  POST_guard E userId payload startTime w =
  let w1 := with_trace (trace w ++ [Queried (match given (p_workspaceId payload) with
                                             | Some ws => OneWorkflowOfWorkspace ws
                                             | None => OneWorkflowOfUser userId
                                             end)]) w in
  match dbWorkflows_of userId (p_workspaceId payload) (db w) with
  | [] => POST_authorize E userId payload startTime w1
  | _ :: _ => (Returned sync_rejected, w1)
  end.
Proof.
  intros Hempty Hok. unfold POST_guard, dbWorkflows_of. rewrite Hempty. cbn [length Nat.eqb].
  rewrite bind_run.
  destruct (given (p_workspaceId payload)) as [ws|]; rewrite select_run, Hok; cbv zeta.
  - destruct (workflows_of_workspace ws (db w)); reflexivity.
  - destruct (workflows_of_user userId (db w)); reflexivity.
Qed.

Lemma POST_guard_nonempty (E : Env) (userId : string) (payload : SyncPayload)
    (startTime : Z) (w : World) :
  p_workflows payload <> [] ->
  POST_guard E userId payload startTime w = POST_authorize E userId payload startTime w.
Proof.
  intros Hne. unfold POST_guard.
  destruct (p_workflows payload); [contradiction|reflexivity].
Qed.

(** The workspace check of lines 322-357, for a workspace id that is given. *)
Lemma POST_authorize_given (E : Env) (userId : string) (payload : SyncPayload)
    (startTime : Z) (w : World) (ws : string) :
  given (p_workspaceId payload) = Some ws ->
  db_fault (db w) = None ->
  POST_authorize E userId payload startTime w =
  let w1 := with_trace (trace w ++ [Queried (WorkspaceById ws)]) w in
  match workspace_rows ws (db w) with
  | [] => (Returned workspace_not_found, w1)
  | _ :: _ =>
      match verifyWorkspaceMembership E userId ws w1 with
      | (Returned userRole, w2) =>
          if truthy string_truthy (of_nullable userRole)
          then POST_reconcile E userId payload userRole startTime w2
          else (Returned workspace_access_denied, w2)
      | (Thrown e, w2) => (Thrown e, w2)
      end
  end.
Proof.
  intros Hg Hok. unfold POST_authorize. rewrite Hg, bind_run, select_run, Hok. cbv zeta.
  destruct (workspace_rows ws (db w)); [reflexivity|].
  cbn [length Nat.ltb Nat.leb negb]. rewrite bind_run.
  destruct (verifyWorkspaceMembership E userId ws _) as [[userRole|e] w2]; [|reflexivity].
  destruct (truthy string_truthy (of_nullable userRole)); reflexivity.
Qed.

(** The same check seen from the world the handler started in: the answer
    of the membership check does not depend on the selects made so far. *)
Lemma POST_authorize_started (E : Env) (userId : string) (payload : SyncPayload)
    (w : World) (ws : string) (queries : list Event) :
  given (p_workspaceId payload) = Some ws ->
  db_fault (db w) = None ->
  workspace_rows ws (db w) <> [] ->
  exists userRole w2,
    verifyWorkspaceMembership E userId ws (started w) = (Returned userRole, w2)
    /\ db w2 = db w
    /\ Forall (fun e => is_select e = true) (events_since (started w) w2)
    /\ POST_authorize E userId payload (clock E (ticks w))
         (with_trace (trace w ++ queries) (started w)) =
       let w3 := with_trace (trace w ++ queries ++ [Queried (WorkspaceById ws)]
                               ++ events_since (started w) w2) w2 in
       if truthy string_truthy (of_nullable userRole)
       then POST_reconcile E userId payload userRole (clock E (ticks w)) w3
       else (Returned workspace_access_denied, w3).
Proof.
  intros Hg Hok Hws.
  destruct (verify_effects E userId ws (started w)) as (r & w2 & Hv & Hdb & Htr).
  exists r, w2. split; [exact Hv|]. split; [exact Hdb|]. split.
  { destruct Htr as [Htr|Htr];
      [rewrite (events_since_same _ _ Htr)|rewrite (events_since_app _ _ _ Htr)];
      repeat constructor. }
  rewrite (POST_authorize_given E userId payload _ _ ws Hg) by exact Hok.
  cbv zeta. change (db (with_trace (trace w ++ queries) (started w))) with (db w).
  destruct (workspace_rows ws (db w)); [contradiction|].
  rewrite (verify_same_state E userId ws _ (started w)) by reflexivity.
  rewrite Hv. cbn [fst snd trace with_trace].
  rewrite <- !app_assoc. reflexivity.
Qed.

(** ** The empty-payload guard *)

Lemma filter_nonempty {A} (f : A -> bool) (l : list A) (a : A) :
  In a l -> f a = true -> List.filter f l <> [].
Proof.
  intros Hin Hf Hnil.
  assert (H : In a (List.filter f l)) by (apply filter_In; auto).
  rewrite Hnil in H. destruct H.
Qed.

Lemma given_cases (workspaceId : option string) :
  given workspaceId
  = match workspaceId with
    | Some ws => if String.eqb ws "" then None else Some ws
    | None => None
    end.
Proof.
  destruct workspaceId as [ws|]; [|reflexivity].
  unfold given. cbn. unfold string_truthy. destruct (String.eqb ws ""); reflexivity.
Qed.

Lemma has_workflows_rows (userId : string) (workspaceId : option string) (d : Database) :
  has_workflows userId workspaceId d -> dbWorkflows_of userId workspaceId d <> [].
Proof.
  unfold has_workflows, dbWorkflows_of. rewrite given_cases.
  destruct workspaceId as [ws|]; [destruct (String.eqb ws "")|]; intros (r & Hin & Hr).
  - apply (filter_nonempty _ _ r Hin). rewrite Hr. apply String.eqb_refl.
  - apply (filter_nonempty _ _ r Hin). rewrite Hr. cbn. apply String.eqb_refl.
  - apply (filter_nonempty _ _ r Hin). rewrite Hr. apply String.eqb_refl.
Qed.

Lemma guard_query_given (userId : string) (workspaceId : option string) :
  match given workspaceId with
  | Some ws => OneWorkflowOfWorkspace ws
  | None => OneWorkflowOfUser userId
  end = guard_query userId workspaceId.
Proof.
  unfold guard_query. rewrite given_cases.
  destruct workspaceId as [ws|]; [destruct (String.eqb ws "")|]; reflexivity.
Qed.

(** The guard on an empty payload when the database rejects its select. *)
Lemma POST_guard_empty_fault (E : Env) (userId : string) (payload : SyncPayload)
    (startTime : Z) (w : World) (message : string) :
  p_workflows payload = [] ->
  db_fault (db w) = Some message ->
  POST_guard E userId payload startTime w
  = (Thrown (Error message),
     with_trace (trace w ++ [Queried (guard_query userId (p_workspaceId payload))]) w).
Proof.
  intros Hempty Hf. rewrite <- guard_query_given.
  unfold POST_guard. rewrite Hempty. cbn [length Nat.eqb].
  destruct (given (p_workspaceId payload)) as [ws|];
    rewrite bind_run, select_run, Hf; reflexivity.
Qed.

(** C1, amended.  An authenticated POST whose body parses with no
    workflows, while the database holds a workflow row for the workspace
    the payload names (not the empty string), or, when it names none or
    the empty string, a row the user owns, makes one select, the one of
    the guard, and no write; it is answered 409 "Sync rejected to prevent
    data loss" when the database answers that select, and 500 "Workflow
    sync failed" when the database rejects it. *)
Theorem empty_payload_rejected (E : Env) (req : PostRequest) (w : World) (userId : string)
    (json : Json) (payload : SyncPayload) :
  session_user (post_session req) = Some userId ->
  post_body req = Some json ->
  SyncPayloadSchema_parse (Date_parse E) json = ZodOk payload ->
  p_workflows payload = [] ->
  has_workflows userId (p_workspaceId payload) (db w) ->
  (db_fault (db w) = None -> fst (POST E req w) = Returned sync_rejected)
  /\ (forall message, db_fault (db w) = Some message ->
        fst (POST E req w) = Returned sync_failed)
  /\ status sync_rejected = 409%Z
  /\ status sync_failed = 500%Z
  /\ events_since w (snd (POST E req w))
     = [Queried (guard_query userId (p_workspaceId payload))]
  /\ executed (events_since w (snd (POST E req w))) = []
  /\ db (snd (POST E req w)) = db w.
Proof.
  intros Hs Hb Hp Hempty Hrows.
  rewrite (POST_parsed E req w userId json payload Hs Hb Hp).
  pose proof (has_workflows_rows _ _ _ Hrows) as Hne.
  assert (Hev : forall w1,
            trace w1 = trace w ++ [Queried (guard_query userId (p_workspaceId payload))] ->
            events_since w w1 = [Queried (guard_query userId (p_workspaceId payload))]).
  { intros w1 H. apply events_since_app. exact H. }
  destruct (db_fault (db w)) as [message|] eqn:Hfault.
  - rewrite (POST_guard_empty_fault E userId payload (clock E (ticks w)) (started w)
               message Hempty Hfault).
    cbn [fst snd].
    split; [discriminate|]. split; [reflexivity|]. split; [reflexivity|].
    split; [reflexivity|].
    rewrite Hev by reflexivity. repeat split.
  - rewrite (POST_guard_empty E userId payload _ _ Hempty) by exact Hfault. cbv zeta.
    rewrite guard_query_given.
    change (db (started w)) with (db w).
    destruct (dbWorkflows_of userId (p_workspaceId payload) (db w)); [contradiction|].
    cbn [fst snd].
    split; [reflexivity|]. split; [discriminate|]. split; [reflexivity|].
    split; [reflexivity|].
    rewrite Hev by reflexivity. repeat split.
Qed.

(** ** The workspace check *)

Lemma only_checked_events (w w' : World) (events : list Event) :
  db w' = db w -> trace w' = trace w ++ events ->
  Forall (fun e => is_select e = true /\ is_workflow_read e = false) events ->
  only_checked w w'.
Proof.
  intros Hdb Htr Hev. split; [|rewrite Hdb; reflexivity].
  rewrite (events_since_app _ _ _ Htr). exact Hev.
Qed.

(** What the membership check adds to the trace is no read of workflows. *)
Lemma verify_events (E : Env) (userId workspaceId : string) (w w' : World)
    (r : Outcome (option string)) :
  verifyWorkspaceMembership E userId workspaceId w = (r, w') ->
  db w' = db w
  /\ trace w' = trace w ++ events_since w w'
  /\ Forall (fun e => is_select e = true /\ is_workflow_read e = false) (events_since w w').
Proof.
  intros Hv. destruct (verify_effects E userId workspaceId w) as (r0 & w0 & Hv0 & Hdb & Htr).
  rewrite Hv in Hv0. inversion Hv0; subst. split; [exact Hdb|].
  destruct Htr as [Htr|Htr].
  - rewrite (events_since_same _ _ Htr), app_nil_r. split; [exact Htr|constructor].
  - rewrite (events_since_app _ _ _ Htr). split; [exact Htr|]. repeat constructor.
Qed.

(** GET for a workspace id that is given, lines 156-192. *)
Lemma GET_given (E : Env) (req : GetRequest) (w : World) (userId ws : string) :
  session_user (get_session req) = Some userId ->
  given (get_workspaceId req) = Some ws ->
  db_fault (db w) = None ->
  GET E req w =
  let w1 := with_trace (trace w ++ [Queried (WorkspaceById ws)]) (started w) in
  match workspace_rows ws (db w) with
  | [] => (Returned workspace_not_found, w1)
  | _ :: _ =>
      let w2 := snd (verifyWorkspaceMembership E userId ws (started w)) in
      let w3 := with_trace (trace w1 ++ events_since (started w) w2) w2 in
      match fst (verifyWorkspaceMembership E userId ws (started w)) with
      | Returned userRole =>
          if truthy string_truthy (of_nullable userRole)
          then try_catch
                 (run log (SpawnedMigration userId ws) then
                  GET_workflows E userId (get_workspaceId req))
                 (GET_failed E) w3
          else (Returned workspace_access_denied, w3)
      | Thrown e => (Thrown e, w3)
      end
  end.
Proof.
  intros Hs Hg Hok. unfold GET. rewrite bind_run. unfold Date_now at 1.
  fold (started w). rewrite try_catch_run, Hs, Hg, bind_run, select_run.
  change (db (started w)) with (db w). rewrite Hok. cbv zeta.
  destruct (workspace_rows ws (db w)); [reflexivity|].
  cbn [length Nat.ltb Nat.leb negb]. rewrite bind_run.
  rewrite (verify_same_state E userId ws _ (started w)) by reflexivity.
  destruct (verify_effects E userId ws (started w)) as (r & w2 & Hv & _).
  rewrite Hv. cbn [fst snd].
  destruct (truthy string_truthy (of_nullable r)); [|reflexivity].
  rewrite try_catch_run. reflexivity.
Qed.

(** C2, amended.  With a non-empty workspace id, GET, and POST once it is
    past the empty-payload guard (the payload has workflows, or the
    workspace holds none), answer 404 WORKSPACE_NOT_FOUND when no
    workspace row has the id, and 403 WORKSPACE_ACCESS_DENIED when one has
    and the membership check returns null; GET then read no workflow rows
    and POST wrote nothing. *)
Theorem workspace_check (E : Env) (w : World) (userId ws : string) :
  db_fault (db w) = None ->
  (forall req,
     session_user (get_session req) = Some userId ->
     given (get_workspaceId req) = Some ws ->
     (workspace_rows ws (db w) = [] ->
      fst (GET E req w) = Returned workspace_not_found
      /\ only_checked w (snd (GET E req w)))
     /\ (workspace_rows ws (db w) <> [] ->
         fst (verifyWorkspaceMembership E userId ws (started w)) = Returned None ->
         fst (GET E req w) = Returned workspace_access_denied
         /\ only_checked w (snd (GET E req w))))
  /\ (forall req json payload,
        session_user (post_session req) = Some userId ->
        post_body req = Some json ->
        SyncPayloadSchema_parse (Date_parse E) json = ZodOk payload ->
        given (p_workspaceId payload) = Some ws ->
        p_workflows payload <> [] \/ workflows_of_workspace ws (db w) = [] ->
        (workspace_rows ws (db w) = [] ->
         fst (POST E req w) = Returned workspace_not_found
         /\ quiet w (snd (POST E req w)))
        /\ (workspace_rows ws (db w) <> [] ->
            fst (verifyWorkspaceMembership E userId ws (started w)) = Returned None ->
            fst (POST E req w) = Returned workspace_access_denied
            /\ quiet w (snd (POST E req w)))).
Proof.
  intros Hok. split.
  - intros req Hs Hg.
    rewrite (GET_given E req w userId ws Hs Hg Hok). cbv zeta. split.
    + intros ->. cbn [fst snd]. split; [reflexivity|].
      eapply only_checked_events; [reflexivity|cbn; reflexivity|]. repeat constructor.
    + intros Hws Hnull. destruct (workspace_rows ws (db w)); [contradiction|].
      rewrite Hnull. cbn [of_nullable truthy fst snd]. split; [reflexivity|].
      destruct (verifyWorkspaceMembership E userId ws (started w)) as [r w2] eqn:Hv.
      destruct (verify_events _ _ _ _ _ _ Hv) as (Hdb & _ & Hev). cbn [snd].
      eapply only_checked_events; [exact Hdb|cbn; rewrite <- app_assoc; reflexivity|].
      constructor; [split; reflexivity|exact Hev].
  - intros req json payload Hs Hb Hp Hg Hguard.
    rewrite (POST_parsed E req w userId json payload Hs Hb Hp).
    assert (Hauth : exists queries,
               Forall (fun e => is_select e = true) queries
               /\ POST_guard E userId payload (clock E (ticks w)) (started w)
                  = POST_authorize E userId payload (clock E (ticks w))
                      (with_trace (trace w ++ queries) (started w))).
    { destruct (p_workflows payload) as [|entry rest] eqn:Hentries.
      - destruct Hguard as [Hne|Hnone]; [contradiction|].
        exists [Queried (OneWorkflowOfWorkspace ws)]. split; [repeat constructor|].
        rewrite (POST_guard_empty E userId payload _ _ Hentries) by exact Hok. cbv zeta.
        unfold dbWorkflows_of. change (db (started w)) with (db w).
        rewrite Hg, Hnone. reflexivity.
      - exists []. split; [constructor|].
        rewrite POST_guard_nonempty by (rewrite Hentries; discriminate).
        rewrite app_nil_r. change (trace w) with (trace (started w)).
        rewrite with_trace_same. reflexivity. }
    destruct Hauth as (queries & Hq & ->).
    rewrite (POST_authorize_given E userId payload _ _ ws Hg) by exact Hok. cbv zeta.
    change (db (with_trace (trace w ++ queries) (started w))) with (db w). split.
    + intros ->. cbn [fst snd]. split; [reflexivity|].
      eapply quiet_selects; [reflexivity|cbn; rewrite <- app_assoc; reflexivity|].
      apply Forall_app. split; [exact Hq|repeat constructor].
    + intros Hws Hnull. destruct (workspace_rows ws (db w)); [contradiction|].
      rewrite (verify_same_state E userId ws _ (started w)) by reflexivity.
      rewrite Hnull. cbn [of_nullable truthy fst snd]. split; [reflexivity|].
      destruct (verifyWorkspaceMembership E userId ws (started w)) as [r w2] eqn:Hv.
      destruct (verify_events _ _ _ _ _ _ Hv) as (Hdb & _ & Hev). cbn [snd].
      eapply quiet_selects; [exact Hdb|cbn; rewrite <- !app_assoc; reflexivity|].
      apply Forall_app. split; [exact Hq|].
      constructor; [reflexivity|].
      eapply Forall_impl; [exact Hev|]. intros e [He _]. exact He.
Qed.

(** ** The permission skip *)

(** A member's sync with workflows in the payload reaches the
    reconciliation and answers 200. *)
Lemma POST_member_sync (E : Env) (req : PostRequest) (w : World) (userId : string)
    (json : Json) (payload : SyncPayload) (ws : string) (userRole : option string) :
  session_user (post_session req) = Some userId ->
  post_body req = Some json ->
  SyncPayloadSchema_parse (Date_parse E) json = ZodOk payload ->
  db_fault (db w) = None ->
  given (p_workspaceId payload) = Some ws ->
  workspace_rows ws (db w) <> [] ->
  fst (verifyWorkspaceMembership E userId ws (started w)) = Returned userRole ->
  truthy string_truthy (of_nullable userRole) = true ->
  p_workflows payload <> [] ->
  exists resp w' now,
    POST E req w = (Returned resp, w')
    /\ synced E req w resp w' userId payload userRole now.
Proof.
  intros Hs Hb Hp Hok Hg Hws Hrole Htruthy Hne.
  rewrite (POST_parsed E req w userId json payload Hs Hb Hp).
  rewrite POST_guard_nonempty by exact Hne.
  destruct (POST_authorize_started E userId payload w ws [] Hg Hok Hws)
    as (r & w2 & Hv & Hdb & Hsel & Hrun).
  rewrite app_nil_r in Hrun. change (trace w) with (trace (started w)) in Hrun at 1.
  rewrite with_trace_same in Hrun. rewrite Hrun. clear Hrun. cbv zeta.
  rewrite Hv in Hrole. cbn in Hrole. inversion Hrole; subst r.
  rewrite Htruthy.
  destruct (POST_reconcile_synced E req w
              (with_trace (trace w ++ [] ++ [Queried (WorkspaceById ws)]
                             ++ events_since (started w) w2) w2)
              userId json payload userRole
              ([Queried (WorkspaceById ws)] ++ events_since (started w) w2)
              Hs Hb Hp Hok) as (resp & w' & Heq & Hsync).
  - unfold checked_role. rewrite Hg, Hv. cbn. auto.
  - exact Hdb.
  - reflexivity.
  - constructor; [reflexivity|exact Hsel].
  - rewrite Heq. eauto.
Qed.

(** The route's permission test, in the words of the specification. *)
Lemma canUpdate_denied (dbWorkflow : WorkflowRow) (userId : string)
    (workspaceId : option string) (userRole : string) :
  r_userId dbWorkflow <> userId ->
  userRole <> "owner" -> userRole <> "admin" -> userRole <> "member" ->
  canUpdate dbWorkflow userId workspaceId (Some userRole) = false.
Proof.
  intros Ho H1 H2 H3. unfold canUpdate, role_is. cbn.
  apply String.eqb_neq in Ho, H1, H2, H3. rewrite Ho, H1, H2, H3.
  destruct (truthy string_truthy (of_optional workspaceId)); reflexivity.
Qed.

(** C10, amended.  In the sync of a member of the workspace whose role is
    none of owner, admin and member, a workflow of the payload that the
    database holds and another user owns gets no operation: its rows stay
    as they were, every workflow of the payload is still saved to the
    normalized tables and its operation executed, and the answer is 200
    with [success: true] and counts only. *)
Theorem denied_update_skipped (E : Env) (req : PostRequest) (w : World) (userId : string)
    (json : Json) (payload : SyncPayload) (ws userRole id : string) (cw : Workflow)
    (row : WorkflowRow) :
  session_user (post_session req) = Some userId ->
  post_body req = Some json ->
  SyncPayloadSchema_parse (Date_parse E) json = ZodOk payload ->
  db_fault (db w) = None ->
  given (p_workspaceId payload) = Some ws ->
  workspace_rows ws (db w) <> [] ->
  fst (verifyWorkspaceMembership E userId ws (started w)) = Returned (Some userRole) ->
  userRole <> "" ->
  In (id, cw) (p_workflows payload) ->
  property (dbWorkflowMap_of userId (p_workspaceId payload) (db w)) id = Some row ->
  r_userId row <> userId ->
  userRole <> "owner" -> userRole <> "admin" -> userRole <> "member" ->
  exists elapsed now w',
    let operations := sync_operations E userId payload (Some userRole) (db w) now in
    POST E req w =
      (Returned {| status := 200;
                   body := SuccessBody elapsed (length operations)
                                       (length (p_workflows payload)) |}, w')
    /\ executed (events_since w w') = operations
    /\ (forall data, ~ In (UpdateWorkflow data id) operations)
    /\ (forall i r, workflow_table (db w) !! i = Some r -> r_id r = id ->
                    workflow_table (db w') !! i = Some r)
    /\ (forall entry, In entry (p_workflows payload) ->
          In (save_event entry) (events_since w w')
          /\ forall op,
               In op (pushed_operations E userId (p_workspaceId payload) (Some userRole)
                        (dbWorkflowMap_of userId (p_workspaceId payload) (db w)) now entry) ->
               In op (executed (events_since w w'))).
Proof.
  intros Hs Hb Hp Hok Hg Hws Hrole Htruthy Hin Hrow Howner H1 H2 H3.
  destruct (POST_member_sync E req w userId json payload ws (Some userRole)
              Hs Hb Hp Hok Hg Hws Hrole) as (resp & w' & now & Hrun & Hsync).
  { cbn. unfold string_truthy. apply negb_true_iff, String.eqb_neq, Htruthy. }
  { intros Hnil. rewrite Hnil in Hin. destruct Hin. }
  pose proof (synced_executed _ _ _ _ _ _ _ _ _ Hsync) as Hexec.
  destruct Hsync as (_ & _ & _ & _ & (elapsed & ->) & (queries & Hq & Hev) & Htable).
  exists elapsed, now, w'. cbv zeta.
  assert (Hnone : forall data, ~ In (UpdateWorkflow data id)
                                   (sync_operations E userId payload (Some userRole) (db w) now)).
  { intros data Hd. unfold sync_operations in Hd. apply in_flat_map in Hd.
    destruct Hd as (entry & _ & Hop).
    pose proof (pushed_update_target _ _ _ _ _ _ _ _ _ Hop) as Hid.
    unfold pushed_operations in Hop. rewrite <- Hid, Hrow in Hop.
    rewrite (canUpdate_denied row userId (p_workspaceId payload) userRole Howner H1 H2 H3)
      in Hop.
    destruct Hop. }
  split; [exact Hrun|]. split; [exact Hexec|]. split; [exact Hnone|]. split.
  - intros i r Hi Hid. rewrite Htable.
    apply apply_operations_untouched with (id := id); assumption.
  - intros entry Hentry. split.
    + rewrite Hev. apply in_or_app. right. apply in_or_app. left.
      apply in_map, Hentry.
    + intros op Hop. rewrite Hexec. unfold sync_operations.
      apply in_flat_map. exists entry. split; assumption.
Qed.

(** ** The dual write *)

Lemma normalized_input_graph (clientWorkflow : Workflow) :
  graph_of (w_state clientWorkflow) (normalized_input (migrate_published clientWorkflow)).
Proof.
  unfold graph_of, normalized_input. cbn. rewrite migrate_published_state. tauto.
Qed.

(** The comparisons assign [state] the state chosen for saving, or nothing. *)
Lemma compare_workflow_state (E : Env) (dbWorkflow : WorkflowRow)
    (clientWorkflow : Workflow) (workspaceId : option string) (state : StateValue) :
  snd (compare_workflow E dbWorkflow clientWorkflow workspaceId state) !! "state" = None
  \/ snd (compare_workflow E dbWorkflow clientWorkflow workspaceId state) !! "state"
     = Some (VState state).
Proof.
  unfold compare_workflow. cbv zeta.
  rewrite 2 assign_other by discriminate.
  unfold assign at 1.
  destruct (negb (String.eqb _ _)).
  - right. cbn. apply lookup_insert_eq.
  - left. repeat (rewrite assign_other by discriminate). reflexivity.
Qed.

Lemma pushed_written_state (E : Env) (userId : string) (workspaceId userRole : option string)
    (dbWorkflowMap : list (string * WorkflowRow)) (now : JsDate)
    (entry : string * Workflow) (op : Operation) (v : StateValue) :
  In op (pushed_operations E userId workspaceId userRole dbWorkflowMap now entry) ->
  written_state op = Some v ->
  v = stateToSave (saveWorkflowToNormalizedTables E (fst entry)
                     (normalized_input (migrate_published (snd entry))))
                  (migrate_published (snd entry)).
Proof.
  unfold pushed_operations.
  destruct (property dbWorkflowMap (fst entry)) as [row|].
  - destruct (negb (canUpdate row userId workspaceId userRole)); [intros []|].
    unfold update_operation.
    pose proof (compare_workflow_state E row (migrate_published (snd entry)) workspaceId
      (stateToSave (saveWorkflowToNormalizedTables E (fst entry)
                      (normalized_input (migrate_published (snd entry))))
                   (migrate_published (snd entry)))) as Hc.
    destruct (compare_workflow _ _ _ _ _) as [needsUpdate updateData].
    destruct needsUpdate; [|intros []].
    intros [<-|[]]. cbn in *.
    rewrite !lookup_insert_ne by discriminate.
    destruct Hc as [-> | ->]; [discriminate|]. congruence.
  - intros [<-|[]]. cbn. congruence.
Qed.

(** C3, amended.  In a sync that answered 200 every workflow of the
    payload is first saved to the normalized tables with its graph, all
    saves coming before the writes to the workflow table; and the value an
    insert or an update then writes to the [state] column is the blob that
    save returned when it succeeded with a truthy blob, and the state the
    client sent otherwise. *)
Theorem state_written_is_blob_or_client (E : Env) (req : PostRequest) (w : World)
    (resp : Response) (w' : World) (userId : string) (json : Json) (payload : SyncPayload) :
  session_user (post_session req) = Some userId ->
  post_body req = Some json ->
  SyncPayloadSchema_parse (Date_parse E) json = ZodOk payload ->
  POST E req w = (Returned resp, w') ->
  status resp = 200%Z ->
  exists userRole now queries,
    Forall (fun e => is_select e = true) queries
    /\ events_since w w' =
         queries ++ map save_event (p_workflows payload)
           ++ map Executed (sync_operations E userId payload userRole (db w) now)
    /\ forall entry, In entry (p_workflows payload) ->
         exists graph,
           save_event entry = NormalizedSave (fst entry) graph
           /\ graph_of (w_state (snd entry)) graph
           /\ forall op v,
                In op (pushed_operations E userId (p_workspaceId payload) userRole
                         (dbWorkflowMap_of userId (p_workspaceId payload) (db w)) now entry) ->
                written_state op = Some v ->
                blob_or_client (saveWorkflowToNormalizedTables E (fst entry) graph)
                               (w_state (snd entry)) v.
Proof.
  intros Hs Hb Hp Hrun Hst.
  destruct (POST_synced E req w resp w' userId json payload Hs Hb Hp Hrun Hst)
    as (userRole & now & Hsync).
  destruct Hsync as (_ & _ & _ & _ & _ & (queries & Hq & Hev) & _).
  exists userRole, now, queries. split; [exact Hq|]. split; [exact Hev|].
  intros entry Hentry. eexists. split; [reflexivity|]. split.
  - apply normalized_input_graph.
  - intros op v Hop Hv.
    rewrite (pushed_written_state _ _ _ _ _ _ _ _ _ Hop Hv).
    pose proof (stateToSave_choice
                  (saveWorkflowToNormalizedTables E (fst entry)
                     (normalized_input (migrate_published (snd entry))))
                  (migrate_published (snd entry))) as Hchoice.
    rewrite migrate_published_state in Hchoice. exact Hchoice.
Qed.

(** ** Validation *)

Lemma invalid_ap_l {A B} (f : ZodResult (A -> B)) (x : ZodResult A) :
  is_invalid f -> is_invalid (f <&> x).
Proof. intros [e ->]. destruct x; cbn; eexists; reflexivity. Qed.

Lemma invalid_ap_r {A B} (f : ZodResult (A -> B)) (x : ZodResult A) :
  is_invalid x -> is_invalid (f <&> x).
Proof. intros [e ->]. destruct f; cbn; eexists; reflexivity. Qed.

Lemma invalid_issue {A} (code : string) (path : list string) : is_invalid (@issue A code path).
Proof. eexists. reflexivity. Qed.

Create HintDb zod.
#[local] Hint Resolve invalid_ap_l invalid_ap_r invalid_issue : zod.

(** A state without blocks or without edges does not parse. *)
Lemma state_lacking_graph (D : string -> JsDate) (path : list string)
    (state : list (string * Json)) :
  property state "blocks" = None \/ property state "edges" = None ->
  is_invalid (WorkflowStateSchema D path (Some (JObj state))).
Proof.
  intros [H|H]; unfold WorkflowStateSchema, z_object; rewrite H;
    unfold z_record_any, z_array_any; auto 20 with zod.
Qed.

(** A workflow without id, name or state, or whose state lacks blocks or
    edges, does not parse. *)
Lemma workflow_lacking_required (D : string -> JsDate) (path : list string)
    (entry : list (string * Json)) :
  lacks_required entry -> is_invalid (WorkflowSchema D path (Some (JObj entry))).
Proof.
  intros [H|[H|[H|(state & H & Hs)]]]; unfold WorkflowSchema, z_object; rewrite H.
  - unfold z_string. auto 20 with zod.
  - unfold z_string at 2. auto 20 with zod.
  - unfold WorkflowStateSchema at 1, z_object. auto 20 with zod.
  - pose proof (state_lacking_graph D (path ++ ["state"]) state Hs). auto 20 with zod.
Qed.

Lemma record_entries_invalid {A} (s : Schema A) (path : list string)
    (fields : list (string * Json)) (k : string) (v : Json) :
  In (k, v) fields -> is_invalid (s (path ++ [k]) (Some v)) ->
  is_invalid (record_entries s path fields).
Proof.
  induction fields as [|[k' v'] rest IH]; intros Hin Hbad; [destruct Hin|].
  cbn [record_entries]. destruct Hin as [Heq|Hin].
  - inversion Heq; subst. auto with zod.
  - auto with zod.
Qed.

(** A body one of whose workflows lacks a required property fails
    [SyncPayloadSchema]. *)
Lemma body_lacking_required (D : string -> JsDate) (body workflows entry : list (string * Json))
    (k : string) :
  property body "workflows" = Some (JObj workflows) ->
  In (k, JObj entry) workflows ->
  lacks_required entry ->
  is_invalid (SyncPayloadSchema_parse D (JObj body)).
Proof.
  intros Hw Hin Hlack. unfold SyncPayloadSchema_parse, SyncPayloadSchema, z_object.
  rewrite Hw. unfold z_record at 1.
  apply invalid_ap_l, invalid_ap_r.
  eapply record_entries_invalid; [exact Hin|].
  apply workflow_lacking_required, Hlack.
Qed.

Lemma POST_unparsed (E : Env) (req : PostRequest) (w : World) (userId : string)
    (json : Json) (issues : list ZodIssue) :
  session_user (post_session req) = Some userId ->
  post_body req = Some json ->
  SyncPayloadSchema_parse (Date_parse E) json = ZodInvalid issues ->
  POST E req w = (Returned (invalid_request issues), started w).
Proof.
  intros Hs Hb Hp. unfold POST. rewrite bind_run. unfold Date_now at 1.
  rewrite try_catch_run, Hs, bind_run, Hb. unfold ret at 1.
  rewrite try_catch_run, bind_run, Hp. reflexivity.
Qed.

(** C7.  An authenticated POST whose JSON body fails [SyncPayloadSchema]
    is answered 400 "Invalid request data" with the issues of the parse; the
    handler touched neither the database nor the cache. *)
Theorem invalid_payload_rejected (E : Env) (req : PostRequest) (w : World) (userId : string)
    (json : Json) (issues : list ZodIssue) :
  session_user (post_session req) = Some userId ->
  post_body req = Some json ->
  SyncPayloadSchema_parse (Date_parse E) json = ZodInvalid issues ->
  fst (POST E req w) =
    Returned {| status := 400; body := InvalidBody "Invalid request data" issues |}
  /\ events_since w (snd (POST E req w)) = []
  /\ db (snd (POST E req w)) = db w
  /\ workspaceMembershipCache (snd (POST E req w)) = workspaceMembershipCache w.
Proof.
  intros Hs Hb Hp. rewrite (POST_unparsed E req w userId json issues Hs Hb Hp).
  cbn [fst snd]. rewrite events_since_same by reflexivity. auto.
Qed.

(** So is, for one, a body with a workflow that lacks its id, name or
    state, or whose state lacks blocks or edges. *)
Lemma lacking_required_rejected (E : Env) (req : PostRequest) (w : World)
    (userId : string) (body workflows entry : list (string * Json)) (k : string) :
  session_user (post_session req) = Some userId ->
  post_body req = Some (JObj body) ->
  property body "workflows" = Some (JObj workflows) ->
  In (k, JObj entry) workflows ->
  lacks_required entry ->
  exists issues,
    fst (POST E req w) = Returned (invalid_request issues)
    /\ executed (events_since w (snd (POST E req w))) = [].
Proof.
  intros Hs Hb Hw Hin Hlack.
  destruct (body_lacking_required (Date_parse E) body workflows entry k Hw Hin Hlack)
    as [issues Hp].
  exists issues. rewrite (POST_unparsed E req w userId (JObj body) issues Hs Hb Hp).
  cbn [fst snd]. rewrite events_since_same by reflexivity. split; reflexivity.
Qed.

(** ** The membership cache *)

Lemma after_cleanup_run (E : Env) (w : World) :
  opportunistic_cleanup E w = (Returned tt, after_cleanup E w)
  /\ db (after_cleanup E w) = db w
  /\ trace (after_cleanup E w) = trace w.
Proof.
  unfold after_cleanup. destruct (cleanup_run E w) as (c & n & ->). auto.
Qed.

(** A cache of at most [MAX_CACHE_SIZE / 2] entries is left as it is. *)
Lemma after_cleanup_small (E : Env) (w : World) :
  (length (workspaceMembershipCache w) <= MAX_CACHE_SIZE / 2)%nat ->
  after_cleanup E w = w.
Proof.
  intros Hle. unfold after_cleanup, opportunistic_cleanup. rewrite bind_run.
  unfold get_world at 1.
  destruct (Nat.ltb_spec (MAX_CACHE_SIZE / 2) (length (workspaceMembershipCache w)));
    [lia|reflexivity].
Qed.

Lemma property_map_set {A} (key : string) (value : A) (m : list (string * A)) :
  property (map_set key value m) key = Some value.
Proof.
  induction m as [|[k v] rest IH]; cbn.
  - rewrite String.eqb_refl. reflexivity.
  - destruct (String.eqb k key) eqn:Hk; cbn.
    + rewrite String.eqb_refl. reflexivity.
    + rewrite Hk. exact IH.
Qed.

(** The check from the world the cleanup leaves. *)
Lemma verify_after_cleanup (E : Env) (userId workspaceId : string) (w : World) :
  verifyWorkspaceMembership E userId workspaceId w =
  let w1 := after_cleanup E w in
  match property (workspaceMembershipCache w1) (cacheKey userId workspaceId) with
  | Some cached =>
      if (clock E (ticks w1) <? expires cached)%Z
      then (Returned (Some (role cached)), with_ticks (S (ticks w1)) w1)
      else query_membership E userId workspaceId (with_ticks (S (ticks w1)) w1)
  | None => query_membership E userId workspaceId w1
  end.
Proof.
  unfold verifyWorkspaceMembership. rewrite bind_run.
  destruct (after_cleanup_run E w) as (-> & _ & _). cbv zeta.
  rewrite bind_run. unfold get_world at 1.
  destruct (property _ _) as [cached|]; [|reflexivity].
  rewrite bind_run. unfold Date_now at 1.
  destruct (_ <? _)%Z; reflexivity.
Qed.

(** C6, amended.  Once the opportunistic cleanup has run, the check
    returns the cached role without asking the database exactly when the
    cache holds an entry for the key [userId:workspaceId] that expires
    strictly after the time it reads; otherwise it asks the database
    once, and on a membership found it caches the role to expire 60000 ms
    after the time it reads then and returns it, while on no membership
    or a failed query it returns null and caches nothing. *)
Theorem membership_cache (E : Env) (userId workspaceId : string) (w : World) :
  let key := cacheKey userId workspaceId in
  let w1 := after_cleanup E w in
  let r := verifyWorkspaceMembership E userId workspaceId w in
  (events_since w (snd r) = [] <-> exists c, holds_fresh E w1 key c)
  /\ (forall c, holds_fresh E w1 key c ->
        fst r = Returned (Some (role c))
        /\ workspaceMembershipCache (snd r) = workspaceMembershipCache w1)
  /\ ((forall c, ~ holds_fresh E w1 key c) ->
        events_since w (snd r) = [Queried (MembershipOf workspaceId userId)]
        /\ match db_fault (db w), membership_rows workspaceId userId (db w) with
           | None, membership :: _ =>
               fst r = Returned (Some (m_role membership))
               /\ exists n,
                    ticks (snd r) = S n
                    /\ property (workspaceMembershipCache (snd r)) key
                       = Some {| role := m_role membership;
                                 expires := (clock E n + 60000)%Z |}
           | _, _ =>
               fst r = Returned None
               /\ workspaceMembershipCache (snd r) = workspaceMembershipCache w1
           end).
Proof.
  cbv zeta. rewrite verify_after_cleanup. cbv zeta.
  destruct (after_cleanup_run E w) as (_ & Hdb & Htr).
  set (w1 := after_cleanup E w) in *.
  set (key := cacheKey userId workspaceId).
  assert (Hquery : forall w2,
            db w2 = db w -> trace w2 = trace w ->
            workspaceMembershipCache w2 = workspaceMembershipCache w1 ->
            let r := query_membership E userId workspaceId w2 in
            events_since w (snd r) = [Queried (MembershipOf workspaceId userId)]
            /\ match db_fault (db w), membership_rows workspaceId userId (db w) with
               | None, membership :: _ =>
                   fst r = Returned (Some (m_role membership))
                   /\ exists n,
                        ticks (snd r) = S n
                        /\ property (workspaceMembershipCache (snd r)) key
                           = Some {| role := m_role membership;
                                     expires := (clock E n + 60000)%Z |}
               | _, _ =>
                   fst r = Returned None
                   /\ workspaceMembershipCache (snd r) = workspaceMembershipCache w1
               end).
  { intros w2 Hdb2 Htr2 Hc2. cbv zeta. rewrite query_membership_run, Hdb2.
    destruct (db_fault (db w)) as [message|].
    - cbn [fst snd]. split; [apply events_since_app; cbn; rewrite Htr2; reflexivity|].
      split; [reflexivity|exact Hc2].
    - destruct (membership_rows workspaceId userId (db w)) as [|membership more].
      + cbn [fst snd]. split; [apply events_since_app; cbn; rewrite Htr2; reflexivity|].
        split; [reflexivity|exact Hc2].
      + cbn [fst snd]. split; [apply events_since_app; cbn; rewrite Htr2; reflexivity|].
        split; [reflexivity|]. exists (ticks w2). split; [reflexivity|].
        cbn. apply property_map_set. }
  unfold holds_fresh.
  destruct (property (workspaceMembershipCache w1) key) as [cached|] eqn:Hget.
  - destruct (Z.ltb_spec (clock E (ticks w1)) (expires cached)) as [Hlt|Hge].
    + cbn [fst snd]. split; [|split].
      * split; [eauto|]. intros _. apply events_since_same. cbn. exact Htr.
      * intros c [Hc _]. inversion Hc; subst. split; reflexivity.
      * intros Hno. exfalso. apply (Hno cached). auto.
    + destruct (Hquery (with_ticks (S (ticks w1)) w1) Hdb Htr eq_refl) as [Hev Hres].
      split; [|split].
      * rewrite Hev. split; [discriminate|].
        intros (c & Hc & Hlt). inversion Hc; subst. lia.
      * intros c [Hc Hlt]. inversion Hc; subst. lia.
      * intros _. split; [exact Hev|exact Hres].
  - destruct (Hquery w1 Hdb Htr eq_refl) as [Hev Hres].
    split; [|split].
    + rewrite Hev. split; [discriminate|]. intros (c & Hc & _). discriminate.
    + intros c [Hc _]. discriminate.
    + intros _. split; [exact Hev|exact Hres].
Qed.

(** ** The client registry *)

Ltac simpl_client :=
  cbv beta iota zeta delta
      [Registry.setWorkspaceTransitioning Registry.resetWorkflowStores
       Registry.saveWorkflowState Registry.loadWorkflowState Registry.status_entry
       Registry.deployedAt_or_now Registry.Date_now
       Registry.call Registry.with_registry Registry.with_workflowStore
       Registry.with_subBlockStore Registry.with_transitioning Registry.with_localStorage
       Registry.registry Registry.workflowStore Registry.subBlockStore
       Registry.isWorkspaceTransitioning Registry.localStorage
       Registry.effects Registry.readings
       Registry.workflows Registry.activeWorkflowId Registry.activeWorkspaceId
       Registry.isLoading Registry.error Registry.deploymentStatuses
       Registry.blocks Registry.edges Registry.loops Registry.parallels
       Registry.ws_isDeployed Registry.ws_deployedAt Registry.ws_needsRedeployment
       Registry.ws_deploymentStatuses Registry.hasActiveSchedule Registry.history
       Registry.lastSaved Registry.past Registry.present Registry.future
       Registry.h_state Registry.h_timestamp Registry.h_action Registry.h_subblockValues
       Registry.workflowValues Registry.toolParams
       Registry.ps_graph Registry.ps_isDeployed Registry.ps_deployedAt
       Registry.ps_deploymentStatuses Registry.ps_needsRedeployment
       Registry.isDeployed Registry.deployedAt Registry.apiKey Registry.needsRedeployment
       fst snd] in *.

Lemma same_workspace (id : string) (current : option string) :
  strict_eq String.eqb (JsValue id) (of_nullable current) = true <-> current = Some id.
Proof.
  destruct current as [other|]; cbn.
  - rewrite String.eqb_eq. split; congruence.
  - split; discriminate.
Qed.

(** C8.  A call of [setActiveWorkspace id] for another workspace than the
    current one, with no transition in progress, resets the workflow store
    to an empty graph (no blocks, edges or loops, not deployed, no
    deployment statuses, a history of one fresh entry: the initial state,
    stamped with the time read, with an empty graph and no subblock
    values), empties the subblock values and tool parameters, clears the
    workflows of the registry and points it at no workflow and at
    workspace [id], all before it calls the fetch of the workflows; a call
    for the current workspace, or during a transition, changes nothing. *)
Theorem workspace_switch_resets (B : Registry.Browser) (id : string) (c : Registry.Client) :
  (Registry.activeWorkspaceId (Registry.registry c) <> Some id ->
   Registry.isWorkspaceTransitioning c = false ->
   exists c0,
     Registry.setActiveWorkspace B id c = Registry.call Registry.FetchWorkflowsFromDB c0
     /\ ~ In Registry.FetchWorkflowsFromDB
            (skipn (length (Registry.effects c)) (Registry.effects c0))
     /\ Registry.reset_for id c0
     /\ Registry.fresh_since B c c0
     /\ Registry.reset_for id (Registry.setActiveWorkspace B id c)
     /\ Registry.fresh_since B c (Registry.setActiveWorkspace B id c))
  /\ (Registry.activeWorkspaceId (Registry.registry c) = Some id
      \/ Registry.isWorkspaceTransitioning c = true ->
      Registry.setActiveWorkspace B id c = c).
Proof.
  unfold Registry.setActiveWorkspace. split.
  - intros Hother Hidle.
    destruct (strict_eq String.eqb (JsValue id)
                (of_nullable (Registry.activeWorkspaceId (Registry.registry c)))) eqn:Hsame.
    { apply same_workspace in Hsame. contradiction. }
    rewrite Hidle. eexists. split; [reflexivity|]. split.
    + simpl_client. destruct (Registry.has_window B); simpl_client;
        rewrite <- !app_assoc, drop_app_length; cbn; intuition discriminate.
    + repeat apply conj; unfold Registry.reset_for, Registry.fresh_since; simpl_client;
        destruct (Registry.has_window B); simpl_client; repeat split; reflexivity.
  - intros [Hsame|Hbusy].
    + apply same_workspace in Hsame. rewrite Hsame. reflexivity.
    + rewrite Hbusy. destruct (strict_eq _ _ _); reflexivity.
Qed.

Lemma active_workflow (id : string) (active : option string) :
  strict_eq String.eqb (JsValue id) (of_nullable active) = true <-> active = Some id.
Proof. apply same_workspace. Qed.

Lemma workflow_key_inj (a b : string) : "workflow-" +:+ a = "workflow-" +:+ b -> a = b.
Proof. apply String.app_inj. Qed.

(** C4, amended.  A call of [setDeploymentStatus] about a workflow [id]
    (the id given, or the active workflow) puts in the registry an entry for
    [id] with the status, the API key and the date given, the date read
    from the clock when none is given for a deployment; it writes the
    legacy fields and the entry of the workflow store only when [id] is the
    active workflow; and it rewrites the persisted state of [id], when
    browser storage holds one, with the new entry, changing its legacy
    fields only when [id] is the active workflow, and leaving every other
    key of browser storage as it was.  When no state is stored for [id],
    nothing is persisted. *)
Theorem deployment_status_set (B : Registry.Browser) (P : Registry.Persistence)
    (workflowId : option string) (deployed : bool) (given : option JsDate)
    (key : option string) (c : Registry.Client) (id : string) :
  Registry.resolve workflowId c = Some id ->
  let c' := Registry.setDeploymentStatus B P workflowId deployed given key c in
  (exists entry,
     Registry.deploymentStatuses (Registry.registry c')
     = <[id := entry]> (Registry.deploymentStatuses (Registry.registry c))
     /\ Registry.carries B c c' given deployed key entry)
  /\ (Registry.activeWorkflowId (Registry.registry c) = Some id ->
      Registry.ws_isDeployed (Registry.workflowStore c') = deployed
      /\ Registry.stamped B c c' given deployed
           (Registry.ws_deployedAt (Registry.workflowStore c'))
      /\ exists entry,
           Registry.ws_deploymentStatuses (Registry.workflowStore c')
           = <[id := entry]> (Registry.ws_deploymentStatuses (Registry.workflowStore c))
           /\ Registry.carries B c c' given deployed key entry)
  /\ (Registry.activeWorkflowId (Registry.registry c) <> Some id ->
      Registry.workflowStore c' = Registry.workflowStore c)
  /\ (forall stored,
        Registry.loadWorkflowState P id c = Some stored ->
        exists rewritten entry,
          Registry.localStorage c' !! ("workflow-" +:+ id)
          = Some (Registry.stringify_state P rewritten)
          /\ Registry.ps_deploymentStatuses rewritten
             = Some (<[id := entry]> (default ∅ (Registry.ps_deploymentStatuses stored)))
          /\ Registry.carries B c c' given deployed key entry
          /\ Registry.ps_graph rewritten = Registry.ps_graph stored
          /\ (Registry.activeWorkflowId (Registry.registry c) = Some id ->
              Registry.ps_isDeployed rewritten = Some deployed
              /\ Registry.stamped B c c' given deployed (Registry.ps_deployedAt rewritten))
          /\ (Registry.activeWorkflowId (Registry.registry c) <> Some id ->
              Registry.ps_isDeployed rewritten = Registry.ps_isDeployed stored
              /\ Registry.ps_deployedAt rewritten = Registry.ps_deployedAt stored))
  /\ (forall other, other <> "workflow-" +:+ id ->
        Registry.localStorage c' !! other = Registry.localStorage c !! other)
  /\ (Registry.loadWorkflowState P id c = None ->
      Registry.localStorage c' = Registry.localStorage c).
Proof.
  intros Hid. cbv zeta. unfold Registry.setDeploymentStatus. rewrite Hid. clear Hid.
  unfold Registry.carries, Registry.stamped.
  destruct c as [[wfs activeId wsId loading err statuses]
                   [bl ed lo pa dep depAt needs wsStatuses sched hist saved]
                   sub busy storage effs n].
  simpl_client.
  destruct (strict_eq String.eqb (JsValue id) (of_nullable activeId)) eqn:Hactive;
    [apply active_workflow in Hactive
    |assert (Hne : activeId <> Some id)
       by (intros Heq; apply active_workflow in Heq; congruence)];
    destruct given as [d|], deployed; simpl_client;
    (destruct (storage !! ("workflow-" +:+ id)) as [text|] eqn:Htext;
       [destruct (Registry.parse_state P text) as [stored|] eqn:Hload|]); simpl_client.
  all: repeat match goal with
       | |- _ /\ _ => split
       | |- forall _, _ => intro
       | H : Some _ = Some _ |- _ => inversion H; subst; clear H
       | H : None = Some _ |- _ => discriminate H
       | H : Some _ = None |- _ => discriminate H
       | H : ?a <> ?a |- _ => contradiction
       | H : ?a = ?b, H' : ?a <> ?b |- _ => contradiction
       | |- exists _ : Registry.PersistedState, _ => eexists
       | |- exists _ : Registry.DeploymentStatus, _ => eexists
       | |- <[_ := _]> _ !! _ = Some _ => apply lookup_insert_eq
       | H : ?k <> ?k' |- <[?k' := _]> _ !! ?k = _ => apply lookup_insert_ne; congruence
       | |- exists k : nat, (_ <= k < _)%nat /\ _ = Some (Date (Registry.now _ k)) =>
           eexists; split; [|reflexivity]; lia
       | |- _ = _ => reflexivity
       end.
Qed.

(** ** Requests refused early *)

(** X1.  Without a session (or with an empty user id in it) GET and POST
    answer 401 "Unauthorized", and a POST whose body is no JSON text
    answers 500 "Workflow sync failed"; in each case the handler has read
    its start time and done nothing else: no query, no write, the cache as
    it was. *)
Theorem refused_before_the_database (E : Env) (w : World) :
  (forall req, session_user (get_session req) = None ->
     fst (GET E req w) = Returned unauthorized
     /\ status unauthorized = 401%Z
     /\ events_since w (snd (GET E req w)) = []
     /\ db (snd (GET E req w)) = db w
     /\ workspaceMembershipCache (snd (GET E req w)) = workspaceMembershipCache w)
  /\ (forall req, session_user (post_session req) = None ->
        fst (POST E req w) = Returned unauthorized
        /\ events_since w (snd (POST E req w)) = []
        /\ db (snd (POST E req w)) = db w
        /\ workspaceMembershipCache (snd (POST E req w)) = workspaceMembershipCache w)
  /\ (forall req userId,
        session_user (post_session req) = Some userId -> post_body req = None ->
        fst (POST E req w) = Returned sync_failed
        /\ status sync_failed = 500%Z
        /\ events_since w (snd (POST E req w)) = []
        /\ db (snd (POST E req w)) = db w
        /\ workspaceMembershipCache (snd (POST E req w)) = workspaceMembershipCache w).
Proof.
  split; [|split].
  - intros req Hs. unfold GET. rewrite bind_run. cbn [Date_now]. rewrite try_catch_run, Hs.
    cbn. repeat split; try reflexivity. apply events_since_same. reflexivity.
  - intros req Hs. unfold POST. rewrite bind_run. cbn [Date_now]. rewrite try_catch_run, Hs.
    cbn. repeat split; try reflexivity. apply events_since_same. reflexivity.
  - intros req userId Hs Hb. unfold POST. rewrite bind_run. cbn [Date_now].
    rewrite try_catch_run, Hs, Hb. cbn. repeat split; try reflexivity.
    apply events_since_same. reflexivity.
Qed.

(** ** What GET returns *)

Lemma GET_workflows_run (E : Env) (userId : string) (workspaceId : option string) (w : World) :
  db_fault (db w) = None ->
  GET_workflows E userId workspaceId w =
  (Returned {| status := 200; body := DataBody (dbWorkflows_of userId workspaceId (db w)) |},
   with_ticks (S (ticks w))
     (with_trace (trace w ++ [Queried (reconcile_query userId workspaceId)]) w)).
Proof.
  intros Hok. unfold GET_workflows, dbWorkflows_of, reconcile_query.
  rewrite bind_run. destruct (given workspaceId) as [ws|];
    rewrite select_run, Hok; reflexivity.
Qed.

(** X2.  While the database answers, a GET without a workspace id (or
    with an empty one) returns 200 with exactly the rows the user owns,
    after one select; a GET for a workspace that exists, by a user the
    membership check gives a role, returns 200 with exactly the rows of
    that workspace, whoever owns them, after it has started the migration
    of the user's orphaned workflows.  The handler itself writes nothing. *)
Theorem GET_lists_workflows (E : Env) (req : GetRequest) (w : World) (userId : string) :
  session_user (get_session req) = Some userId ->
  db_fault (db w) = None ->
  (given (get_workspaceId req) = None ->
   fst (GET E req w) =
     Returned {| status := 200; body := DataBody (workflows_of_user userId (db w)) |}
   /\ events_since w (snd (GET E req w)) = [Queried (WorkflowsOfUser userId)]
   /\ db (snd (GET E req w)) = db w)
  /\ (forall ws userRole,
        given (get_workspaceId req) = Some ws ->
        workspace_rows ws (db w) <> [] ->
        fst (verifyWorkspaceMembership E userId ws (started w)) = Returned (Some userRole) ->
        userRole <> "" ->
        fst (GET E req w) =
          Returned {| status := 200; body := DataBody (workflows_of_workspace ws (db w)) |}
        /\ (exists checks,
              Forall (fun e => is_select e = true /\ is_workflow_read e = false) checks
              /\ events_since w (snd (GET E req w)) =
                   checks ++ [SpawnedMigration userId ws; Queried (WorkflowsOfWorkspace ws)])
        /\ db (snd (GET E req w)) = db w).
Proof.
  intros Hs Hok. split.
  - intros Hnone. unfold GET. rewrite bind_run. cbn [Date_now].
    rewrite try_catch_run, Hs, Hnone.
    rewrite GET_workflows_run by exact Hok.
    unfold dbWorkflows_of, reconcile_query. rewrite Hnone. cbn [fst snd].
    split; [reflexivity|]. split; [|reflexivity].
    apply events_since_app. reflexivity.
  - intros ws userRole Hg Hws Hrole Hne.
    rewrite (GET_given E req w userId ws Hs Hg Hok). cbv zeta.
    destruct (workspace_rows ws (db w)); [contradiction|].
    rewrite Hrole.
    assert (Htruthy : truthy string_truthy (of_nullable (Some userRole)) = true).
    { cbn. unfold string_truthy. apply negb_true_iff, String.eqb_neq. exact Hne. }
    rewrite Htruthy.
    destruct (verifyWorkspaceMembership E userId ws (started w)) as [r w2] eqn:Hv.
    destruct (verify_events _ _ _ _ _ _ Hv) as (Hdb & Htr & Hev). cbn [snd].
    rewrite try_catch_run, bind_run. cbn [log].
    rewrite GET_workflows_run by (simpl_world; rewrite Hdb; exact Hok).
    unfold dbWorkflows_of, reconcile_query. rewrite Hg. simpl_world.
    rewrite Hdb. split; [reflexivity|]. split; [|reflexivity].
    exists (Queried (WorkspaceById ws) :: events_since (with_ticks (S (ticks w)) w) w2).
    split.
    + constructor; [split; reflexivity|exact Hev].
    + apply events_since_app. cbn [trace]. rewrite <- !app_assoc. reflexivity.
Qed.

(** ** A database that does not answer *)

Lemma POST_guard_fault (E : Env) (userId : string) (payload : SyncPayload)
    (startTime : Z) (w : World) (message : string) :
  db_fault (db w) = Some message ->
  exists q, POST_guard E userId payload startTime w
            = (Thrown (Error message), with_trace (trace w ++ [Queried q]) w).
Proof.
  intros Hf. unfold POST_guard, POST_authorize, POST_reconcile.
  destruct (length (p_workflows payload) =? 0)%nat;
    destruct (given (p_workspaceId payload)) as [ws|];
    rewrite bind_run, select_run, Hf; eexists; reflexivity.
Qed.

(** X3.  When the database rejects every query, an authenticated GET
    answers 500 with the message of the error, and an authenticated POST
    whose body parses answers 500 "Workflow sync failed"; each has sent one
    select, and no write. *)
Theorem database_failure_is_500 (E : Env) (w : World) (message : string) :
  db_fault (db w) = Some message ->
  (forall req userId,
     session_user (get_session req) = Some userId ->
     fst (GET E req w) = Returned {| status := 500; body := ErrorBody message None None |}
     /\ (exists q, events_since w (snd (GET E req w)) = [Queried q])
     /\ db (snd (GET E req w)) = db w)
  /\ (forall req userId json payload,
        session_user (post_session req) = Some userId ->
        post_body req = Some json ->
        SyncPayloadSchema_parse (Date_parse E) json = ZodOk payload ->
        fst (POST E req w) = Returned sync_failed
        /\ status sync_failed = 500%Z
        /\ (exists q, events_since w (snd (POST E req w)) = [Queried q])
        /\ db (snd (POST E req w)) = db w).
Proof.
  intros Hf. split.
  - intros req userId Hs. unfold GET. rewrite bind_run. cbn [Date_now].
    rewrite try_catch_run, Hs.
    destruct (given (get_workspaceId req)) as [ws|] eqn:Hg.
    + rewrite bind_run, select_run. simpl_world. rewrite Hf. cbn.
      split; [reflexivity|]. split; [|reflexivity].
      eexists. apply events_since_app. reflexivity.
    + unfold GET_workflows. rewrite Hg, bind_run, select_run. simpl_world. rewrite Hf. cbn.
      split; [reflexivity|]. split; [|reflexivity].
      eexists. apply events_since_app. reflexivity.
  - intros req userId json payload Hs Hb Hp.
    rewrite (POST_parsed E req w userId json payload Hs Hb Hp).
    destruct (POST_guard_fault E userId payload (clock E (ticks w)) (started w) message)
      as (q & ->); [exact Hf|].
    cbn [fst snd]. split; [reflexivity|]. split; [reflexivity|]. split; [|reflexivity].
    exists q. apply events_since_app. reflexivity.
Qed.

(** ** Rows keep their place, their id and their owner *)

Lemma compare_workflow_identity (E : Env) (dbWorkflow : WorkflowRow)
    (clientWorkflow : Workflow) (workspaceId : option string) (state : StateValue)
    (k : string) :
  k = "id" \/ k = "userId" \/ k = "createdAt" ->
  snd (compare_workflow E dbWorkflow clientWorkflow workspaceId state) !! k = None.
Proof.
  intros Hk. unfold compare_workflow. cbv zeta.
  destruct Hk as [->|[->| ->]];
    repeat (rewrite assign_other by discriminate); reflexivity.
Qed.

Lemma pushed_keep_identity (E : Env) (userId : string)
    (workspaceId userRole : option string) (dbWorkflowMap : list (string * WorkflowRow))
    (now : JsDate) (entry : string * Workflow) (op : Operation) :
  In op (pushed_operations E userId workspaceId userRole dbWorkflowMap now entry) ->
  keeps_identity op.
Proof.
  unfold pushed_operations.
  destruct (property dbWorkflowMap (fst entry)) as [row|].
  - destruct (negb (canUpdate row userId workspaceId userRole)); [intros []|].
    unfold update_operation.
    pose proof (compare_workflow_identity E row (migrate_published (snd entry)) workspaceId
      (stateToSave (saveWorkflowToNormalizedTables E (fst entry)
                      (normalized_input (migrate_published (snd entry))))
                   (migrate_published (snd entry)))) as Hc.
    destruct (compare_workflow _ _ _ _ _) as [needsUpdate updateData].
    destruct needsUpdate; [|intros []].
    intros [<-|[]]. cbn in *.
    rewrite !lookup_insert_ne by discriminate.
    repeat split; apply Hc; auto.
  - intros [<-|[]]. exact I.
Qed.

Lemma sync_operations_keep_identity (E : Env) (userId : string) (payload : SyncPayload)
    (userRole : option string) (d : Database) (now : JsDate) :
  Forall keeps_identity (sync_operations E userId payload userRole d now).
Proof.
  apply List.Forall_forall. intros op Hin. unfold sync_operations in Hin.
  apply in_flat_map in Hin. destruct Hin as (entry & _ & Hin).
  eapply pushed_keep_identity, Hin.
Qed.

Lemma apply_operations_identity (E : Env) (operations : list Operation)
    (table : list WorkflowRow) (i : nat) (r : WorkflowRow) :
  Forall keeps_identity operations -> table !! i = Some r ->
  exists r', apply_operations E operations table !! i = Some r' /\ same_identity r r'.
Proof.
  intros Hall. revert table r.
  induction Hall as [|op rest Hop _ IH]; intros table r Hi.
  - exists r. split; [exact Hi|]. repeat split.
  - assert (H1 : exists r1, apply_operation E op table !! i = Some r1 /\ same_identity r r1).
    { destruct op as [values|data target]; cbn in *.
      - exists r. split; [apply lookup_app_l_Some, Hi|repeat split].
      - rewrite list_lookup_fmap, Hi. cbn.
        destruct (String.eqb (r_id r) target); eexists; (split; [reflexivity|]);
          [|repeat split].
        destruct Hop as (Hid & Huser & Hcreated).
        unfold same_identity. cbn. rewrite Hid, Huser, Hcreated. repeat split. }
    destruct H1 as (r1 & H1 & (Ea & Eb & Ec)).
    destruct (IH _ _ H1) as (r2 & H2 & (Fa & Fb & Fc)).
    exists r2. split; [exact H2|]. unfold same_identity. repeat split; congruence.
Qed.

(** X4.  Whatever the request, a POST deletes no row and moves none: every
    row of the workflow table is found at its place afterwards with the
    id, the owner and the creation date it had, and no update the handler
    sends names one of those columns. *)
Theorem post_keeps_rows (E : Env) (req : PostRequest) (w : World) :
  Forall keeps_identity (executed (events_since w (snd (POST E req w))))
  /\ forall i r, workflow_table (db w) !! i = Some r ->
       exists r', workflow_table (db (snd (POST E req w))) !! i = Some r'
                  /\ same_identity r r'.
Proof.
  destruct (POST_run E req w) as (resp & w' & -> & Hrun). cbn [snd].
  destruct Hrun as [[_ Hquiet]|(userId & payload & userRole & now & Hsync)].
  - rewrite (quiet_executed _ _ Hquiet). split; [constructor|].
    intros i r Hi. destruct Hquiet as [_ ->]. exists r. split; [exact Hi|repeat split].
  - rewrite (synced_executed _ _ _ _ _ _ _ _ _ Hsync). split.
    + apply sync_operations_keep_identity.
    + intros i r Hi. destruct Hsync as (_ & _ & _ & _ & _ & _ & ->).
      apply apply_operations_identity; [apply sync_operations_keep_identity|exact Hi].
Qed.

(** ** What a sync leaves in the table *)

Lemma apply_operations_app (E : Env) (a b : list Operation) (table : list WorkflowRow) :
  apply_operations E (a ++ b) table = apply_operations E b (apply_operations E a table).
Proof. unfold apply_operations. apply fold_left_app. Qed.

(** An insert whose id no update targets leaves its row in the table. *)
Lemma apply_operations_inserted (E : Env) (operations : list Operation)
    (table : list WorkflowRow) (values : InsertValues) :
  In (InsertWorkflow values) operations ->
  (forall data, ~ In (UpdateWorkflow data (i_id values)) operations) ->
  exists i, (length table <= i)%nat
            /\ apply_operations E operations table !! i = Some (inserted_row E values).
Proof.
  revert table. induction operations as [|op rest IH]; intros table Hin Hno; [destruct Hin|].
  assert (Hrest : forall data, ~ In (UpdateWorkflow data (i_id values)) rest).
  { intros data H. apply (Hno data). right. exact H. }
  destruct Hin as [->|Hin].
  - exists (length table). split; [lia|]. cbn.
    apply (apply_operations_untouched E rest _ (i_id values)); [exact Hrest| |reflexivity].
    rewrite lookup_app_r by lia. rewrite Nat.sub_diag. reflexivity.
  - destruct (IH (apply_operation E op table) Hin Hrest) as (i & Hi & Hrow).
    exists i. split; [|exact Hrow].
    etransitivity; [|exact Hi].
    destruct op; cbn; [rewrite length_app; lia|rewrite length_map; lia].
Qed.

Lemma nullable_of_nullable {A} (o : option A) : nullable_of (of_nullable o) = o.
Proof. destruct o; reflexivity. Qed.

Lemma nullable_of_optional {A} (o : option A) : nullable_of (of_optional o) = o.
Proof. destruct o; reflexivity. Qed.

(** X5.  In a sync answered 200, a workflow of the payload sent under its
    own id that the rows read do not hold is created: the table ends with a
    new row, past the rows it held, that has the id, name, description and
    color of the client workflow, its folder (null when absent or empty),
    its deployment flag (false when absent) and date, the state chosen for
    saving, the workspace the workflow names or, when it names none, the
    one the payload names, the sender as owner, no deployed state, and one
    date as creation, update and sync date. *)
Theorem new_workflow_inserted (E : Env) (req : PostRequest) (w : World)
    (resp : Response) (w' : World) (userId : string) (json : Json) (payload : SyncPayload)
    (id : string) (cw : Workflow) :
  session_user (post_session req) = Some userId ->
  post_body req = Some json ->
  SyncPayloadSchema_parse (Date_parse E) json = ZodOk payload ->
  NoDup (map fst (p_workflows payload)) ->
  POST E req w = (Returned resp, w') ->
  status resp = 200%Z ->
  In (id, cw) (p_workflows payload) ->
  w_id cw = id ->
  property (dbWorkflowMap_of userId (p_workspaceId payload) (db w)) id = None ->
  exists i row state,
    (length (workflow_table (db w)) <= i)%nat
    /\ workflow_table (db w') !! i = Some row
    /\ chosen_state E (events_since w w') id cw state
    /\ created_for E userId (p_workspaceId payload) state cw row.
Proof.
  intros Hs Hb Hp Hnd Hrun H200 Hin Hid Hnew.
  destruct (POST_synced E req w resp w' userId json payload Hs Hb Hp Hrun H200)
    as (userRole & now & Hsync).
  pose proof (proj2 (synced_chosen_state _ _ _ _ _ _ _ _ _ _ _ _ Hsync Hnd Hin) eq_refl)
    as Hchosen.
  destruct Hsync as (_ & _ & _ & _ & _ & _ & Htable).
  set (values := insert_values userId (migrate_published cw) (p_workspaceId payload)
                   (saved_state E id cw) now).
  assert (Hpushed : pushed_operations E userId (p_workspaceId payload) userRole
                      (dbWorkflowMap_of userId (p_workspaceId payload) (db w)) now (id, cw)
                    = [InsertWorkflow values]).
  { unfold pushed_operations. cbn [fst snd]. rewrite Hnew. reflexivity. }
  destruct (migrate_published_fields cw)
    as (Mid & Mname & Mdesc & Mcolor & Mstate & Mws & Mfolder).
  destruct (migrate_published_reads cw (p_workspaceId payload))
    as (Rws & Rfolder & Rmarket & Rdeployed & Rat).
  destruct (apply_operations_inserted E
              (sync_operations E userId payload userRole (db w) now)
              (workflow_table (db w)) values) as (i & Hi & Hrow).
  - unfold sync_operations. apply in_flat_map. exists (id, cw). split; [exact Hin|].
    rewrite Hpushed. left. reflexivity.
  - intros data Hupd. cbn [values insert_values i_id] in Hupd. rewrite Mid, Hid in Hupd.
    apply (sync_update_of_entry E userId payload userRole (db w) now id cw Hnd Hin) in Hupd.
    rewrite Hpushed in Hupd. destruct Hupd as [Hupd|[]]. discriminate Hupd.
  - exists i, (inserted_row E values), (saved_state E id cw).
    split; [exact Hi|]. split; [rewrite Htable; exact Hrow|]. split; [exact Hchosen|].
    unfold created_for, values, inserted_row, insert_values.
    cbn [r_id r_userId r_workspaceId r_folderId r_name r_description r_color r_state
         r_marketplaceData r_isDeployed r_deployedAt r_deployedState r_lastSynced
         r_createdAt r_updatedAt
         i_id i_userId i_workspaceId i_folderId i_name i_description i_color i_state
         i_marketplaceData i_isDeployed i_deployedAt i_deployedState i_lastSynced
         i_createdAt i_updatedAt].
    change (truthy bool_truthy (of_optional (s_isDeployed (w_state (migrate_published cw)))))
      with (clientIsDeployed (migrate_published cw)).
    change (or_null object_truthy (of_optional (s_deployedAt (w_state (migrate_published cw)))))
      with (clientDeployedAt (migrate_published cw)).
    rewrite Rws, Rfolder, Rdeployed, Rat, Mid, Mname, Mdesc, Mcolor.
    rewrite !nullable_of_nullable, !nullable_of_optional. repeat split.
Qed.

Lemma assign_at (changed : bool) (key : string) (value : ColumnValue)
    (acc : bool * gmap string ColumnValue) :
  snd (assign changed key value acc) !! key = if changed then Some value else snd acc !! key.
Proof. unfold assign. destruct changed; [apply lookup_insert_eq|reflexivity]. Qed.

Ltac compare_at :=
  unfold compare_workflow; cbv zeta;
  repeat (rewrite assign_other by discriminate);
  rewrite assign_at;
  repeat (rewrite assign_other by discriminate);
  try reflexivity.

(** What the comparisons put in [updateData], column by column. *)
Lemma compare_workflow_data (E : Env) (row : WorkflowRow) (cw : Workflow)
    (workspaceId : option string) (state : StateValue) :
  let data := snd (compare_workflow E row cw workspaceId state) in
  let effective := effectiveWorkspaceId cw workspaceId in
  let folder := or_null string_truthy (w_folderId cw) in
  data !! "name" = (if negb (String.eqb (r_name row) (w_name cw))
                    then Some (VString (JsValue (w_name cw))) else None)
  /\ data !! "description" =
       (if strict_neq String.eqb (of_nullable (r_description row)) (of_optional (w_description cw))
        then Some (VString (of_optional (w_description cw))) else None)
  /\ data !! "color" =
       (if strict_neq String.eqb (of_nullable (r_color row)) (of_optional (w_color cw))
        then Some (VString (of_optional (w_color cw))) else None)
  /\ data !! "workspaceId" =
       (if strict_neq String.eqb (of_nullable (r_workspaceId row)) effective
        then Some (VString effective) else None)
  /\ data !! "folderId" =
       (if strict_neq String.eqb (of_nullable (r_folderId row)) (of_nullable folder)
        then Some (VString (of_nullable folder)) else None)
  /\ data !! "state" =
       (if negb (String.eqb (JSON_stringify E (r_state row))
                            (JSON_stringify E (stored_state E state)))
        then Some (VState state) else None)
  /\ data !! "isDeployed" =
       (if negb (Bool.eqb (r_isDeployed row) (clientIsDeployed cw))
        then Some (VBool (clientIsDeployed cw)) else None)
  /\ data !! "deployedAt" =
       (if strict_neq number_eqb (time_of (r_deployedAt row)) (time_of (clientDeployedAt cw))
        then Some (VDate (of_nullable (clientDeployedAt cw))) else None)
  /\ data !! "marketplaceData" =
       (if strict_neq String.eqb (stringify_column E (r_marketplaceData row))
                                 (stringify_marketplace E (w_marketplaceData cw))
        then Some (VMarketplace (of_nullable (or_null object_truthy (w_marketplaceData cw))))
        else None).
Proof. cbv zeta. repeat split; compare_at. Qed.

Lemma strict_eq_string (a b : Nullish string) :
  strict_neq String.eqb a b = false -> a = b.
Proof.
  intros H. destruct a as [| |x], b as [| |y]; try reflexivity; try discriminate H.
  unfold strict_neq in H. cbn in H. apply negb_false_iff, String.eqb_eq in H. congruence.
Qed.

Lemma same_time (a b : option JsDate) :
  strict_neq number_eqb (time_of a) (time_of b) = false -> a = b.
Proof.
  intros H. destruct a as [[x|]|], b as [[y|]|]; try reflexivity; try discriminate H.
  unfold strict_neq in H. cbn in H. apply negb_false_iff, Z.eqb_eq in H. congruence.
Qed.

Lemma of_nullable_inj {A} (a b : option A) : of_nullable a = of_nullable b -> a = b.
Proof. destruct a, b; cbn; congruence. Qed.

(** The row an update built by the comparisons leaves agrees with the
    client workflow, and so does a row the comparisons found no
    difference in. *)
Lemma compared_row_agrees (E : Env) (row : WorkflowRow) (cw : Workflow)
    (workspaceId : option string) (state : StateValue) (now : JsDate) :
  let '(needsUpdate, updateData) :=
    compare_workflow E row (migrate_published cw) workspaceId state in
  let final :=
    if needsUpdate
    then apply_update E (<["updatedAt" := VDate (JsValue now)]>
                           (<["lastSynced" := VDate (JsValue now)]> updateData)) row
    else row in
  agrees_with E workspaceId state cw final.
Proof.
  pose proof (compare_workflow_data E row (migrate_published cw) workspaceId state) as Hdata.
  pose proof (needsUpdate_iff E row cw workspaceId state) as Hneeds.
  destruct (migrate_published_fields cw)
    as (Mid & Mname & Mdesc & Mcolor & Mstate & Mws & Mfolder).
  destruct (migrate_published_reads cw workspaceId)
    as (Rws & Rfolder & Rmarket & Rdeployed & Rat).
  cbv zeta in Hdata.
  rewrite Rws, Rfolder, Rmarket, Rdeployed, Rat, Mname, Mdesc, Mcolor in Hdata.
  destruct (compare_workflow E row (migrate_published cw) workspaceId state)
    as [needsUpdate data].
  cbn [fst snd] in *.
  destruct Hdata as (Dname & Ddesc & Dcolor & Dws & Dfolder & Dstate & Ddep & Dat & Dmarket).
  destruct needsUpdate.
  - unfold agrees_with, apply_update. cbn.
    rewrite !lookup_insert_ne by discriminate.
    rewrite Dname, Ddesc, Dcolor, Dws, Dfolder, Dstate, Ddep, Dat, Dmarket.
    repeat split.
    + destruct (String.eqb (r_name row) (w_name cw)) eqn:Heq; cbn; [|reflexivity].
      apply String.eqb_eq, Heq.
    + destruct (strict_neq _ _ _) eqn:Heq in |- *; cbn.
      * destruct (stated_folder cw); reflexivity.
      * apply of_nullable_inj, strict_eq_string, Heq.
    + destruct (Bool.eqb (r_isDeployed row) (stated_isDeployed cw)) eqn:Heq; cbn; [|reflexivity].
      apply Bool.eqb_prop, Heq.
    + destruct (strict_neq number_eqb _ _) eqn:Heq; cbn.
      * destruct (s_deployedAt (w_state cw)); reflexivity.
      * apply same_time, Heq.
    + destruct (String.eqb (JSON_stringify E (r_state row)) _) eqn:Heq; cbn; [|reflexivity].
      apply String.eqb_eq, Heq.
    + intros d Hd. rewrite Hd. destruct (strict_neq _ _ _) eqn:Heq in |- *; cbn; [reflexivity|].
      apply strict_eq_string in Heq. destruct (r_description row); cbn in Heq; congruence.
    + intros c Hc. rewrite Hc. destruct (strict_neq _ _ _) eqn:Heq in |- *; cbn; [reflexivity|].
      apply strict_eq_string in Heq. destruct (r_color row); cbn in Heq; congruence.
    + intros e He. rewrite He. destruct (strict_neq _ _ _) eqn:Heq in |- *; cbn; [reflexivity|].
      apply strict_eq_string in Heq. destruct (r_workspaceId row); cbn in Heq; congruence.
    + intros data' Hm. rewrite Hm.
      destruct (strict_neq _ _ _) eqn:Heq in |- *; cbn; [reflexivity|].
      apply strict_eq_string in Heq. unfold stringify_column in Heq. cbn in Heq.
      injection Heq as Heq. destruct (r_marketplaceData row); exact Heq.
  - assert (Hsame : ~ fields_differ E row cw workspaceId state).
    { intros H. apply Hneeds in H. discriminate H. }
    unfold fields_differ in Hsame. unfold agrees_with.
    repeat split.
    + destruct (String.eqb (r_name row) (w_name cw)) eqn:Heq; [apply String.eqb_eq, Heq|].
      exfalso. apply Hsame. left. apply String.eqb_neq, Heq.
    + destruct (decide (r_folderId row = stated_folder cw)) as [->|Hne];
        [reflexivity|]. exfalso. apply Hsame. do 4 right. left. exact Hne.
    + destruct (decide (r_isDeployed row = stated_isDeployed cw)) as [->|Hne];
        [reflexivity|]. exfalso. apply Hsame. do 7 right. left. exact Hne.
    + apply same_time. destruct (strict_neq number_eqb _ _) eqn:Heq; [|reflexivity].
      exfalso. apply Hsame. do 8 right. apply strict_neq_time, Heq.
    + destruct (decide (JSON_stringify E (r_state row) = JSON_stringify E (stored_state E state)))
        as [->|Hne]; [reflexivity|]. exfalso. apply Hsame. do 6 right. left. exact Hne.
    + intros d Hd.
      destruct (strict_neq String.eqb (of_nullable (r_description row))
                  (of_optional (w_description cw))) eqn:Heq.
      * exfalso. apply Hsame. right. left. apply strict_neq_string, Heq.
      * apply strict_eq_string in Heq. rewrite Hd in Heq.
        destruct (r_description row); cbn in Heq; congruence.
    + intros c Hc.
      destruct (strict_neq String.eqb (of_nullable (r_color row))
                  (of_optional (w_color cw))) eqn:Heq.
      * exfalso. apply Hsame. do 2 right. left. apply strict_neq_string, Heq.
      * apply strict_eq_string in Heq. rewrite Hc in Heq.
        destruct (r_color row); cbn in Heq; congruence.
    + intros e He.
      destruct (strict_neq String.eqb (of_nullable (r_workspaceId row))
                  (of_optional (stated_workspace cw workspaceId))) eqn:Heq.
      * exfalso. apply Hsame. do 3 right. left. apply strict_neq_string, Heq.
      * apply strict_eq_string in Heq. rewrite He in Heq.
        destruct (r_workspaceId row); cbn in Heq; congruence.
    + intros data' Hm.
      destruct (decide (JSON_stringify E (default JNull (r_marketplaceData row))
                        = JSON_stringify E (marketplace_json data'))) as [Heq|Hne];
        [exact Heq|].
      exfalso. apply Hsame. do 5 right. left. rewrite Hm. exact Hne.
Qed.

Lemma property_In {A} (m : list (string * A)) (k : string) (v : A) :
  property m k = Some v -> In (k, v) m.
Proof.
  induction m as [|[k' v'] rest IH]; cbn; [discriminate|].
  destruct (String.eqb k' k) eqn:Heq.
  - intros [= ->]. apply String.eqb_eq in Heq. subst. left. reflexivity.
  - intros H. right. apply IH, H.
Qed.

Lemma map_set_In {A} (key : string) (value : A) (m : list (string * A)) (kv : string * A) :
  In kv (map_set key value m) -> kv = (key, value) \/ In kv m.
Proof.
  induction m as [|[k v] rest IH]; cbn.
  - intros [<-|[]]. left. reflexivity.
  - destruct (String.eqb k key).
    + intros [<-|H]; [left; reflexivity|right; right; exact H].
    + intros [<-|H]; [right; left; reflexivity|].
      destruct (IH H) as [->|H']; [left; reflexivity|right; right; exact H'].
Qed.

Lemma new_Map_In {A} (entries : list (string * A)) (kv : string * A) :
  In kv (new_Map entries) -> In kv entries.
Proof.
  unfold new_Map.
  assert (H : forall acc, In kv (fold_left (fun m e => map_set (fst e) (snd e) m) entries acc) ->
                          In kv acc \/ In kv entries).
  { induction entries as [|[k v] rest IH]; intros acc Hin; [left; exact Hin|].
    cbn in Hin. destruct (IH _ Hin) as [Hacc|Hrest]; [|right; right; exact Hrest].
    destruct (map_set_In _ _ _ _ Hacc) as [->|Hacc']; [right; left; reflexivity|].
    left. exact Hacc'. }
  intros Hin. destruct (H [] Hin) as [[]|Hin']. exact Hin'.
Qed.

(** The map of line 373 files each row under its id. *)
Lemma dbWorkflowMap_id (userId : string) (workspaceId : option string) (d : Database)
    (id : string) (row : WorkflowRow) :
  property (dbWorkflowMap_of userId workspaceId d) id = Some row -> r_id row = id.
Proof.
  intros H. apply property_In, new_Map_In, in_map_iff in H.
  destruct H as (r & [= <- <-] & _). reflexivity.
Qed.

Lemma no_update_of_other_entries (E : Env) (userId : string)
    (workspaceId userRole : option string) (dbWorkflowMap : list (string * WorkflowRow))
    (now : JsDate) (entries : list (string * Workflow)) (id : string) :
  ~ In id (map fst entries) ->
  forall data,
    ~ In (UpdateWorkflow data id)
         (flat_map (pushed_operations E userId workspaceId userRole dbWorkflowMap now) entries).
Proof.
  intros Hno data Hin. apply in_flat_map in Hin. destruct Hin as (entry & Hentry & Hop).
  apply pushed_update_target in Hop. apply Hno. rewrite Hop. apply in_map, Hentry.
Qed.

(** X6.  In a sync answered 200, a row the user may update (as its owner,
    or as owner, admin or member of the workspace the payload names) ends
    up in agreement with the client workflow sent under its id: it has the
    client's name, folder (null when absent or empty), deployment flag
    (false when absent) and deployment date, a state that serialises like
    the state chosen for saving, and the client's description, color,
    workspace and marketplace data (up to serialisation) when the client
    names one; its id, owner, creation date and deployed state are as
    before. *)
Theorem synced_row_agrees (E : Env) (req : PostRequest) (w : World)
    (resp : Response) (w' : World) (userId : string) (json : Json) (payload : SyncPayload)
    (id : string) (cw : Workflow) (row : WorkflowRow) (i : nat) :
  session_user (post_session req) = Some userId ->
  post_body req = Some json ->
  SyncPayloadSchema_parse (Date_parse E) json = ZodOk payload ->
  NoDup (map fst (p_workflows payload)) ->
  POST E req w = (Returned resp, w') ->
  status resp = 200%Z ->
  In (id, cw) (p_workflows payload) ->
  property (dbWorkflowMap_of userId (p_workspaceId payload) (db w)) id = Some row ->
  workflow_table (db w) !! i = Some row ->
  (forall userRole, checked_role E userId payload w userRole ->
                    may_update userId (p_workspaceId payload) userRole row) ->
  exists row' state,
    workflow_table (db w') !! i = Some row'
    /\ chosen_state E (events_since w w') id cw state
    /\ agrees_with E (p_workspaceId payload) state cw row'
    /\ same_identity row row'
    /\ r_deployedState row' = r_deployedState row.
Proof.
  intros Hs Hb Hp Hnd Hrun H200 Hin Hrow Hi Hcan.
  destruct (POST_synced E req w resp w' userId json payload Hs Hb Hp Hrun H200)
    as (userRole & now & Hsync).
  pose proof (proj2 (synced_chosen_state _ _ _ _ _ _ _ _ _ _ _ _ Hsync Hnd Hin) eq_refl)
    as Hchosen.
  destruct Hsync as (_ & _ & _ & Hrole & _ & _ & Htable).
  specialize (Hcan userRole Hrole). apply canUpdate_iff in Hcan.
  pose proof (dbWorkflowMap_id _ _ _ _ _ Hrow) as Hid.
  destruct (in_split _ _ Hin) as (l1 & l2 & Hsplit).
  rewrite Hsplit, map_app in Hnd. cbn [map fst] in Hnd.
  apply NoDup_app in Hnd. destruct Hnd as (_ & Hl1 & Hnd).
  apply NoDup_cons in Hnd. destruct Hnd as (Hl2 & _).
  assert (Hno1 : ~ In id (map fst l1)).
  { intros H. apply list_elem_of_In in H. apply (Hl1 _ H). left. }
  assert (Hno2 : ~ In id (map fst l2)).
  { intros H. apply Hl2. apply list_elem_of_In, H. }
  rewrite Htable. unfold sync_operations. rewrite Hsplit, flat_map_app. cbn [flat_map].
  rewrite !apply_operations_app.
  set (f := pushed_operations E userId (p_workspaceId payload) userRole
              (dbWorkflowMap_of userId (p_workspaceId payload) (db w)) now).
  pose proof (apply_operations_untouched E (flat_map f l1) (workflow_table (db w)) id i row
                (no_update_of_other_entries _ _ _ _ _ _ _ _ Hno1) Hi Hid) as H1.
  set (table1 := apply_operations E (flat_map f l1) (workflow_table (db w))) in *.
  pose proof (compared_row_agrees E row cw (p_workspaceId payload)
                (saved_state E id cw) now) as Hagree.
  pose proof (compare_workflow_identity E row (migrate_published cw) (p_workspaceId payload)
                (saved_state E id cw)) as Hident.
  pose proof (compare_workflow_deployedState E row (migrate_published cw)
                (p_workspaceId payload) (saved_state E id cw)) as Hstate.
  assert (Hf : f (id, cw) =
               update_operation E id row (migrate_published cw) (p_workspaceId payload)
                 (saved_state E id cw) now).
  { unfold f, pushed_operations. cbn [fst snd]. rewrite Hrow, Hcan. reflexivity. }
  rewrite Hf. unfold update_operation.
  destruct (compare_workflow E row (migrate_published cw) (p_workspaceId payload)
              (saved_state E id cw)) as [needsUpdate data].
  cbv zeta in Hagree. cbn [snd] in Hident, Hstate.
  destruct needsUpdate.
  - set (data' := <["updatedAt" := VDate (JsValue now)]>
                    (<["lastSynced" := VDate (JsValue now)]> data)) in *.
    assert (Hkeep : forall k, k = "id" \/ k = "userId" \/ k = "createdAt" \/ k = "deployedState" ->
                              data' !! k = None).
    { intros k Hk. unfold data'.
      destruct Hk as [->|[->|[->| ->]]]; rewrite !lookup_insert_ne by discriminate;
        solve [apply Hident; auto|exact Hstate]. }
    exists (apply_update E data' row), (saved_state E id cw).
    assert (Hrid : r_id (apply_update E data' row) = id).
    { cbn. rewrite Hkeep by auto. exact Hid. }
    split; [|split; [exact Hchosen|split; [exact Hagree|split]]].
    + apply (apply_operations_untouched E (flat_map f l2) _ id);
        [apply no_update_of_other_entries, Hno2| |exact Hrid].
      cbn. rewrite list_lookup_fmap, H1. cbn.
      rewrite Hid, String.eqb_refl. reflexivity.
    + unfold same_identity. cbn. rewrite !Hkeep by auto. repeat split.
    + cbn. rewrite Hkeep by auto. reflexivity.
  - exists row, (saved_state E id cw).
    split; [|split; [exact Hchosen|split; [exact Hagree|split]]].
    + apply (apply_operations_untouched E (flat_map f l2) _ id);
        [apply no_update_of_other_entries, Hno2|exact H1|exact Hid].
    + repeat split.
    + reflexivity.
Qed.

(** ** The counts of a sync *)

Lemma pushed_at_most_one (E : Env) (userId : string) (workspaceId userRole : option string)
    (dbWorkflowMap : list (string * WorkflowRow)) (now : JsDate) (entry : string * Workflow) :
  (length (pushed_operations E userId workspaceId userRole dbWorkflowMap now entry) <= 1)%nat.
Proof.
  unfold pushed_operations. destruct (property dbWorkflowMap (fst entry)) as [row|]; [|cbn; lia].
  destruct (negb (canUpdate row userId workspaceId userRole)); [cbn; lia|].
  unfold update_operation. destruct (compare_workflow _ _ _ _ _) as [[|] data]; cbn; lia.
Qed.

Lemma apply_operations_grows (E : Env) (operations : list Operation)
    (table : list WorkflowRow) :
  length (apply_operations E operations table)
  = (length table + length (List.filter is_insert operations))%nat.
Proof.
  revert table. induction operations as [|op rest IH]; intros table; [cbn; lia|].
  cbn [apply_operations fold_left]. fold (apply_operations E rest (apply_operation E op table)).
  rewrite IH. destruct op; cbn; [rewrite length_app; cbn; lia|rewrite length_map; lia].
Qed.

(** X21.  The answer of a successful sync counts what was done: its
    [operations] is the number of writes the handler executed, at most one
    per workflow received, its [workflows] is the number of workflows
    received, and the table has grown by the number of inserts among the
    writes. *)
Theorem sync_stats_count (E : Env) (req : PostRequest) (w : World)
    (resp : Response) (w' : World) (userId : string) (json : Json) (payload : SyncPayload) :
  session_user (post_session req) = Some userId ->
  post_body req = Some json ->
  SyncPayloadSchema_parse (Date_parse E) json = ZodOk payload ->
  POST E req w = (Returned resp, w') ->
  status resp = 200%Z ->
  let writes := executed (events_since w w') in
  (exists elapsed,
     resp = {| status := 200;
               body := SuccessBody elapsed (length writes) (length (p_workflows payload)) |})
  /\ (length writes <= length (p_workflows payload))%nat
  /\ length (workflow_table (db w'))
     = (length (workflow_table (db w)) + length (List.filter is_insert writes))%nat.
Proof.
  intros Hs Hb Hp Hrun H200. cbv zeta.
  destruct (POST_synced E req w resp w' userId json payload Hs Hb Hp Hrun H200)
    as (userRole & now & Hsync).
  rewrite (synced_executed _ _ _ _ _ _ _ _ _ Hsync).
  destruct Hsync as (_ & _ & _ & _ & (elapsed & ->) & _ & Htable).
  split; [exists elapsed; reflexivity|]. split.
  - unfold sync_operations. generalize (p_workflows payload). intros entries.
    induction entries as [|entry rest IH]; [cbn; lia|].
    cbn [flat_map length]. rewrite length_app.
    pose proof (pushed_at_most_one E userId (p_workspaceId payload) userRole
                  (dbWorkflowMap_of userId (p_workspaceId payload) (db w)) now entry).
    lia.
  - rewrite Htable. apply apply_operations_grows.
Qed.

(** ** A client that names no description *)

(** X22.  The comparison of the description and of the color is strict:
    a client workflow that names no description, or no color, differs from
    every row, whether the column is null or not.  In a sync answered 200
    such a workflow is written on every sync: an update of the row, with
    new sync and update dates, is executed for it whenever the user may
    update the row. *)
Theorem absent_description_always_updates (E : Env) (req : PostRequest) (w : World)
    (resp : Response) (w' : World) (userId : string) (json : Json) (payload : SyncPayload)
    (id : string) (cw : Workflow) (row : WorkflowRow) :
  session_user (post_session req) = Some userId ->
  post_body req = Some json ->
  SyncPayloadSchema_parse (Date_parse E) json = ZodOk payload ->
  POST E req w = (Returned resp, w') ->
  status resp = 200%Z ->
  In (id, cw) (p_workflows payload) ->
  property (dbWorkflowMap_of userId (p_workspaceId payload) (db w)) id = Some row ->
  (forall userRole, checked_role E userId payload w userRole ->
                    canUpdate row userId (p_workspaceId payload) userRole = true) ->
  w_description cw = None \/ w_color cw = None ->
  exists data now,
    In (UpdateWorkflow data id) (executed (events_since w w'))
    /\ data !! "lastSynced" = Some (VDate (JsValue now))
    /\ data !! "updatedAt" = Some (VDate (JsValue now)).
Proof.
  intros Hs Hb Hp Hrun H200 Hin Hrow Hcan Habsent.
  destruct (POST_synced E req w resp w' userId json payload Hs Hb Hp Hrun H200)
    as (userRole & now & Hsync).
  rewrite (synced_executed _ _ _ _ _ _ _ _ _ Hsync).
  destruct Hsync as (_ & _ & _ & Hrole & _).
  specialize (Hcan userRole Hrole).
  assert (Hdiffer : fields_differ E row cw (p_workspaceId payload) (saved_state E id cw)).
  { unfold fields_differ. destruct Habsent as [-> | ->].
    - right. left. destruct (r_description row); discriminate.
    - right. right. left. destruct (r_color row); discriminate. }
  apply needsUpdate_iff in Hdiffer.
  assert (Hpushed : pushed_operations E userId (p_workspaceId payload) userRole
                      (dbWorkflowMap_of userId (p_workspaceId payload) (db w)) now (id, cw)
                    = update_operation E id row (migrate_published cw) (p_workspaceId payload)
                        (saved_state E id cw) now).
  { unfold pushed_operations. cbn [fst snd]. rewrite Hrow, Hcan. reflexivity. }
  unfold update_operation in Hpushed.
  destruct (compare_workflow E row (migrate_published cw) (p_workspaceId payload)
              (saved_state E id cw)) as [needsUpdate data].
  cbn [fst] in Hdiffer. subst needsUpdate.
  eexists. exists now. split; [|split].
  - unfold sync_operations. apply in_flat_map. exists (id, cw). split; [exact Hin|].
    rewrite Hpushed. left. reflexivity.
  - rewrite lookup_insert_ne by discriminate. apply lookup_insert_eq.
  - apply lookup_insert_eq.
Qed.

(** ** An empty sync with nothing to lose *)

(** X23.  An authenticated POST whose payload has no workflows and names
    no workspace, from a user who owns no workflow row, is accepted: it
    answers 200 with no operation and no workflow counted, after the
    select of the guard and the select of the rows, and writes nothing. *)
Theorem empty_sync_accepted (E : Env) (req : PostRequest) (w : World) (userId : string)
    (json : Json) (payload : SyncPayload) :
  session_user (post_session req) = Some userId ->
  post_body req = Some json ->
  SyncPayloadSchema_parse (Date_parse E) json = ZodOk payload ->
  p_workflows payload = [] ->
  given (p_workspaceId payload) = None ->
  db_fault (db w) = None ->
  workflows_of_user userId (db w) = [] ->
  (exists elapsed,
     fst (POST E req w) = Returned {| status := 200; body := SuccessBody elapsed 0 0 |})
  /\ events_since w (snd (POST E req w))
     = [Queried (OneWorkflowOfUser userId); Queried (WorkflowsOfUser userId)]
  /\ db (snd (POST E req w)) = db w.
Proof.
  intros Hs Hb Hp Hempty Hnone Hok Hrows.
  rewrite (POST_parsed E req w userId json payload Hs Hb Hp).
  rewrite (POST_guard_empty E userId payload _ _ Hempty) by exact Hok. cbv zeta.
  unfold dbWorkflows_of. rewrite Hnone. simpl_world. rewrite Hrows.
  unfold POST_authorize. rewrite Hnone.
  rewrite POST_reconcile_run by exact Hok.
  unfold sync_operations, reconcile_query. rewrite Hempty, Hnone. cbn [flat_map length map].
  cbn [fst snd]. split; [eexists; reflexivity|]. split.
  - apply events_since_app. simpl_world. rewrite <- !app_assoc. reflexivity.
  - simpl_world. destruct w as [[table spaces members fault] cache n t]. reflexivity.
Qed.

(** ** The cleanup of the membership cache *)

Lemma insert_by_expires_perm (x : string * CacheEntry) (l : list (string * CacheEntry)) :
  Permutation (insert_by_expires x l) (x :: l).
Proof.
  induction l as [|y rest IH]; cbn; [reflexivity|].
  destruct (expires (snd x) <=? expires (snd y))%Z; [reflexivity|].
  rewrite IH. apply perm_swap.
Qed.

Lemma sort_by_expires_perm (l : list (string * CacheEntry)) :
  Permutation (sort_by_expires l) l.
Proof.
  induction l as [|x rest IH]; cbn; [reflexivity|].
  rewrite insert_by_expires_perm, IH. reflexivity.
Qed.

Lemma insert_by_expires_sorted (x : string * CacheEntry) (l : list (string * CacheEntry)) :
  StronglySorted expires_before l -> StronglySorted expires_before (insert_by_expires x l).
Proof.
  induction 1 as [|y rest Hsorted IH Hall]; cbn.
  - constructor; constructor.
  - destruct (expires (snd x) <=? expires (snd y))%Z eqn:Hle.
    + apply Z.leb_le in Hle. constructor; [constructor; assumption|].
      constructor; [exact Hle|].
      eapply List.Forall_impl; [|exact Hall]. intros z Hz. unfold expires_before in *. lia.
    + apply Z.leb_gt in Hle. constructor; [exact IH|].
      rewrite insert_by_expires_perm. constructor; [|exact Hall].
      unfold expires_before. lia.
Qed.

Lemma sort_by_expires_sorted (l : list (string * CacheEntry)) :
  StronglySorted expires_before (sort_by_expires l).
Proof.
  induction l as [|x rest IH]; cbn; [constructor|].
  apply insert_by_expires_sorted, IH.
Qed.

Lemma sorted_app_order {A} (R : A -> A -> Prop) (l1 l2 : list A) (x y : A) :
  StronglySorted R (l1 ++ l2) -> In x l1 -> In y l2 -> R x y.
Proof.
  induction l1 as [|a rest IH]; cbn; [intros _ []|].
  intros Hs [->|Hx] Hy; apply StronglySorted_inv in Hs; destruct Hs as [Hs Hall].
  - rewrite List.Forall_forall in Hall. apply Hall, in_or_app. right. exact Hy.
  - apply IH; assumption.
Qed.

Lemma filter_filter_and {A} (f g : A -> bool) (l : list A) :
  List.filter f (List.filter g l) = List.filter (fun x => g x && f x) l.
Proof.
  induction l as [|x rest IH]; cbn; [reflexivity|].
  destruct (g x); cbn; [destruct (f x)|]; rewrite IH; reflexivity.
Qed.

Lemma filter_perm {A} (f : A -> bool) (l l' : list A) :
  Permutation l l' -> Permutation (List.filter f l) (List.filter f l').
Proof.
  induction 1 as [|x l l' _ IH|x y l|l l' l'' _ IH1 _ IH2]; cbn.
  - reflexivity.
  - destruct (f x); [constructor|]; exact IH.
  - destruct (f x), (f y); try reflexivity. apply perm_swap.
  - etransitivity; eassumption.
Qed.

Lemma filter_none {A} (f : A -> bool) (l : list A) :
  (forall x, In x l -> f x = false) -> List.filter f l = [].
Proof.
  induction l as [|x rest IH]; cbn; [reflexivity|]. intros H.
  rewrite (H x) by (left; reflexivity). apply IH. intros y Hy. apply H. right. exact Hy.
Qed.

Lemma filter_every {A} (f : A -> bool) (l : list A) :
  (forall x, In x l -> f x = true) -> List.filter f l = l.
Proof.
  induction l as [|x rest IH]; cbn; [reflexivity|]. intros H.
  rewrite (H x) by (left; reflexivity). f_equal. apply IH. intros y Hy. apply H. right. exact Hy.
Qed.

(** Deleting the keys of [removed] one after the other keeps the entries
    whose key is none of them. *)
Lemma delete_all {A} (removed m : list (string * A)) :
  fold_left (fun m kv => map_delete (fst kv) m) removed m
  = List.filter (fun kv => negb (key_among removed kv)) m.
Proof.
  revert m. induction removed as [|r rest IH]; intros m; cbn.
  - symmetry. apply filter_every. reflexivity.
  - rewrite IH. unfold map_delete. rewrite filter_filter_and.
    apply filter_ext. intros kv. cbn. rewrite negb_orb. reflexivity.
Qed.

Lemma key_among_In {A} (removed : list (string * A)) (kv : string * A) :
  key_among removed kv = true <-> In (fst kv) (map fst removed).
Proof.
  unfold key_among. rewrite existsb_exists, in_map_iff. split.
  - intros (r & Hr & Heq). apply String.eqb_eq in Heq. exists r. split; [congruence|exact Hr].
  - intros (r & Heq & Hr). exists r. split; [exact Hr|]. apply String.eqb_eq. congruence.
Qed.

(** With distinct keys, deleting the keys of the first [k] entries leaves
    the others. *)
Lemma delete_first {A} (k : nat) (l : list (string * A)) :
  NoDup (map fst l) ->
  List.filter (fun kv => negb (key_among (firstn k l) kv)) l = skipn k l.
Proof.
  intros Hnd.
  rewrite <- (firstn_skipn k l), map_app in Hnd. apply NoDup_app in Hnd.
  destruct Hnd as (_ & Hdisj & _).
  set (first := firstn k l) in *. set (others := skipn k l) in *.
  replace l with (first ++ others) by apply firstn_skipn.
  rewrite List.filter_app, filter_none, filter_every; [reflexivity| |].
  - intros kv Hin. apply negb_true_iff. destruct (key_among _ kv) eqn:Hk; [|reflexivity].
    exfalso. apply key_among_In in Hk. apply list_elem_of_In in Hk.
    apply (Hdisj _ Hk). apply list_elem_of_In, in_map, Hin.
  - intros kv Hin. apply negb_false_iff, key_among_In, in_map, Hin.
Qed.

Lemma filter_distinct_keys {A} (f : string * A -> bool) (m : list (string * A)) :
  distinct_keys m -> distinct_keys (List.filter f m).
Proof.
  unfold distinct_keys. induction m as [|kv rest IH]; cbn; [intros _; constructor|].
  intros Hnd. apply NoDup_cons in Hnd. destruct Hnd as [Hkv Hrest].
  destruct (f kv); cbn; [|apply IH, Hrest].
  apply NoDup_cons. split; [|apply IH, Hrest].
  intros Hin. apply Hkv. apply list_elem_of_In in Hin. apply list_elem_of_In.
  apply in_map_iff in Hin. destruct Hin as (x & Hx & Hin).
  apply filter_In in Hin. apply in_map_iff. exists x. tauto.
Qed.

Lemma cleanup_cache_run (E : Env) (w : World) :
  cleanupExpiredCacheEntries E w =
  (Returned tt,
   let live := List.filter (unexpired (clock E (ticks w))) (workspaceMembershipCache w) in
   with_cache
     (if (MAX_CACHE_SIZE <? length live)%nat
      then List.filter
             (fun kv => negb (key_among (firstn (length live - MAX_CACHE_SIZE)
                                                (sort_by_expires live)) kv)) live
      else live)
     (with_ticks (S (ticks w)) w)).
Proof.
  unfold cleanupExpiredCacheEntries. rewrite bind_run. cbn [Date_now].
  rewrite bind_run. cbn [get_world]. simpl_world. cbv zeta.
  fold (unexpired (clock E (ticks w))).
  destruct (MAX_CACHE_SIZE <? _)%nat; [|reflexivity].
  unfold set_cache. rewrite delete_all. reflexivity.
Qed.

(** What the cleanup leaves, up to the order of the entries. *)
Lemma cleanup_cache_perm (E : Env) (w : World) :
  distinct_keys (workspaceMembershipCache w) ->
  let live := List.filter (unexpired (clock E (ticks w))) (workspaceMembershipCache w) in
  Permutation (workspaceMembershipCache (snd (cleanupExpiredCacheEntries E w)))
              (skipn (length live - MAX_CACHE_SIZE) (sort_by_expires live)).
Proof.
  intros Hnd. cbv zeta. rewrite cleanup_cache_run. cbv zeta. cbn [snd]. simpl_world.
  set (live := List.filter _ _).
  assert (Hlive : NoDup (map fst live)) by apply filter_distinct_keys, Hnd.
  destruct (MAX_CACHE_SIZE <? length live)%nat eqn:Hover.
  - rewrite (filter_perm _ _ _ (Permutation_sym (sort_by_expires_perm live))).
    rewrite delete_first; [reflexivity|].
    rewrite (Permutation_map fst (sort_by_expires_perm live)). exact Hlive.
  - apply Nat.ltb_ge in Hover.
    replace (length live - MAX_CACHE_SIZE)%nat with 0%nat by lia.
    cbn. symmetry. apply sort_by_expires_perm.
Qed.

Lemma skipn_In {A} (k : nat) (l : list A) (x : A) : In x (skipn k l) -> In x l.
Proof. intros H. rewrite <- (firstn_skipn k l). apply in_or_app. right. exact H. Qed.

(** X7.  The cleanup of the membership cache removes every entry that has
    expired at the time it reads and, if more than 1000 entries remain,
    those that expire soonest: afterwards the cache holds at most 1000
    entries, all of them entries it held that have not expired; every
    entry removed expires no later than every entry kept; and when no more
    than 1000 entries had not expired, all of those are kept.  The cleanup
    touches neither the database nor the trace. *)
Theorem cleanup_bounds_cache (E : Env) (w : World) :
  distinct_keys (workspaceMembershipCache w) ->
  let now := clock E (ticks w) in
  let before := workspaceMembershipCache w in
  let after := workspaceMembershipCache (snd (cleanupExpiredCacheEntries E w)) in
  (length after <= MAX_CACHE_SIZE)%nat
  /\ distinct_keys after
  /\ (forall kv, In kv after -> In kv before /\ (now < expires (snd kv))%Z)
  /\ (forall kept evicted,
        In kept after -> In evicted before -> ~ In evicted after ->
        expires_before evicted kept)
  /\ ((length (List.filter (unexpired now) before) <= MAX_CACHE_SIZE)%nat ->
      forall kv, In kv before -> (now < expires (snd kv))%Z -> In kv after)
  /\ db (snd (cleanupExpiredCacheEntries E w)) = db w
  /\ trace (snd (cleanupExpiredCacheEntries E w)) = trace w.
Proof.
  intros Hnd. cbv zeta.
  pose proof (cleanup_cache_perm E w Hnd) as Hperm. cbv zeta in Hperm.
  set (now := clock E (ticks w)) in *.
  set (live := List.filter (unexpired now) (workspaceMembershipCache w)) in *.
  set (sorted := sort_by_expires live) in *.
  set (k := (length live - MAX_CACHE_SIZE)%nat) in *.
  set (after := workspaceMembershipCache (snd (cleanupExpiredCacheEntries E w))) in *.
  assert (Hsorted : Permutation sorted live) by apply sort_by_expires_perm.
  assert (Hlive : forall kv, In kv live <->
                             In kv (workspaceMembershipCache w) /\ (now < expires (snd kv))%Z).
  { intros kv. unfold live. rewrite filter_In. unfold unexpired.
    split; intros [H1 H2]; (split; [exact H1|]).
    - apply negb_true_iff, Z.leb_gt in H2. exact H2.
    - apply negb_true_iff, Z.leb_gt. exact H2. }
  assert (Hafter : forall kv, In kv after <-> In kv (skipn k sorted)).
  { intros kv. split; apply Permutation_in; [exact Hperm|symmetry; exact Hperm]. }
  split; [|split; [|split; [|split; [|split]]]].
  - rewrite (Permutation_length Hperm), length_skipn, (Permutation_length Hsorted).
    unfold k. lia.
  - unfold distinct_keys. rewrite (Permutation_map fst Hperm).
    assert (Hall : NoDup (map fst sorted)).
    { rewrite (Permutation_map fst Hsorted). apply filter_distinct_keys, Hnd. }
    rewrite <- (firstn_skipn k sorted), map_app in Hall.
    apply NoDup_app in Hall. tauto.
  - intros kv Hin. apply Hlive. apply (Permutation_in _ Hsorted).
    apply (skipn_In k). apply Hafter, Hin.
  - intros kept evicted Hkept Hevicted Hgone.
    apply Hafter in Hkept.
    destruct (Z_lt_le_dec now (expires (snd evicted))) as [Hfresh|Hstale].
    + assert (Hin : In evicted sorted).
      { apply (Permutation_in _ (Permutation_sym Hsorted)). apply Hlive. tauto. }
      rewrite <- (firstn_skipn k sorted) in Hin. apply in_app_or in Hin.
      destruct Hin as [Hfirst|Hrest]; [|exfalso; apply Hgone, Hafter, Hrest].
      apply (sorted_app_order expires_before (firstn k sorted) (skipn k sorted));
        [|exact Hfirst|exact Hkept].
      rewrite firstn_skipn. apply sort_by_expires_sorted.
    + assert (Hk : (now < expires (snd kept))%Z).
      { apply (Hlive kept). apply (Permutation_in _ Hsorted), (skipn_In k), Hkept. }
      unfold expires_before. lia.
  - intros Hfew kv Hin Hfresh. apply Hafter.
    replace k with 0%nat by (unfold k; fold live in Hfew; lia). cbn.
    apply (Permutation_in _ (Permutation_sym Hsorted)). apply Hlive. tauto.
  - rewrite cleanup_cache_run. split; reflexivity.
Qed.

(** ** The size of the cache *)

Lemma map_set_keys {A} (key : string) (value : A) (m : list (string * A)) :
  map fst (map_set key value m)
  = if bool_decide (key ∈ map fst m) then map fst m else map fst m ++ [key].
Proof.
  induction m as [|[k v] rest IH]; cbn; [reflexivity|].
  destruct (String.eqb k key) eqn:Heq; cbn.
  - apply String.eqb_eq in Heq. subst k.
    rewrite bool_decide_eq_true_2 by left. reflexivity.
  - apply String.eqb_neq in Heq. rewrite IH.
    destruct (bool_decide (key ∈ map fst rest)) eqn:Hin.
    + apply bool_decide_eq_true_1 in Hin.
      rewrite bool_decide_eq_true_2 by (right; exact Hin). reflexivity.
    + apply bool_decide_eq_false_1 in Hin.
      rewrite bool_decide_eq_false_2; [reflexivity|].
      intros H. apply elem_of_cons in H. destruct H as [H|H]; [congruence|tauto].
Qed.

Lemma map_set_distinct {A} (key : string) (value : A) (m : list (string * A)) :
  distinct_keys m -> distinct_keys (map_set key value m).
Proof.
  unfold distinct_keys. intros Hnd. rewrite map_set_keys.
  destruct (bool_decide (key ∈ map fst m)) eqn:Hin; [exact Hnd|].
  apply bool_decide_eq_false_1 in Hin. apply NoDup_app. split; [exact Hnd|]. split.
  - intros x Hx Hkey. apply list_elem_of_singleton in Hkey. subst x. contradiction.
  - apply NoDup_singleton.
Qed.

Lemma map_set_length {A} (key : string) (value : A) (m : list (string * A)) :
  (length (map_set key value m) <= S (length m))%nat.
Proof.
  rewrite <- (length_map fst (map_set key value m)), map_set_keys.
  destruct (bool_decide _); rewrite ?length_app, length_map; cbn; lia.
Qed.

Lemma map_set_keeps {A} (key : string) (value : A) (m : list (string * A)) (kv : string * A) :
  In kv m -> fst kv <> key -> In kv (map_set key value m).
Proof.
  induction m as [|[k v] rest IH]; cbn; [intros []|].
  intros [<-|Hin] Hne; cbn in *.
  - destruct (String.eqb k key) eqn:Heq; [apply String.eqb_eq in Heq; contradiction|].
    left. reflexivity.
  - destruct (String.eqb k key); right; [exact Hin|apply IH; assumption].
Qed.

Lemma after_cleanup_large (E : Env) (w : World) :
  (MAX_CACHE_SIZE / 2 < length (workspaceMembershipCache w))%nat ->
  after_cleanup E w = snd (cleanupExpiredCacheEntries E w).
Proof.
  intros Hlarge. unfold after_cleanup, opportunistic_cleanup.
  rewrite bind_run. cbn [get_world].
  apply Nat.ltb_lt in Hlarge. rewrite Hlarge. reflexivity.
Qed.

Lemma half_of_MAX_CACHE_SIZE : (MAX_CACHE_SIZE / 2 <= MAX_CACHE_SIZE)%nat.
Proof. apply Nat.leb_le. vm_compute. reflexivity. Qed.

(** The cache the membership check leaves: the one the cleanup left, with
    at most one entry set. *)
Lemma verify_cache (E : Env) (userId workspaceId : string) (w : World) :
  let after := workspaceMembershipCache (snd (verifyWorkspaceMembership E userId workspaceId w)) in
  let cleaned := workspaceMembershipCache (after_cleanup E w) in
  after = cleaned
  \/ exists entry, after = map_set (cacheKey userId workspaceId) entry cleaned.
Proof.
  cbv zeta. rewrite verify_after_cleanup. cbv zeta.
  destruct (after_cleanup_run E w) as (_ & Hdb & _).
  set (w1 := after_cleanup E w) in *.
  assert (Hquery : forall w2,
            workspaceMembershipCache w2 = workspaceMembershipCache w1 ->
            workspaceMembershipCache (snd (query_membership E userId workspaceId w2))
            = workspaceMembershipCache w1
            \/ exists entry,
                 workspaceMembershipCache (snd (query_membership E userId workspaceId w2))
                 = map_set (cacheKey userId workspaceId) entry (workspaceMembershipCache w1)).
  { intros w2 Hc. rewrite query_membership_run.
    destruct (db_fault (db w2)); [left; exact Hc|].
    destruct (membership_rows workspaceId userId (db w2)); [left; exact Hc|].
    right. eexists. cbn [snd]. simpl_world. rewrite Hc. reflexivity. }
  destruct (property (workspaceMembershipCache w1) (cacheKey userId workspaceId)) as [cached|].
  - destruct (clock E (ticks w1) <? expires cached)%Z; [left; reflexivity|].
    apply Hquery. reflexivity.
  - apply Hquery. reflexivity.
Qed.

(** X8.  The membership check keeps the cache bounded: whatever the cache
    held, it holds at most 1001 entries when the check returns, under
    distinct keys; and a check that finds at most 500 entries evicts none
    of them. *)
Theorem cache_stays_bounded (E : Env) (userId workspaceId : string) (w : World) :
  distinct_keys (workspaceMembershipCache w) ->
  let after := workspaceMembershipCache (snd (verifyWorkspaceMembership E userId workspaceId w)) in
  distinct_keys after
  /\ (length after <= MAX_CACHE_SIZE + 1)%nat
  /\ ((length (workspaceMembershipCache w) <= MAX_CACHE_SIZE / 2)%nat ->
      forall kv, In kv (workspaceMembershipCache w) ->
                 fst kv <> cacheKey userId workspaceId -> In kv after).
Proof.
  intros Hnd. cbv zeta.
  assert (Hclean : distinct_keys (workspaceMembershipCache (after_cleanup E w))
                   /\ (length (workspaceMembershipCache (after_cleanup E w))
                       <= MAX_CACHE_SIZE)%nat).
  { destruct (Nat.le_gt_cases (length (workspaceMembershipCache w)) (MAX_CACHE_SIZE / 2))
      as [Hsmall|Hlarge].
    - rewrite (after_cleanup_small E w Hsmall). split; [exact Hnd|].
      pose proof half_of_MAX_CACHE_SIZE. lia.
    - rewrite (after_cleanup_large E w Hlarge).
      pose proof (cleanup_cache_perm E w Hnd) as Hperm. cbv zeta in Hperm.
      split.
      + unfold distinct_keys. rewrite (Permutation_map fst Hperm).
        set (live := List.filter _ _) in *.
        assert (Hall : NoDup (map fst (sort_by_expires live))).
        { rewrite (Permutation_map fst (sort_by_expires_perm live)).
          apply filter_distinct_keys, Hnd. }
        rewrite <- (firstn_skipn (length live - MAX_CACHE_SIZE) (sort_by_expires live)),
          map_app in Hall.
        apply NoDup_app in Hall. tauto.
      + rewrite (Permutation_length Hperm), length_skipn,
          (Permutation_length (sort_by_expires_perm _)). lia. }
  destruct Hclean as [Hkeys Hsize].
  destruct (verify_cache E userId workspaceId w) as [Heq|(entry & Heq)];
    cbv zeta in Heq; rewrite Heq.
  - split; [exact Hkeys|]. split; [lia|].
    intros Hsmall kv Hin _. rewrite (after_cleanup_small E w Hsmall). exact Hin.
  - split; [apply map_set_distinct, Hkeys|]. split.
    + pose proof (map_set_length (cacheKey userId workspaceId) entry
                    (workspaceMembershipCache (after_cleanup E w))). lia.
    + intros Hsmall kv Hin Hne. rewrite (after_cleanup_small E w Hsmall).
      apply map_set_keeps; assumption.
Qed.

(** ** Two checks in a row *)

(** X9.  A check that finds no entry for the user and the workspace asks
    the database; when it finds a membership, the next check for the same
    user and workspace is answered from the cache, without a query, if
    the clock has advanced by less than 60000 ms between the two readings,
    and asks the database again otherwise (the cache holding fewer than
    500 entries, so that no cleanup runs). *)
Theorem fresh_check_is_cached (E : Env) (userId workspaceId : string) (w : World)
    (membership : MemberRow) (others : list MemberRow) :
  db_fault (db w) = None ->
  membership_rows workspaceId userId (db w) = membership :: others ->
  property (workspaceMembershipCache w) (cacheKey userId workspaceId) = None ->
  (length (workspaceMembershipCache w) < MAX_CACHE_SIZE / 2)%nat ->
  let first := verifyWorkspaceMembership E userId workspaceId w in
  let second := verifyWorkspaceMembership E userId workspaceId (snd first) in
  fst first = Returned (Some (m_role membership))
  /\ events_since w (snd first) = [Queried (MembershipOf workspaceId userId)]
  /\ fst second = Returned (Some (m_role membership))
  /\ ((clock E (S (ticks w)) < clock E (ticks w) + 60000)%Z ->
      events_since (snd first) (snd second) = [])
  /\ ((clock E (ticks w) + 60000 <= clock E (S (ticks w)))%Z ->
      events_since (snd first) (snd second) = [Queried (MembershipOf workspaceId userId)]).
Proof.
  intros Hok Hrows Hmiss Hsmall. cbv zeta.
  rewrite (verify_after_cleanup E userId workspaceId w). cbv zeta.
  rewrite (after_cleanup_small E w) by lia.
  rewrite Hmiss, query_membership_run, Hok, Hrows. cbn [fst snd].
  set (entry := {| role := m_role membership; expires := (clock E (ticks w) + CACHE_TTL)%Z |}).
  set (w1 := with_cache _ _).
  assert (Hsmall1 : (length (workspaceMembershipCache w1) <= MAX_CACHE_SIZE / 2)%nat).
  { unfold w1. simpl_world.
    pose proof (map_set_length (cacheKey userId workspaceId) entry
                  (workspaceMembershipCache w)). lia. }
  rewrite (verify_after_cleanup E userId workspaceId w1). cbv zeta.
  rewrite (after_cleanup_small E w1 Hsmall1).
  assert (Hhit : property (workspaceMembershipCache w1) (cacheKey userId workspaceId)
                 = Some entry).
  { unfold w1. simpl_world. apply property_map_set. }
  rewrite Hhit.
  assert (Hticks : ticks w1 = S (ticks w)) by reflexivity.
  assert (Hdb : db w1 = db w) by reflexivity.
  rewrite Hticks. cbn [expires entry]. unfold CACHE_TTL.
  split; [reflexivity|]. split; [apply events_since_app; reflexivity|].
  destruct (clock E (S (ticks w)) <? clock E (ticks w) + 60000)%Z eqn:Hfresh.
  - cbn [fst snd]. split; [reflexivity|]. split.
    + intros _. apply events_since_same. reflexivity.
    + intros Hlate. apply Z.ltb_lt in Hfresh. lia.
  - rewrite query_membership_run. subst w1. simpl_world. rewrite Hok, Hrows. cbn [fst snd].
    split; [reflexivity|]. split.
    + intros Hearly. apply Z.ltb_ge in Hfresh. lia.
    + intros _. apply events_since_app. reflexivity.
Qed.

(** ** The migration of orphaned workflows *)

Lemma apply_adoption (E : Env) (workspaceId : string) (now : JsDate) (r : WorkflowRow) :
  apply_update E (adoption workspaceId now) r = adopted workspaceId now r.
Proof. reflexivity. Qed.

Lemma adopted_not_orphan (userId workspaceId : string) (now : JsDate) (r : WorkflowRow) :
  is_orphan userId (adopted workspaceId now r) = false.
Proof. unfold is_orphan. cbn. apply andb_false_r. Qed.

Lemma migrate_run (E : Env) (F : MigrationFaults) (userId workspaceId : string) (w : World) :
  migrateOrphanedWorkflows E F userId workspaceId w =
  match db_fault (db w) with
  | Some _ => (Returned tt, w)
  | None =>
      match List.filter (is_orphan userId) (workflow_table (db w)) with
      | [] => (Returned tt, w)
      | orphan :: others =>
          if batch_rejects F
          then adopt_each E F workspaceId (map r_id (orphan :: others))
                 (with_ticks (S (ticks w)) w)
          else (Returned tt,
                with_table (adopt_orphans E userId workspaceId (Date (clock E (ticks w)))
                              (workflow_table (db w)))
                  (with_ticks (S (ticks w)) w))
      end
  end.
Proof.
  unfold migrateOrphanedWorkflows. rewrite try_catch_run, bind_run. cbn [get_world].
  destruct (db_fault (db w)); [reflexivity|].
  destruct (List.filter (is_orphan userId) (workflow_table (db w))) as [|orphan others];
    [reflexivity|].
  cbn [length Nat.eqb]. rewrite bind_run. unfold new_Date at 1. rewrite bind_run.
  cbn [Date_now ret]. destruct (batch_rejects F); [|reflexivity].
  set (m := adopt_each _ _ _ _ _). destruct m as [[[]|e] w2] eqn:Hm; [reflexivity|].
  exfalso. subst m.
  assert (Hnever : forall ids w0, fst (adopt_each E F workspaceId ids w0) = Returned tt).
  { induction ids as [|id rest IH]; intros w0; [reflexivity|].
    cbn [adopt_each]. rewrite bind_run. unfold new_Date. rewrite bind_run.
    cbn [Date_now ret]. rewrite bind_run.
    destruct (update_rejects F id); [apply IH|].
    rewrite bind_run. cbn [get_world set_workflow_table]. apply IH. }
  specialize (Hnever (map r_id (orphan :: others)) (with_ticks (S (ticks w)) w)).
  rewrite Hm in Hnever. discriminate Hnever.
Qed.

(** X10.  When the database answers and accepts the batch update, the
    migration moves every workflow of the user that has no workspace to
    the workspace given, with the date it read as update date and every
    other column as it was; the other rows are not touched; no workflow of
    the user is left without a workspace, and a second migration changes
    nothing. *)
Theorem migration_adopts_orphans (E : Env) (F : MigrationFaults)
    (userId workspaceId : string) (w : World) :
  db_fault (db w) = None ->
  batch_rejects F = false ->
  let w' := snd (migrateOrphanedWorkflows E F userId workspaceId w) in
  workflow_table (db w') =
    map (fun r => if is_orphan userId r
                  then adopted workspaceId (Date (clock E (ticks w))) r else r)
        (workflow_table (db w))
  /\ List.filter (is_orphan userId) (workflow_table (db w')) = []
  /\ migrateOrphanedWorkflows E F userId workspaceId w' = (Returned tt, w').
Proof.
  intros Hok Hbatch. cbv zeta.
  assert (Hmap : forall now table,
            List.filter (is_orphan userId) (adopt_orphans E userId workspaceId now table) = []).
  { intros now table. unfold adopt_orphans.
    induction table as [|r rest IH]; [reflexivity|]. cbn [map List.filter].
    destruct (is_orphan userId r) eqn:Hr.
    - rewrite apply_adoption, adopted_not_orphan. exact IH.
    - rewrite Hr. exact IH. }
  rewrite migrate_run, Hok.
  destruct (List.filter (is_orphan userId) (workflow_table (db w))) as [|orphan others] eqn:Hf.
  - cbn [snd]. split; [|split].
    + symmetry. etransitivity; [|apply map_id]. apply map_ext_in. intros r Hin.
      destruct (is_orphan userId r) eqn:Hr; [|reflexivity].
      exfalso. assert (Hin' : In r (List.filter (is_orphan userId) (workflow_table (db w))))
        by (apply filter_In; split; assumption).
      rewrite Hf in Hin'. destruct Hin'.
    + exact Hf.
    + rewrite migrate_run, Hok, Hf. reflexivity.
  - rewrite Hbatch. cbn [snd]. simpl_world.
    split; [reflexivity|]. split; [apply Hmap|].
    rewrite migrate_run. simpl_world. rewrite Hok, Hmap. reflexivity.
Qed.

Lemma adopt_each_step (E : Env) (F : MigrationFaults) (workspaceId id : string)
    (rest : list string) (w : World) :
  adopt_each E F workspaceId (id :: rest) w =
  adopt_each E F workspaceId rest
    (if update_rejects F id then with_ticks (S (ticks w)) w
     else with_table
            (map (fun r => if String.eqb (r_id r) id
                           then adopted workspaceId (Date (clock E (ticks w))) r else r)
                 (workflow_table (db w)))
            (with_ticks (S (ticks w)) w)).
Proof.
  cbn [adopt_each]. rewrite bind_run. unfold new_Date. rewrite bind_run.
  cbn [Date_now ret]. rewrite bind_run.
  destruct (update_rejects F id); [reflexivity|].
  rewrite bind_run. reflexivity.
Qed.

(** The fallback changes only rows whose id it is given, and moves those. *)
Lemma adopt_each_rows (E : Env) (F : MigrationFaults) (userId workspaceId : string)
    (original : list WorkflowRow) (ids : list string) (w : World) :
  (forall id row, In id ids -> In row original -> r_id row = id ->
                  is_orphan userId row = true) ->
  (forall i row, original !! i = Some row ->
     exists row', workflow_table (db w) !! i = Some row'
                  /\ kept_or_adopted userId workspaceId row row') ->
  let r := adopt_each E F workspaceId ids w in
  fst r = Returned tt
  /\ (forall i row, original !! i = Some row ->
        exists row', workflow_table (db (snd r)) !! i = Some row'
                     /\ kept_or_adopted userId workspaceId row row')
  /\ length (workflow_table (db (snd r))) = length (workflow_table (db w))
  /\ workspace_table (db (snd r)) = workspace_table (db w)
  /\ member_table (db (snd r)) = member_table (db w)
  /\ workspaceMembershipCache (snd r) = workspaceMembershipCache w
  /\ trace (snd r) = trace w.
Proof.
  revert w. induction ids as [|id rest IH]; intros w Hids Hrows; cbv zeta.
  - cbn. repeat split. exact Hrows.
  - rewrite adopt_each_step.
    set (w1 := if update_rejects F id then _ else _).
    assert (Hw1 : (forall i row, original !! i = Some row ->
                     exists row', workflow_table (db w1) !! i = Some row'
                                  /\ kept_or_adopted userId workspaceId row row')
                  /\ length (workflow_table (db w1)) = length (workflow_table (db w))
                  /\ workspace_table (db w1) = workspace_table (db w)
                  /\ member_table (db w1) = member_table (db w)
                  /\ workspaceMembershipCache w1 = workspaceMembershipCache w
                  /\ trace w1 = trace w).
    { unfold w1. destruct (update_rejects F id); simpl_world.
      - repeat split. exact Hrows.
      - split; [|rewrite length_map; repeat split].
        intros i row Hi. destruct (Hrows i row Hi) as (row' & Hrow' & Hkept).
        rewrite list_lookup_fmap, Hrow'. cbn.
        assert (Hid : r_id row' = r_id row).
        { destruct Hkept as [->|(_ & now & ->)]; reflexivity. }
        destruct (String.eqb (r_id row') id) eqn:Heq;
          [|exists row'; split; [reflexivity|exact Hkept]].
        apply String.eqb_eq in Heq. eexists. split; [reflexivity|].
        right. split.
        + apply (Hids id row); [left; reflexivity| |congruence].
          apply list_elem_of_In, list_elem_of_lookup. exists i. exact Hi.
        + eexists. destruct Hkept as [->|(_ & now & ->)]; reflexivity. }
    destruct Hw1 as (Hrows1 & Hlen1 & Hws1 & Hm1 & Hc1 & Ht1).
    destruct (IH w1) as (Hret & Hrows2 & Hlen2 & Hws2 & Hm2 & Hc2 & Ht2).
    + intros id' row Hin. apply Hids. right. exact Hin.
    + exact Hrows1.
    + cbv zeta in *. repeat split; try congruence. exact Hrows2.
Qed.

(** Without a rejected update, the fallback leaves as orphans only rows
    whose id it was not given. *)
Lemma adopt_each_complete (E : Env) (F : MigrationFaults) (userId workspaceId : string)
    (ids : list string) (w : World) :
  (forall id, update_rejects F id = false) ->
  forall row, In row (workflow_table (db (snd (adopt_each E F workspaceId ids w)))) ->
              is_orphan userId row = true ->
              ~ In (r_id row) ids
              /\ In row (workflow_table (db w)).
Proof.
  intros Hnone. revert w. induction ids as [|id rest IH]; intros w row Hin Horphan.
  - split; [intros []|exact Hin].
  - rewrite adopt_each_step, Hnone in Hin.
    destruct (IH _ row Hin Horphan) as (Hrest & Hin1). simpl_world.
    apply in_map_iff in Hin1. destruct Hin1 as (r & Hr & Hin1).
    destruct (String.eqb (r_id r) id) eqn:Heq.
    + subst row. rewrite adopted_not_orphan in Horphan. discriminate Horphan.
    + subst r. split; [|exact Hin1].
      apply String.eqb_neq in Heq. intros [H|H]; [congruence|contradiction].
Qed.

(** X11.  Whatever the database rejects, the migration returns normally
    and, the ids of the table being distinct, touches only workflows of
    the user that have no workspace: every row stays at its place, as it
    was or, for such a workflow, moved to the workspace given with a new
    update date; the other tables and the cache are not touched.  When the
    batch update is rejected and no single update is, no workflow of the
    user is left without a workspace. *)
Theorem migration_touches_orphans_only (E : Env) (F : MigrationFaults)
    (userId workspaceId : string) (w : World) :
  NoDup (map r_id (workflow_table (db w))) ->
  let r := migrateOrphanedWorkflows E F userId workspaceId w in
  fst r = Returned tt
  /\ (forall i row, workflow_table (db w) !! i = Some row ->
        exists row', workflow_table (db (snd r)) !! i = Some row'
                     /\ kept_or_adopted userId workspaceId row row')
  /\ length (workflow_table (db (snd r))) = length (workflow_table (db w))
  /\ workspace_table (db (snd r)) = workspace_table (db w)
  /\ member_table (db (snd r)) = member_table (db w)
  /\ workspaceMembershipCache (snd r) = workspaceMembershipCache w
  /\ trace (snd r) = trace w
  /\ (db_fault (db w) = None -> (forall id, update_rejects F id = false) ->
      List.filter (is_orphan userId) (workflow_table (db (snd r))) = []).
Proof.
  intros Hnd. cbv zeta. rewrite migrate_run.
  assert (Hsame : forall i row, workflow_table (db w) !! i = Some row ->
            exists row', workflow_table (db w) !! i = Some row'
                         /\ kept_or_adopted userId workspaceId row row').
  { intros i row Hi. exists row. split; [exact Hi|left; reflexivity]. }
  destruct (db_fault (db w)) eqn:Hfault.
  { cbn [fst snd]. repeat split; [exact Hsame|]. intros H. discriminate H. }
  destruct (List.filter (is_orphan userId) (workflow_table (db w))) as [|orphan others] eqn:Hf.
  { cbn [fst snd]. repeat split; [exact Hsame|]. intros _ _. exact Hf. }
  destruct (batch_rejects F).
  - destruct (adopt_each_rows E F userId workspaceId (workflow_table (db w))
                (map r_id (orphan :: others)) (with_ticks (S (ticks w)) w))
      as (Hret & Hrows & Hlen & Hws & Hm & Hc & Ht).
    + intros id row Hid Hrow Heq. rewrite <- Hf in Hid.
      apply in_map_iff in Hid. destruct Hid as (o & Ho & Hin).
      apply filter_In in Hin. destruct Hin as [Hin Horphan].
      assert (row = o); [|subst; exact Horphan].
      apply list_elem_of_In, list_elem_of_lookup in Hrow, Hin.
      destruct Hrow as (i & Hi). destruct Hin as (j & Hj).
      assert (i = j); [|congruence].
      apply (NoDup_lookup _ i j id Hnd); rewrite list_lookup_fmap.
      * rewrite Hi. cbn. congruence.
      * rewrite Hj. cbn. congruence.
    + exact Hsame.
    + cbv zeta in *. repeat split; try assumption.
      intros _ Hnone. apply filter_none. intros row Hin.
      destruct (is_orphan userId row) eqn:Horphan; [exfalso|reflexivity].
      destruct (adopt_each_complete E F userId workspaceId _ _ Hnone row Hin Horphan)
        as [Hnot Horig].
      apply Hnot. rewrite <- Hf. apply in_map, filter_In. split; assumption.
  - cbn [fst snd]. simpl_world. split; [reflexivity|]. split; [|split].
    + intros i row Hi. unfold adopt_orphans. rewrite list_lookup_fmap, Hi. cbn.
      destruct (is_orphan userId row) eqn:Horphan;
        eexists; (split; [reflexivity|]); [|left; reflexivity].
      right. split; [exact Horphan|]. eexists. apply apply_adoption.
    + unfold adopt_orphans. apply length_map.
    + repeat split. intros _ _.
      unfold adopt_orphans. generalize (workflow_table (db w)). intros table.
      induction table as [|x rest IH]; [reflexivity|]. cbn [map List.filter].
      destruct (is_orphan userId x) eqn:Hx.
      * rewrite apply_adoption, adopted_not_orphan. exact IH.
      * rewrite Hx. exact IH.
Qed.

(** ** What a parsed payload holds *)

Lemma zod_ap_ok {A B} (f : ZodResult (A -> B)) (x : ZodResult A) (b : B) :
  f <&> x = ZodOk b -> exists g a, f = ZodOk g /\ x = ZodOk a /\ b = g a.
Proof.
  destruct f as [g|e], x as [a|e']; cbn; intros H; try discriminate H.
  injection H as <-. exists g, a. repeat split.
Qed.

Lemma z_string_ok (path : list string) (v : option Json) (s : string) :
  z_string path v = ZodOk s -> v = Some (JStr s).
Proof.
  unfold z_string. destruct v as [[]|]; cbn; intros H; try discriminate H.
  injection H as <-. reflexivity.
Qed.

Lemma WorkflowSchema_ok (D : string -> JsDate) (path : list string) (v : Json)
    (cw : Workflow) :
  WorkflowSchema D path (Some v) = ZodOk cw ->
  exists entry, v = JObj entry
                /\ property entry "id" = Some (JStr (w_id cw))
                /\ property entry "name" = Some (JStr (w_name cw)).
Proof.
  unfold WorkflowSchema, z_object. destruct v as [| | | | |entry]; try discriminate.
  intros H. exists entry. split; [reflexivity|].
  repeat (apply zod_ap_ok in H; destruct H as (? & ? & H & ? & ->)).
  injection H as <-. cbn.
  split; eapply z_string_ok; eassumption.
Qed.

Lemma record_entries_ok (D : string -> JsDate) (path : list string)
    (fields : list (string * Json)) (entries : list (string * Workflow)) :
  record_entries (WorkflowSchema D) path fields = ZodOk entries ->
  map fst entries = List.filter (fun k => negb (String.eqb k "__proto__")) (map fst fields)
  /\ (forall k cw, In (k, cw) entries ->
        exists entry, In (k, JObj entry) fields
                      /\ property entry "id" = Some (JStr (w_id cw))
                      /\ property entry "name" = Some (JStr (w_name cw)))
  /\ (forall k v, In (k, v) fields ->
        exists entry id name,
          v = JObj entry
          /\ property entry "id" = Some (JStr id)
          /\ property entry "name" = Some (JStr name)).
Proof.
  revert entries. induction fields as [|[k v] rest IH]; intros entries; cbn [record_entries].
  - intros [= <-]. split; [reflexivity|]. split; [intros k cw []|intros k v []].
  - intros H.
    apply zod_ap_ok in H. destruct H as (g & tl & H & Htl & ->).
    apply zod_ap_ok in H. destruct H as (g0 & a & H & Ha & ->).
    injection H as <-.
    destruct (IH tl Htl) as (Hkeys & Hall & Hvalid).
    destruct (WorkflowSchema_ok D _ _ _ Ha) as (entry & -> & Hid & Hname).
    split; [|split].
    + cbn [map fst List.filter]. unfold is_proto.
      destruct (String.eqb k "__proto__"); cbn [negb map fst]; [|f_equal]; exact Hkeys.
    + intros k' cw Hin.
      assert (Hcases : (k', cw) = (k, a) \/ In (k', cw) tl).
      { destruct (is_proto k); [right; exact Hin|]. destruct Hin as [<-|Hin]; auto. }
      destruct Hcases as [[= -> ->]|Htail].
      * exists entry. split; [left; reflexivity|split; assumption].
      * destruct (Hall k' cw Htail) as (entry' & Hentry & Hid' & Hname').
        exists entry'. split; [right; exact Hentry|split; assumption].
    + intros k' v' [[= <- <-]|Hin].
      * exists entry, (w_id a), (w_name a). repeat split; assumption.
      * apply (Hvalid k' v' Hin).
Qed.

(** X12.  A body that parses under [SyncPayloadSchema] is an object whose
    [workflows] property is an object, every entry of which is an object
    with a string id and a string name; the parsed payload lists its
    workflows under the keys of that object other than [__proto__], in
    their order, each with the id and the name its entry holds, and its
    workspace id is the string the body holds, if any. *)
Theorem parsed_payload_keeps_entries (D : string -> JsDate) (body : Json)
    (payload : SyncPayload) :
  SyncPayloadSchema_parse D body = ZodOk payload ->
  exists fields workflows,
    body = JObj fields
    /\ property fields "workflows" = Some (JObj workflows)
    /\ map fst (p_workflows payload)
       = List.filter (fun k => negb (String.eqb k "__proto__")) (map fst workflows)
    /\ (forall k cw, In (k, cw) (p_workflows payload) ->
          exists entry, In (k, JObj entry) workflows
                        /\ property entry "id" = Some (JStr (w_id cw))
                        /\ property entry "name" = Some (JStr (w_name cw)))
    /\ (forall k v, In (k, v) workflows ->
          exists entry id name,
            v = JObj entry
            /\ property entry "id" = Some (JStr id)
            /\ property entry "name" = Some (JStr name))
    /\ option_map JStr (p_workspaceId payload) = property fields "workspaceId".
Proof.
  unfold SyncPayloadSchema_parse, SyncPayloadSchema, z_object.
  destruct body as [| | | | |fields]; try discriminate.
  intros H.
  apply zod_ap_ok in H. destruct H as (g & ws & H & Hws & ->).
  apply zod_ap_ok in H. destruct H as (g0 & entries & H & Hentries & ->).
  injection H as <-. cbn [p_workflows p_workspaceId].
  unfold z_record in Hentries.
  destruct (property fields "workflows") as [[| | | | |workflows]|] eqn:Hw;
    try discriminate Hentries.
  destruct (record_entries_ok D _ _ _ Hentries) as (Hkeys & Hall & Hvalid).
  exists fields, workflows. repeat split; try assumption.
  unfold z_optional, z_string in Hws.
  destruct (property fields "workspaceId") as [v|]; [|injection Hws as <-; reflexivity].
  destruct v; cbn in Hws; try discriminate Hws. injection Hws as <-. reflexivity.
Qed.

(** ** Leaving a deleted workspace *)

(** X13.  [handleWorkspaceDeletion] with a non-empty id other than the
    current workspace switches to it whether or not a transition is in
    progress: it raises the transition flag, resets the workflow and
    subblock stores, clears the workflows of the registry, points it at no
    workflow and at the new workspace with the loading flag set, records
    the workspace in browser storage, and calls the fetch of the workflows
    last; when no transition is in progress this is what
    [setActiveWorkspace] does.  With an empty id, or the id of the current
    workspace, it changes nothing. *)
Theorem workspace_deletion_switches (B : Registry.Browser) (id : string) (c : Registry.Client) :
  (id <> "" ->
   Registry.activeWorkspaceId (Registry.registry c) <> Some id ->
   let c' := Registry.handleWorkspaceDeletion B id c in
   Registry.reset_for id c'
   /\ Registry.isWorkspaceTransitioning c' = true
   /\ Registry.isLoading (Registry.registry c') = true
   /\ (Registry.has_window B = true ->
       Registry.localStorage c' !! Registry.ACTIVE_WORKSPACE_KEY = Some id)
   /\ (exists c0, c' = Registry.call Registry.FetchWorkflowsFromDB c0
                  /\ ~ In Registry.FetchWorkflowsFromDB
                         (skipn (length (Registry.effects c)) (Registry.effects c0)))
   /\ (Registry.isWorkspaceTransitioning c = false ->
       c' = Registry.setActiveWorkspace B id c))
  /\ (id = "" \/ Registry.activeWorkspaceId (Registry.registry c) = Some id ->
      Registry.handleWorkspaceDeletion B id c = c).
Proof.
  unfold Registry.handleWorkspaceDeletion. split.
  - intros Hid Hother. cbv zeta.
    assert (Htruthy : string_truthy id = true).
    { unfold string_truthy. apply negb_true_iff, String.eqb_neq, Hid. }
    rewrite Htruthy. cbn [negb orb].
    destruct (strict_eq String.eqb (JsValue id)
                (of_nullable (Registry.activeWorkspaceId (Registry.registry c)))) eqn:Hsame.
    { apply same_workspace in Hsame. contradiction. }
    split; [|split; [|split; [|split; [|split]]]].
    + unfold Registry.reset_for; simpl_client;
        destruct (Registry.has_window B); simpl_client; repeat split; reflexivity.
    + simpl_client. destruct (Registry.has_window B); reflexivity.
    + simpl_client. destruct (Registry.has_window B); reflexivity.
    + intros ->. simpl_client. apply lookup_insert_eq.
    + eexists. split; [reflexivity|].
      simpl_client. destruct (Registry.has_window B); simpl_client;
        rewrite <- !app_assoc, drop_app_length; cbn; intuition discriminate.
    + intros Hidle. unfold Registry.setActiveWorkspace. rewrite Hsame, Hidle. reflexivity.
  - intros [->|Hsame].
    + reflexivity.
    + apply same_workspace in Hsame. rewrite Hsame, orb_true_r. reflexivity.
Qed.

(** ** Reading a deployment status back *)

Lemma resolve_given (id : string) (c : Registry.Client) :
  id <> "" -> Registry.resolve (Some id) c = Some id.
Proof.
  intros Hid. unfold Registry.resolve. cbn. unfold string_truthy.
  apply String.eqb_neq in Hid. rewrite Hid. reflexivity.
Qed.

Lemma resolve_same_registry (workflowId : option string) (c c' : Registry.Client) :
  Registry.activeWorkflowId (Registry.registry c')
  = Registry.activeWorkflowId (Registry.registry c) ->
  Registry.resolve workflowId c' = Registry.resolve workflowId c.
Proof. intros H. unfold Registry.resolve. rewrite H. reflexivity. Qed.

(** The registry and browser storage after [setDeploymentStatus]. *)
Lemma setDeploymentStatus_registry (B : Registry.Browser) (P : Registry.Persistence)
    (workflowId : option string) (deployed : bool) (given : option JsDate)
    (key : option string) (c : Registry.Client) (id : string) :
  Registry.resolve workflowId c = Some id ->
  let c' := Registry.setDeploymentStatus B P workflowId deployed given key c in
  Registry.activeWorkflowId (Registry.registry c') = Registry.activeWorkflowId (Registry.registry c)
  /\ Registry.deploymentStatuses (Registry.registry c') =
       <[id := {| Registry.isDeployed := deployed;
                  Registry.deployedAt :=
                    match given with
                    | Some d => Some d
                    | None => if deployed
                              then Some (Date (Registry.now B (Registry.readings c)))
                              else None
                    end;
                  Registry.apiKey := key;
                  Registry.needsRedeployment :=
                    Some (Registry.kept_needsRedeployment deployed
                            (Some (Registry.deploymentStatuses (Registry.registry c))) id) |}]>
         (Registry.deploymentStatuses (Registry.registry c))
  /\ (forall other, other <> "workflow-" +:+ id ->
        Registry.localStorage c' !! other = Registry.localStorage c !! other)
  /\ (Registry.loadWorkflowState P id c = None ->
      Registry.localStorage c' = Registry.localStorage c).
Proof.
  intros Hid. cbv zeta. unfold Registry.setDeploymentStatus. rewrite Hid. clear Hid.
  destruct c as [[wfs activeId wsId loading err statuses]
                   [bl ed lo pa dep depAt needs wsStatuses sched hist saved]
                   sub busy storage effs n].
  simpl_client.
  destruct (strict_eq String.eqb (JsValue id) (of_nullable activeId));
    destruct given as [d|], deployed; simpl_client;
    (destruct (storage !! ("workflow-" +:+ id)) as [text|];
       [destruct (Registry.parse_state P text) as [stored|]|]); simpl_client;
    (split; [reflexivity|split; [reflexivity|split]]);
    try (intros other Hother; try reflexivity; apply lookup_insert_ne; congruence);
    intros Hnone; try reflexivity; discriminate Hnone.
Qed.

(** X14.  After [setDeploymentStatus] about a workflow,
    [getWorkflowDeploymentStatus] about the same workflow returns the
    status just set: the deployment flag and the API key given, the date
    given or, when none is given, the date read for a deployment, and a
    needs-redeployment flag that is false after a deployment and otherwise
    the one the registry held for the workflow (false when it held
    none). *)
Theorem deployment_status_read_back (B : Registry.Browser) (P : Registry.Persistence)
    (workflowId : option string) (deployed : bool) (given : option JsDate)
    (key : option string) (c : Registry.Client) (id : string) :
  Registry.resolve workflowId c = Some id ->
  let c' := Registry.setDeploymentStatus B P workflowId deployed given key c in
  exists entry,
    Registry.getWorkflowDeploymentStatus P workflowId c' = Some entry
    /\ Registry.isDeployed entry = deployed
    /\ Registry.apiKey entry = key
    /\ Registry.deployedAt entry =
         match given with
         | Some d => Some d
         | None => if deployed then Some (Date (Registry.now B (Registry.readings c))) else None
         end
    /\ Registry.needsRedeployment entry =
         Some (if deployed then false
               else match Registry.deploymentStatuses (Registry.registry c) !! id with
                    | Some previous => default false (Registry.needsRedeployment previous)
                    | None => false
                    end).
Proof.
  intros Hid. cbv zeta.
  destruct (setDeploymentStatus_registry B P workflowId deployed given key c id Hid)
    as (Hactive & Hstatuses & _). cbv zeta in *.
  unfold Registry.getWorkflowDeploymentStatus.
  rewrite (resolve_same_registry workflowId c _ Hactive), Hid, Hstatuses, lookup_insert_eq.
  eexists. split; [reflexivity|]. cbn. repeat split.
Qed.

(** X15.  [setDeploymentStatus] about one workflow leaves the status
    [getWorkflowDeploymentStatus] reports for every other workflow as it
    was. *)
Theorem deployment_status_of_others_kept (B : Registry.Browser) (P : Registry.Persistence)
    (workflowId : option string) (deployed : bool) (given : option JsDate)
    (key : option string) (c : Registry.Client) (other : string) :
  other <> "" ->
  Registry.resolve workflowId c <> Some other ->
  Registry.getWorkflowDeploymentStatus P (Some other)
    (Registry.setDeploymentStatus B P workflowId deployed given key c)
  = Registry.getWorkflowDeploymentStatus P (Some other) c.
Proof.
  intros Hother Hne.
  destruct (Registry.resolve workflowId c) as [id|] eqn:Hid.
  - destruct (setDeploymentStatus_registry B P workflowId deployed given key c id Hid)
      as (_ & Hstatuses & Hstorage & _). cbv zeta in *.
    unfold Registry.getWorkflowDeploymentStatus, Registry.loadWorkflowState.
    rewrite !resolve_given by exact Hother.
    rewrite Hstatuses, lookup_insert_ne by congruence.
    rewrite Hstorage; [reflexivity|].
    intros Hkey. apply workflow_key_inj in Hkey. congruence.
  - unfold Registry.setDeploymentStatus. rewrite Hid. reflexivity.
Qed.

(** ** The needs-redeployment flag *)

Ltac simpl_flag :=
  unfold Registry.setWorkflowNeedsRedeployment, Registry.getWorkflowDeploymentStatus,
    Registry.flagged in *.

(** X16.  [setWorkflowNeedsRedeployment] about a workflow sets the flag
    in the entry of the registry for that workflow and keeps the rest of
    the entry (a new entry is not deployed and has no date and no key), so
    that [getWorkflowDeploymentStatus] then reports the flag; it calls the
    setter of the workflow store only for the active workflow; it rewrites
    the persisted state of the workflow, when browser storage holds one,
    with the flag in its entry and nothing else changed, and leaves every
    other key of browser storage as it was; it leaves the entries of other
    workflows alone and calls no collaborator: no sync is started. *)
Theorem needs_redeployment_flagged (P : Registry.Persistence)
    (setNeedsRedeploymentFlag : bool -> Registry.WorkflowStore -> Registry.WorkflowStore)
    (workflowId : option string) (flag : bool) (c : Registry.Client) (id : string) :
  Registry.resolve workflowId c = Some id ->
  let c' := Registry.setWorkflowNeedsRedeployment P setNeedsRedeploymentFlag workflowId flag c in
  (exists entry,
     Registry.getWorkflowDeploymentStatus P workflowId c' = Some entry
     /\ Registry.needsRedeployment entry = Some flag
     /\ match Registry.deploymentStatuses (Registry.registry c) !! id with
        | Some previous =>
            Registry.isDeployed entry = Registry.isDeployed previous
            /\ Registry.deployedAt entry = Registry.deployedAt previous
            /\ Registry.apiKey entry = Registry.apiKey previous
        | None =>
            Registry.isDeployed entry = false
            /\ Registry.deployedAt entry = None
            /\ Registry.apiKey entry = None
        end)
  /\ (forall other, other <> id ->
        Registry.deploymentStatuses (Registry.registry c') !! other
        = Registry.deploymentStatuses (Registry.registry c) !! other)
  /\ Registry.workflowStore c' =
       (if bool_decide (Registry.activeWorkflowId (Registry.registry c) = Some id)
        then setNeedsRedeploymentFlag flag (Registry.workflowStore c)
        else Registry.workflowStore c)
  /\ (forall stored,
        Registry.loadWorkflowState P id c = Some stored ->
        exists rewritten entry,
          Registry.localStorage c' !! ("workflow-" +:+ id)
          = Some (Registry.stringify_state P rewritten)
          /\ Registry.ps_deploymentStatuses rewritten
             = Some (<[id := entry]> (default ∅ (Registry.ps_deploymentStatuses stored)))
          /\ Registry.needsRedeployment entry = Some flag
          /\ Registry.ps_graph rewritten = Registry.ps_graph stored
          /\ Registry.ps_isDeployed rewritten = Registry.ps_isDeployed stored
          /\ Registry.ps_deployedAt rewritten = Registry.ps_deployedAt stored
          /\ Registry.ps_needsRedeployment rewritten = Registry.ps_needsRedeployment stored)
  /\ (forall other, other <> "workflow-" +:+ id ->
        Registry.localStorage c' !! other = Registry.localStorage c !! other)
  /\ (Registry.loadWorkflowState P id c = None ->
      Registry.localStorage c' = Registry.localStorage c)
  /\ Registry.effects c' = Registry.effects c.
Proof.
  intros Hid. cbv zeta.
  assert (Hresolve : forall c2,
            Registry.activeWorkflowId (Registry.registry c2)
            = Registry.activeWorkflowId (Registry.registry c) ->
            Registry.resolve workflowId c2 = Some id).
  { intros c2 H. rewrite (resolve_same_registry workflowId c c2 H). exact Hid. }
  simpl_flag. rewrite Hid.
  destruct c as [[wfs activeId wsId loading err statuses]
                   [bl ed lo pa dep depAt needs wsStatuses sched hist saved]
                   sub busy storage effs n].
  simpl_client.
  destruct (strict_eq String.eqb (JsValue id) (of_nullable activeId)) eqn:Hactive;
    [apply active_workflow in Hactive; rewrite bool_decide_eq_true_2 by exact Hactive
    |assert (Hne : activeId <> Some id)
       by (intros Heq; apply active_workflow in Heq; congruence);
     rewrite bool_decide_eq_false_2 by exact Hne];
    (destruct (storage !! ("workflow-" +:+ id)) as [text|] eqn:Htext;
       [destruct (Registry.parse_state P text) as [stored|] eqn:Hload|]); simpl_client;
    rewrite Hresolve by reflexivity; simpl_client; rewrite lookup_insert_eq.
  all: split; [eexists; split; [reflexivity|]; split; [destruct (statuses !! id); reflexivity|];
               destruct (statuses !! id); repeat split|].
  all: split; [intros other Hother; apply lookup_insert_ne; congruence|].
  all: split; [reflexivity|].
  all: split; [intros stored' Hs; try discriminate Hs|].
  all: try (injection Hs as Hs; subst stored'; destruct stored as [graph d a sts nr];
            simpl_client; eexists; eexists; split; [apply lookup_insert_eq|];
            split; [reflexivity|];
            split; [destruct (default ∅ sts !! id); reflexivity|];
            repeat split).
  all: split; [intros other Hother; try reflexivity; apply lookup_insert_ne; congruence|].
  all: split; [intros Hnone; try discriminate Hnone; reflexivity|reflexivity].
Qed.

(** X17.  Once a workflow is flagged as needing redeployment, recording
    a deployment for it clears the flag, and recording that it is not
    deployed keeps it. *)
Theorem deployment_clears_the_flag (P : Registry.Persistence)
    (setNeedsRedeploymentFlag : bool -> Registry.WorkflowStore -> Registry.WorkflowStore)
    (B : Registry.Browser) (workflowId : option string) (given : option JsDate)
    (key : option string) (c : Registry.Client) (id : string) :
  Registry.resolve workflowId c = Some id ->
  let flagged :=
    Registry.setWorkflowNeedsRedeployment P setNeedsRedeploymentFlag workflowId true c in
  Registry.getWorkflowDeploymentStatus P workflowId
      (Registry.setDeploymentStatus B P workflowId true given key flagged)
    ≫= Registry.needsRedeployment = Some false
  /\ Registry.getWorkflowDeploymentStatus P workflowId
       (Registry.setDeploymentStatus B P workflowId false given key flagged)
     ≫= Registry.needsRedeployment = Some true.
Proof.
  intros Hid. cbv zeta.
  set (flagged :=
         Registry.setWorkflowNeedsRedeployment P setNeedsRedeploymentFlag workflowId true c).
  assert (Hflagged : Registry.activeWorkflowId (Registry.registry flagged)
                     = Registry.activeWorkflowId (Registry.registry c)
                     /\ exists entry,
                          Registry.deploymentStatuses (Registry.registry flagged) !! id = Some entry
                          /\ Registry.needsRedeployment entry = Some true).
  { unfold flagged. simpl_flag. rewrite Hid.
    destruct c as [[wfs activeId wsId loading err statuses]
                     [bl ed lo pa dep depAt needs wsStatuses sched hist saved]
                     sub busy storage effs n].
    simpl_client.
    destruct (strict_eq String.eqb (JsValue id) (of_nullable activeId));
      (destruct (storage !! ("workflow-" +:+ id)) as [text|];
         [destruct (Registry.parse_state P text)|]); simpl_client; (split; [reflexivity|]);
      rewrite lookup_insert_eq; eexists; (split; [reflexivity|]);
      destruct (statuses !! id); reflexivity. }
  destruct Hflagged as (Hactive & entry & Hentry & Hneeds).
  assert (Hid' : Registry.resolve workflowId flagged = Some id).
  { rewrite (resolve_same_registry workflowId c flagged Hactive). exact Hid. }
  split.
  - destruct (setDeploymentStatus_registry B P workflowId true given key flagged id Hid')
      as (Ha & Hs & _). cbv zeta in *.
    unfold Registry.getWorkflowDeploymentStatus.
    rewrite (resolve_same_registry workflowId flagged _ Ha), Hid', Hs, lookup_insert_eq.
    reflexivity.
  - destruct (setDeploymentStatus_registry B P workflowId false given key flagged id Hid')
      as (Ha & Hs & _). cbv zeta in *.
    unfold Registry.getWorkflowDeploymentStatus.
    rewrite (resolve_same_registry workflowId flagged _ Ha), Hid', Hs, lookup_insert_eq.
    cbn. rewrite Hentry, Hneeds. reflexivity.
Qed.

(** ** The end of a workspace transition *)

Ltac simpl_settle :=
  unfold Registry.workspace_loaded, Registry.workspace_load_failed,
    Registry.transition_timeout, Registry.cleanupLocalStorageForWorkspace in *.

(** A switch asked of a client that is not in transition takes place. *)
Lemma idle_switch_resets (B : Registry.Browser) (next : string) (c : Registry.Client) :
  Registry.isWorkspaceTransitioning c = false ->
  Registry.activeWorkspaceId (Registry.registry c) <> Some next ->
  Registry.reset_for next (Registry.setActiveWorkspace B next c).
Proof.
  intros Hidle Hother. unfold Registry.setActiveWorkspace.
  destruct (strict_eq String.eqb (JsValue next)
              (of_nullable (Registry.activeWorkspaceId (Registry.registry c)))) eqn:Hsame.
  { apply same_workspace in Hsame. contradiction. }
  rewrite Hidle. unfold Registry.reset_for; simpl_client;
    destruct (Registry.has_window B); simpl_client; repeat split; reflexivity.
Qed.

(** X18.  However the fetch of a workspace switch ends, the transition
    ends with it: when the fetch succeeds, when it fails, and when the
    safety timer fires, the transition flag is lowered, so that the next
    request to switch to another workspace takes place.  A success clears
    the loading flag and changes at most browser storage besides; a
    failure clears the loading flag and records the error "Failed to load
    workspace data", leaving the registry on the workspace it was switched
    to; the timer changes nothing but the flag. *)
Theorem workspace_transition_ends (B : Registry.Browser) (J : Registry.Runtime)
    (id : string) (c : Registry.Client) :
  let loaded := Registry.workspace_loaded B J id c in
  let failed := Registry.workspace_load_failed c in
  let timed_out := Registry.transition_timeout c in
  (Registry.isWorkspaceTransitioning loaded = false
   /\ Registry.isLoading (Registry.registry loaded) = false
   /\ Registry.error (Registry.registry loaded) = Registry.error (Registry.registry c)
   /\ Registry.workflows (Registry.registry loaded) = Registry.workflows (Registry.registry c)
   /\ Registry.activeWorkspaceId (Registry.registry loaded)
      = Registry.activeWorkspaceId (Registry.registry c)
   /\ Registry.workflowStore loaded = Registry.workflowStore c
   /\ Registry.subBlockStore loaded = Registry.subBlockStore c
   /\ Registry.effects loaded = Registry.effects c)
  /\ (Registry.isWorkspaceTransitioning failed = false
      /\ Registry.isLoading (Registry.registry failed) = false
      /\ Registry.error (Registry.registry failed) = Some "Failed to load workspace data"
      /\ Registry.workflows (Registry.registry failed) = Registry.workflows (Registry.registry c)
      /\ Registry.activeWorkspaceId (Registry.registry failed)
         = Registry.activeWorkspaceId (Registry.registry c)
      /\ Registry.workflowStore failed = Registry.workflowStore c
      /\ Registry.localStorage failed = Registry.localStorage c
      /\ Registry.effects failed = Registry.effects c)
  /\ (Registry.isWorkspaceTransitioning timed_out = false
      /\ Registry.registry timed_out = Registry.registry c
      /\ Registry.workflowStore timed_out = Registry.workflowStore c
      /\ Registry.localStorage timed_out = Registry.localStorage c
      /\ Registry.effects timed_out = Registry.effects c)
  /\ (forall next,
        Registry.activeWorkspaceId (Registry.registry c) <> Some next ->
        Registry.reset_for next (Registry.setActiveWorkspace B next loaded)
        /\ Registry.reset_for next (Registry.setActiveWorkspace B next failed)
        /\ Registry.reset_for next (Registry.setActiveWorkspace B next timed_out)).
Proof.
  cbv zeta.
  assert (Hloaded : Registry.isWorkspaceTransitioning (Registry.workspace_loaded B J id c) = false
                    /\ Registry.activeWorkspaceId
                         (Registry.registry (Registry.workspace_loaded B J id c))
                       = Registry.activeWorkspaceId (Registry.registry c)).
  { simpl_settle. destruct (negb (Registry.has_window B)); split; reflexivity. }
  assert (Hfailed : Registry.isWorkspaceTransitioning (Registry.workspace_load_failed c) = false
                    /\ Registry.activeWorkspaceId
                         (Registry.registry (Registry.workspace_load_failed c))
                       = Registry.activeWorkspaceId (Registry.registry c)).
  { split; reflexivity. }
  assert (Htimed : Registry.isWorkspaceTransitioning (Registry.transition_timeout c) = false
                   /\ Registry.activeWorkspaceId
                        (Registry.registry (Registry.transition_timeout c))
                      = Registry.activeWorkspaceId (Registry.registry c)).
  { simpl_settle. destruct (Registry.isWorkspaceTransitioning c) eqn:Hflag; split;
      try reflexivity. exact Hflag. }
  split; [|split; [|split; [|]]].
  - simpl_settle. destruct (negb (Registry.has_window B)); repeat split.
  - repeat split.
  - simpl_settle. destruct (Registry.isWorkspaceTransitioning c) eqn:Hflag; repeat split.
    exact Hflag.
  - intros next Hother. split; [|split].
    + apply idle_switch_resets; [apply Hloaded|]. destruct Hloaded as [_ ->]. exact Hother.
    + apply idle_switch_resets; [apply Hfailed|]. destruct Hfailed as [_ ->]. exact Hother.
    + apply idle_switch_resets; [apply Htimed|]. destruct Htimed as [_ ->]. exact Hother.
Qed.

(** ** The cleanup of browser storage *)

Lemma after_prefix_Some (prefix key rest : string) :
  Registry.after_prefix prefix key = Some rest -> key = prefix +:+ rest.
Proof.
  revert key. induction prefix as [|a p IH]; intros key;
    cbn [Registry.after_prefix String.append].
  - intros [= ->]. reflexivity.
  - destruct key as [|b k]; [discriminate|].
    destruct (Ascii.eqb a b) eqn:Heq; [|discriminate].
    apply Ascii.eqb_eq in Heq. subst b. intros H. rewrite (IH k H). reflexivity.
Qed.

Lemma after_prefix_app (prefix rest : string) :
  Registry.after_prefix prefix (prefix +:+ rest) = Some rest.
Proof.
  induction prefix as [|a p IH]; [destruct rest; reflexivity|].
  change (String a p +:+ rest) with (String a (p +:+ rest)). cbn [Registry.after_prefix].
  rewrite Ascii.eqb_refl. exact IH.
Qed.

(** The workflow a key of browser storage belongs to. *)
Lemma workflow_of_key (key : string) :
  match Registry.after_prefix "workflow-" key with
  | Some rest => key = "workflow-" +:+ rest
  | None =>
      match Registry.after_prefix "subblock-values-" key with
      | Some rest => key = "subblock-values-" +:+ rest
      | None => Registry.is_workflow_key key = false
      end
  end.
Proof.
  unfold Registry.is_workflow_key.
  destruct (Registry.after_prefix "workflow-" key) as [rest|] eqn:H1;
    [apply after_prefix_Some, H1|].
  destruct (Registry.after_prefix "subblock-values-" key) as [rest|] eqn:H2;
    [apply after_prefix_Some, H2|reflexivity].
Qed.

Lemma cleanup_unlisted_stale (J : Registry.Runtime) (workspaceId key workflowId : string)
    (storage : gmap string string) :
  Registry.cleanup_unlisted J workspaceId key workflowId storage =
  if Registry.stale J workspaceId (storage !! ("workflow-" +:+ workflowId))
  then delete key storage else storage.
Proof.
  unfold Registry.cleanup_unlisted, Registry.stale.
  destruct (or_null string_truthy (of_nullable (storage !! ("workflow-" +:+ workflowId))))
    as [text|]; [|reflexivity].
  destruct (Registry.JSON_parse J text) as [parsed|]; [|reflexivity].
  destruct (Registry.member_of parsed "workspaceId") as [stored|]; reflexivity.
Qed.

Lemma cleanup_listed_cases (J : Registry.Runtime) (workspaceId workflowId : string)
    (storage : gmap string string) :
  Registry.cleanup_listed J workspaceId workflowId storage = storage
  \/ exists text text',
       storage !! ("workflow-" +:+ workflowId) = Some text
       /\ Registry.cleanup_listed J workspaceId workflowId storage
          = <["workflow-" +:+ workflowId := text']> storage.
Proof.
  unfold Registry.cleanup_listed.
  destruct (storage !! ("workflow-" +:+ workflowId)) as [text|] eqn:Hentry; [|left; reflexivity].
  cbn [of_nullable or_null]. destruct (string_truthy text); [|left; reflexivity].
  destruct (Registry.JSON_parse J text) as [[| | | | |fields]|]; try (left; reflexivity).
  destruct (property fields "workspaceId") as [stored|]; [|left; reflexivity].
  destruct (json_truthy stored && negb (Registry.json_strict_eq stored (JStr workspaceId)));
    [|left; reflexivity].
  destruct (or_null string_truthy (of_nullable (storage !! "workspaces"))) as [data|];
    [|left; reflexivity].
  destruct (Registry.JSON_parse J data) as [[| | | |workspaces|]|]; try (left; reflexivity).
  destruct (Registry.some_has_id workspaces stored) as [[|]|]; try (left; reflexivity).
  right. eexists. eexists. split; reflexivity.
Qed.

(** What one turn of the loop does: nothing, or it removes the key of a
    workflow the registry does not list whose data is stale, or it
    rewrites the [workflow-] entry of a workflow the registry lists. *)
Lemma cleanup_key_cases (J : Registry.Runtime) (listed : gmap string Json)
    (workspaceId key : string) (storage : gmap string string) :
  let storage' := Registry.cleanup_key J listed workspaceId key storage in
  storage' = storage
  \/ (exists id,
        (key = "workflow-" +:+ id \/ key = "subblock-values-" +:+ id)
        /\ listed !! id = None
        /\ Registry.stale J workspaceId (storage !! ("workflow-" +:+ id)) = true
        /\ storage' = delete key storage)
  \/ (exists id text text',
        is_Some (listed !! id)
        /\ storage !! ("workflow-" +:+ id) = Some text
        /\ storage' = <["workflow-" +:+ id := text']> storage).
Proof.
  cbv zeta. unfold Registry.cleanup_key.
  pose proof (workflow_of_key key) as Hkey.
  set (workflowId := match Registry.after_prefix "workflow-" key with
                     | Some rest => Some rest
                     | None => Registry.after_prefix "subblock-values-" key
                     end).
  assert (Hid : forall id, workflowId = Some id ->
                           key = "workflow-" +:+ id \/ key = "subblock-values-" +:+ id).
  { unfold workflowId. intros id.
    destruct (Registry.after_prefix "workflow-" key) as [rest|].
    - intros [= <-]. left. exact Hkey.
    - destruct (Registry.after_prefix "subblock-values-" key) as [rest|]; [|discriminate].
      intros [= <-]. right. exact Hkey. }
  destruct workflowId as [id|]; [|left; reflexivity].
  cbn [of_nullable or_null]. destruct (string_truthy id); [|left; reflexivity].
  destruct (listed !! id) as [metadata|] eqn:Hlisted.
  - destruct (cleanup_listed_cases J workspaceId id storage) as [->|(text & text' & Hentry & ->)];
      [left; reflexivity|].
    right. right. exists id, text, text'. rewrite Hlisted. split; [eauto|]. split; [exact Hentry|reflexivity].
  - rewrite cleanup_unlisted_stale.
    destruct (Registry.stale J workspaceId (storage !! ("workflow-" +:+ id))) eqn:Hstale;
      [|left; reflexivity].
    right. left. exists id. split; [apply Hid; reflexivity|]. repeat split; assumption.
Qed.

Lemma workflow_key_prefixed (id : string) :
  Registry.is_workflow_key ("workflow-" +:+ id) = true
  /\ Registry.is_workflow_key ("subblock-values-" +:+ id) = true.
Proof.
  unfold Registry.is_workflow_key. rewrite !after_prefix_app. split; [reflexivity|].
  destruct (Registry.after_prefix "workflow-" ("subblock-values-" +:+ id)); reflexivity.
Qed.

Lemma subblock_key_inj (a b : string) :
  "subblock-values-" +:+ a = "subblock-values-" +:+ b -> a = b.
Proof. apply String.app_inj. Qed.

Lemma workflow_key_not_subblock (a b : string) :
  "workflow-" +:+ a <> "subblock-values-" +:+ b.
Proof. cbv [String.append]. discriminate. Qed.

(** The loop of lines 43-104 over any list of keys. *)
Lemma cleanup_loop_safe (J : Registry.Runtime) (listed : gmap string Json)
    (workspaceId : string) (keys : list string) (storage : gmap string string) :
  let storage' :=
    fold_left (fun m key => Registry.cleanup_key J listed workspaceId key m) keys storage in
  (forall key, Registry.is_workflow_key key = false -> storage' !! key = storage !! key)
  /\ (forall key, storage !! key = None -> storage' !! key = None)
  /\ (forall id, is_Some (listed !! id) ->
        storage' !! ("subblock-values-" +:+ id) = storage !! ("subblock-values-" +:+ id)
        /\ (is_Some (storage !! ("workflow-" +:+ id)) ->
            is_Some (storage' !! ("workflow-" +:+ id))))
  /\ (forall id, listed !! id = None ->
        Registry.stale J workspaceId (storage !! ("workflow-" +:+ id)) = false ->
        storage' !! ("workflow-" +:+ id) = storage !! ("workflow-" +:+ id)
        /\ storage' !! ("subblock-values-" +:+ id) = storage !! ("subblock-values-" +:+ id)).
Proof.
  revert storage. induction keys as [|key rest IH]; intros storage; cbv zeta.
  { cbn. repeat split; auto. }
  cbn [fold_left].
  destruct (cleanup_key_cases J listed workspaceId key storage)
    as [Hsame|[(id & Hkey & Hun & Hstale & Hdel)|(id & text & text' & Hl & Hentry & Hset)]];
    cbv zeta in *.
  - rewrite Hsame. apply IH.
  - rewrite Hdel. destruct (IH (delete key storage)) as (Hframe & Hnone & Hlisted & Hfresh).
    assert (Hwk : Registry.is_workflow_key key = true).
    { destruct Hkey as [->| ->]; apply workflow_key_prefixed. }
    split; [|split; [|split]].
    + intros k Hk. rewrite (Hframe k Hk). apply lookup_delete_ne. congruence.
    + intros k Hk. apply Hnone.
      destruct (decide (key = k)) as [->|Hne];
        [apply lookup_delete_eq|rewrite lookup_delete_ne by exact Hne; exact Hk].
    + intros id' Hid'. destruct (Hlisted id' Hid') as [Hsub Hwf].
      assert (Hne : id <> id') by (intros ->; rewrite Hun in Hid'; destruct Hid'; discriminate).
      split.
      * rewrite Hsub. apply lookup_delete_ne.
        destruct Hkey as [->| ->]; [apply workflow_key_not_subblock|].
        intros H. apply subblock_key_inj in H. contradiction.
      * intros Hsome. apply Hwf. rewrite lookup_delete_ne; [exact Hsome|].
        destruct Hkey as [->| ->].
        -- intros H. apply workflow_key_inj in H. contradiction.
        -- intros H. symmetry in H. revert H. apply workflow_key_not_subblock.
    + intros id' Hun' Hfresh'.
      assert (Hne : id <> id') by (intros ->; rewrite Hstale in Hfresh'; discriminate).
      assert (Hwf : delete key storage !! ("workflow-" +:+ id') = storage !! ("workflow-" +:+ id')).
      { apply lookup_delete_ne. destruct Hkey as [->| ->].
        - intros H. apply workflow_key_inj in H. contradiction.
        - intros H. symmetry in H. revert H. apply workflow_key_not_subblock. }
      assert (Hsb : delete key storage !! ("subblock-values-" +:+ id')
                    = storage !! ("subblock-values-" +:+ id')).
      { apply lookup_delete_ne. destruct Hkey as [->| ->]; [apply workflow_key_not_subblock|].
        intros H. apply subblock_key_inj in H. contradiction. }
      destruct (Hfresh id' Hun') as [H1 H2]; [rewrite Hwf; exact Hfresh'|].
      rewrite H1, H2. split; assumption.
  - rewrite Hset.
    destruct (IH (<["workflow-" +:+ id := text']> storage)) as (Hframe & Hnone & Hlisted & Hfresh).
    split; [|split; [|split]].
    + intros k Hk. rewrite (Hframe k Hk). apply lookup_insert_ne.
      intros <-. rewrite (proj1 (workflow_key_prefixed id)) in Hk. discriminate Hk.
    + intros k Hk. apply Hnone. rewrite lookup_insert_ne; [exact Hk|].
      intros <-. rewrite Hentry in Hk. discriminate Hk.
    + intros id' Hid'. destruct (Hlisted id' Hid') as [Hsub Hwf]. split.
      * rewrite Hsub. apply lookup_insert_ne, workflow_key_not_subblock.
      * intros Hsome. apply Hwf.
        destruct (decide (id = id')) as [->|Hne]; [rewrite lookup_insert_eq; eauto|].
        rewrite lookup_insert_ne; [exact Hsome|].
        intros H. apply workflow_key_inj in H. contradiction.
    + intros id' Hun' Hfresh'.
      assert (Hne : id <> id') by (intros ->; rewrite Hun' in Hl; destruct Hl; discriminate).
      assert (Hwf : <["workflow-" +:+ id := text']> storage !! ("workflow-" +:+ id')
                    = storage !! ("workflow-" +:+ id')).
      { apply lookup_insert_ne. intros H. apply workflow_key_inj in H. contradiction. }
      assert (Hsb : <["workflow-" +:+ id := text']> storage !! ("subblock-values-" +:+ id')
                    = storage !! ("subblock-values-" +:+ id')).
      { apply lookup_insert_ne, workflow_key_not_subblock. }
      destruct (Hfresh id' Hun') as [H1 H2]; [rewrite Hwf; exact Hfresh'|].
      rewrite H1, H2. split; assumption.
Qed.

Lemma cleanup_key_unlisted (J : Registry.Runtime) (listed : gmap string Json)
    (workspaceId key id : string) (storage : gmap string string) :
  id <> "" -> listed !! id = None ->
  key = "workflow-" +:+ id \/ key = "subblock-values-" +:+ id ->
  Registry.cleanup_key J listed workspaceId key storage =
  if Registry.stale J workspaceId (storage !! ("workflow-" +:+ id))
  then delete key storage else storage.
Proof.
  intros Hid Hun Hkey. unfold Registry.cleanup_key.
  assert (Hderived : match Registry.after_prefix "workflow-" key with
                     | Some rest => Some rest
                     | None => Registry.after_prefix "subblock-values-" key
                     end = Some id).
  { destruct Hkey as [->| ->].
    - rewrite after_prefix_app. reflexivity.
    - replace (Registry.after_prefix "workflow-" ("subblock-values-" +:+ id)) with (@None string)
        by reflexivity.
      apply after_prefix_app. }
  rewrite Hderived. cbn [of_nullable or_null].
  assert (Htruthy : string_truthy id = true).
  { unfold string_truthy. apply negb_true_iff, String.eqb_neq, Hid. }
  rewrite Htruthy, Hun. apply cleanup_unlisted_stale.
Qed.

(** Stale data whose key the loop is given is removed. *)
Lemma cleanup_loop_removes (J : Registry.Runtime) (listed : gmap string Json)
    (workspaceId : string) (keys : list string) (storage : gmap string string)
    (id key : string) :
  id <> "" -> listed !! id = None ->
  Registry.stale J workspaceId (storage !! ("workflow-" +:+ id)) = true ->
  key = "workflow-" +:+ id \/ key = "subblock-values-" +:+ id ->
  In key keys ->
  fold_left (fun m key => Registry.cleanup_key J listed workspaceId key m) keys storage
    !! key = None.
Proof.
  intros Hid Hun Hstale Hkey. revert storage Hstale.
  induction keys as [|key0 rest IH]; intros storage Hstale Hin; [destruct Hin|].
  cbn [fold_left].
  destruct (decide (key0 = key)) as [->|Hne].
  - rewrite (cleanup_key_unlisted J listed workspaceId key id storage Hid Hun Hkey), Hstale.
    apply (cleanup_loop_safe J listed workspaceId rest (delete key storage)).
    apply lookup_delete_eq.
  - destruct Hin as [Heq|Hin]; [contradiction|].
    apply IH; [|exact Hin].
    destruct (cleanup_key_cases J listed workspaceId key0 storage)
      as [->|[(id' & Hkey' & Hun' & Hstale' & ->)|(id' & text & text' & Hl & Hentry & ->)]];
      [exact Hstale| |].
    + destruct (decide (key0 = "workflow-" +:+ id)) as [->|Hother].
      * rewrite lookup_delete_eq. reflexivity.
      * rewrite lookup_delete_ne by exact Hother. exact Hstale.
    + rewrite lookup_insert_ne; [exact Hstale|].
      intros H. apply workflow_key_inj in H. subst id'.
      rewrite Hun in Hl. destruct Hl. discriminate.
Qed.

(** X19.  The cleanup of browser storage never creates a key and never
    touches a key that starts with neither [workflow-] nor
    [subblock-values-]; the workflows the registry lists keep their data:
    their subblock values are left as they are and their [workflow-] entry
    stays (its workspace may be rewritten).  Nothing but browser storage
    changes. *)
Theorem storage_cleanup_keeps_listed (B : Registry.Browser) (J : Registry.Runtime)
    (workspaceId : string) (c : Registry.Client) :
  let c' := Registry.cleanupLocalStorageForWorkspace B J workspaceId c in
  (forall key, Registry.is_workflow_key key = false ->
     Registry.localStorage c' !! key = Registry.localStorage c !! key)
  /\ (forall key, Registry.localStorage c !! key = None ->
        Registry.localStorage c' !! key = None)
  /\ (forall id, is_Some (Registry.workflows (Registry.registry c) !! id) ->
        Registry.localStorage c' !! ("subblock-values-" +:+ id)
        = Registry.localStorage c !! ("subblock-values-" +:+ id)
        /\ (is_Some (Registry.localStorage c !! ("workflow-" +:+ id)) ->
            is_Some (Registry.localStorage c' !! ("workflow-" +:+ id))))
  /\ Registry.registry c' = Registry.registry c
  /\ Registry.workflowStore c' = Registry.workflowStore c
  /\ Registry.subBlockStore c' = Registry.subBlockStore c
  /\ Registry.effects c' = Registry.effects c.
Proof.
  cbv zeta. unfold Registry.cleanupLocalStorageForWorkspace.
  destruct (negb (Registry.has_window B)).
  - repeat split; auto.
  - destruct (cleanup_loop_safe J (Registry.workflows (Registry.registry c)) workspaceId
                (List.filter Registry.is_workflow_key
                   (Registry.Object_keys J (Registry.localStorage c)))
                (Registry.localStorage c)) as (Hframe & Hnone & Hlisted & _).
    cbv zeta in *. cbn [Registry.localStorage Registry.with_localStorage].
    split; [exact Hframe|]. split; [exact Hnone|]. split; [exact Hlisted|].
    repeat split.
Qed.

(** X20.  For a workflow the registry does not list, the cleanup removes
    stale data and only stale data: when the [workflow-] entry of the
    workflow does not parse, names no workspace, or names another
    workspace than the one cleaned, that entry and the subblock values of
    the workflow are left as they are; when there is no such entry, or it
    names the workspace cleaned, each of the two keys that browser storage
    lists is removed. *)
Theorem storage_cleanup_removes_stale_only (B : Registry.Browser) (J : Registry.Runtime)
    (workspaceId : string) (c : Registry.Client) (id : string) :
  Registry.workflows (Registry.registry c) !! id = None ->
  let c' := Registry.cleanupLocalStorageForWorkspace B J workspaceId c in
  (Registry.stale J workspaceId (Registry.localStorage c !! ("workflow-" +:+ id)) = false ->
   Registry.localStorage c' !! ("workflow-" +:+ id)
   = Registry.localStorage c !! ("workflow-" +:+ id)
   /\ Registry.localStorage c' !! ("subblock-values-" +:+ id)
      = Registry.localStorage c !! ("subblock-values-" +:+ id))
  /\ (Registry.stale J workspaceId (Registry.localStorage c !! ("workflow-" +:+ id)) = true ->
      Registry.has_window B = true -> id <> "" ->
      forall key,
        key = "workflow-" +:+ id \/ key = "subblock-values-" +:+ id ->
        In key (Registry.Object_keys J (Registry.localStorage c)) ->
        Registry.localStorage c' !! key = None).
Proof.
  intros Hun. cbv zeta. unfold Registry.cleanupLocalStorageForWorkspace. split.
  - intros Hfresh. destruct (negb (Registry.has_window B)); [split; reflexivity|].
    cbn [Registry.localStorage Registry.with_localStorage].
    apply (cleanup_loop_safe J (Registry.workflows (Registry.registry c)) workspaceId);
      assumption.
  - intros Hstale -> Hid key Hkey Hin. cbn [negb].
    cbn [Registry.localStorage Registry.with_localStorage].
    apply (cleanup_loop_removes J _ workspaceId _ _ id key Hid Hun Hstale Hkey).
    apply filter_In. split; [exact Hin|].
    destruct Hkey as [->| ->]; apply workflow_key_prefixed.
Qed.

(** ** Legacy published workflows *)

(** The row of an insert a sync pushed for a workflow sent under its own
    id is in the table when the sync ends. *)
Lemma synced_insert_found (E : Env) (req : PostRequest) (w : World)
    (resp : Response) (w' : World) (userId : string) (json : Json) (payload : SyncPayload)
    (id : string) (cw : Workflow) :
  session_user (post_session req) = Some userId ->
  post_body req = Some json ->
  SyncPayloadSchema_parse (Date_parse E) json = ZodOk payload ->
  NoDup (map fst (p_workflows payload)) ->
  POST E req w = (Returned resp, w') ->
  status resp = 200%Z ->
  In (id, cw) (p_workflows payload) ->
  w_id cw = id ->
  property (dbWorkflowMap_of userId (p_workspaceId payload) (db w)) id = None ->
  exists i now,
    (length (workflow_table (db w)) <= i)%nat
    /\ workflow_table (db w') !! i =
         Some (inserted_row E (insert_values userId (migrate_published cw)
                                 (p_workspaceId payload) (saved_state E id cw) now)).
Proof.
  intros Hs Hb Hp Hnd Hrun H200 Hin Hid Hnew.
  destruct (POST_synced E req w resp w' userId json payload Hs Hb Hp Hrun H200)
    as (userRole & now & Hsync).
  destruct Hsync as (_ & _ & _ & _ & _ & _ & Htable).
  set (values := insert_values userId (migrate_published cw) (p_workspaceId payload)
                   (saved_state E id cw) now).
  assert (Hpushed : pushed_operations E userId (p_workspaceId payload) userRole
                      (dbWorkflowMap_of userId (p_workspaceId payload) (db w)) now (id, cw)
                    = [InsertWorkflow values]).
  { unfold pushed_operations. cbn [fst snd]. rewrite Hnew. reflexivity. }
  destruct (migrate_published_fields cw) as (Mid & _).
  destruct (apply_operations_inserted E
              (sync_operations E userId payload userRole (db w) now)
              (workflow_table (db w)) values) as (i & Hi & Hrow).
  - unfold sync_operations. apply in_flat_map. exists (id, cw). split; [exact Hin|].
    rewrite Hpushed. left. reflexivity.
  - intros data Hupd. cbn [values insert_values i_id] in Hupd. rewrite Mid, Hid in Hupd.
    apply (sync_update_of_entry E userId payload userRole (db w) now id cw Hnd Hin) in Hupd.
    rewrite Hpushed in Hupd. destruct Hupd as [Hupd|[]]. discriminate Hupd.
  - exists i, now. split; [exact Hi|]. rewrite Htable. exact Hrow.
Qed.

(** X24.  A sync answered 200 that creates a workflow stores marketplace
    data for it as follows: a workflow whose state says it is published and
    that has no marketplace data gets owner data under its own id; any
    other workflow gets the marketplace data the client sent, and null when
    the client sent none. *)
Theorem published_workflow_gets_owner_data (E : Env) (req : PostRequest) (w : World)
    (resp : Response) (w' : World) (userId : string) (json : Json) (payload : SyncPayload)
    (id : string) (cw : Workflow) :
  session_user (post_session req) = Some userId ->
  post_body req = Some json ->
  SyncPayloadSchema_parse (Date_parse E) json = ZodOk payload ->
  NoDup (map fst (p_workflows payload)) ->
  POST E req w = (Returned resp, w') ->
  status resp = 200%Z ->
  In (id, cw) (p_workflows payload) ->
  w_id cw = id ->
  property (dbWorkflowMap_of userId (p_workspaceId payload) (db w)) id = None ->
  exists i row,
    (length (workflow_table (db w)) <= i)%nat
    /\ workflow_table (db w') !! i = Some row
    /\ r_id row = id
    /\ r_marketplaceData row = stored_marketplaceData cw.
Proof.
  intros Hs Hb Hp Hnd Hrun H200 Hin Hid Hnew.
  destruct (synced_insert_found E req w resp w' userId json payload id cw
              Hs Hb Hp Hnd Hrun H200 Hin Hid Hnew) as (i & now & Hi & Hrow).
  eexists i, _. split; [exact Hi|]. split; [exact Hrow|].
  unfold inserted_row, insert_values, stored_marketplaceData, migrate_published. cbn.
  destruct (truthy bool_truthy (of_optional (s_isPublished (w_state cw)))
            && negb (truthy object_truthy (w_marketplaceData cw))); cbn.
  - split; [exact Hid|reflexivity].
  - split; [exact Hid|]. rewrite nullable_of_nullable. reflexivity.
Qed.

(** ** What setDeploymentStatus and the reset leave alone *)

(** X25.  [setDeploymentStatus] about a workflow it can resolve ends with
    one call of the workflow sync and makes no other call; in browser
    storage it writes at most the key [workflow-<id>] of that workflow,
    and nothing when no state is stored for it; it touches neither the
    subblock store, nor the transition flag, nor the workflows and the
    pointers of the registry, nor the graph of the workflow store.  When
    neither the id given nor the active workflow id is truthy, it does
    nothing at all. *)
Theorem deployment_status_syncs_once (B : Registry.Browser) (P : Registry.Persistence)
    (workflowId : option string) (deployed : bool) (given : option JsDate)
    (key : option string) (c : Registry.Client) :
  let c' := Registry.setDeploymentStatus B P workflowId deployed given key c in
  (Registry.resolve workflowId c = None -> c' = c)
  /\ (forall id, Registry.resolve workflowId c = Some id ->
        Registry.effects c' = Registry.effects c ++ [Registry.WorkflowSync]
        /\ (forall other, other <> "workflow-" +:+ id ->
              Registry.localStorage c' !! other = Registry.localStorage c !! other)
        /\ (Registry.loadWorkflowState P id c = None ->
            Registry.localStorage c' = Registry.localStorage c)
        /\ Registry.subBlockStore c' = Registry.subBlockStore c
        /\ Registry.isWorkspaceTransitioning c' = Registry.isWorkspaceTransitioning c
        /\ Registry.workflows (Registry.registry c') = Registry.workflows (Registry.registry c)
        /\ Registry.activeWorkflowId (Registry.registry c')
           = Registry.activeWorkflowId (Registry.registry c)
        /\ Registry.activeWorkspaceId (Registry.registry c')
           = Registry.activeWorkspaceId (Registry.registry c)
        /\ Registry.blocks (Registry.workflowStore c') = Registry.blocks (Registry.workflowStore c)
        /\ Registry.edges (Registry.workflowStore c') = Registry.edges (Registry.workflowStore c)).
Proof.
  cbv zeta. split.
  - unfold Registry.setDeploymentStatus. intros ->. reflexivity.
  - intros id Hid.
    destruct (setDeploymentStatus_registry B P workflowId deployed given key c id Hid)
      as (_ & _ & Hstorage & Hnone). cbv zeta in *.
    split; [|split; [exact Hstorage|split; [exact Hnone|]]];
      unfold Registry.setDeploymentStatus; rewrite Hid;
      destruct c as [[wfs activeId wsId loading err statuses]
                       [bl ed lo pa dep depAt needs wsStatuses sched hist saved]
                       sub busy storage effs n];
      simpl_client;
      destruct (strict_eq String.eqb (JsValue id) (of_nullable activeId));
      destruct given as [d|], deployed; simpl_client;
      (destruct (storage !! ("workflow-" +:+ id)) as [text|];
         [destruct (Registry.parse_state P text) as [stored|]|]); simpl_client;
      repeat split.
Qed.

Lemma active_workspace_key_other (id : string) :
  Registry.ACTIVE_WORKSPACE_KEY <> "workflow-" +:+ id.
Proof. cbv [Registry.ACTIVE_WORKSPACE_KEY String.append]. discriminate. Qed.

(** X26.  The reset of a workspace switch merges into the workflow
    store: the properties it does not name keep their value.  After
    [setActiveWorkspace] has switched, the workflow store still holds the
    parallels and the needs-redeployment flag it held before, the registry
    still holds its deployment statuses and its error, and the workflow
    states kept in browser storage are as they were. *)
Theorem workspace_switch_keeps_parallels (B : Registry.Browser) (id : string)
    (c : Registry.Client) :
  let c' := Registry.setActiveWorkspace B id c in
  Registry.parallels (Registry.workflowStore c') = Registry.parallels (Registry.workflowStore c)
  /\ Registry.ws_needsRedeployment (Registry.workflowStore c')
     = Registry.ws_needsRedeployment (Registry.workflowStore c)
  /\ Registry.deploymentStatuses (Registry.registry c')
     = Registry.deploymentStatuses (Registry.registry c)
  /\ Registry.error (Registry.registry c') = Registry.error (Registry.registry c)
  /\ (forall workflowId,
        Registry.localStorage c' !! ("workflow-" +:+ workflowId)
        = Registry.localStorage c !! ("workflow-" +:+ workflowId))
  /\ (forall P workflowId,
        Registry.loadWorkflowState P workflowId c' = Registry.loadWorkflowState P workflowId c).
Proof.
  cbv zeta. unfold Registry.setActiveWorkspace.
  destruct (strict_eq String.eqb (JsValue id)
              (of_nullable (Registry.activeWorkspaceId (Registry.registry c))));
    [repeat split|].
  destruct (Registry.isWorkspaceTransitioning c); [repeat split|].
  simpl_client. destruct (Registry.has_window B); simpl_client; repeat split.
  - intros workflowId. apply lookup_insert_ne, active_workspace_key_other.
  - intros P workflowId.
    rewrite lookup_insert_ne by apply active_workspace_key_other. reflexivity.
Qed.

(** * Examples: the properties at work, and where the specification as
      written fails *)

(** ** C1 *)

(** u1, a member of ws1, posts no workflows for ws1: the sync is rejected
    and nothing is written. *)
Lemma empty_payload_rejected_witness :
  let r := POST sample_env (post "u1" empty_sync) (sample_world sample_db) in
  has_workflows "u1" (p_workspaceId (parsed sample_env empty_sync)) sample_db
  /\ fst r = Returned sync_rejected
  /\ events_since (sample_world sample_db) (snd r) = [Queried (OneWorkflowOfWorkspace "ws1")]
  /\ executed (events_since (sample_world sample_db) (snd r)) = [].
Proof.
  cbv zeta.
  assert (H : has_workflows "u1" (p_workspaceId (parsed sample_env empty_sync)) sample_db).
  { exists (sample_row "wf1" "u1" (Some "ws1")). split; [left; reflexivity|reflexivity]. }
  split; [exact H|].
  destruct (empty_payload_rejected sample_env (post "u1" empty_sync) (sample_world sample_db)
              "u1" empty_sync (parsed sample_env empty_sync)
              eq_refl eq_refl eq_refl eq_refl H) as (Hr & _ & _ & _ & Hev & Hw & _).
  split; [exact (Hr eq_refl)|]. split; [exact Hev|exact Hw].
Defined.

(** C1 as the specification states it fails in two ways.  With the empty
    string as workspace id: the payload names the workspace [""], the
    database holds that workspace and a workflow row of it (owned by u2),
    and the sync of u1 is answered 200, not 409, because the guard then
    looks for rows of u1.  And when the database rejects the select of the
    guard: it holds two workflow rows of ws1, and the empty sync of u1 to
    ws1 is answered 500, not 409. *)
Lemma empty_sync_not_always_rejected :
  let json := body_of [] (Some "") in
  let w := sample_world odd_db in
  (session_user (post_session (post "u1" json)) = Some "u1"
   /\ SyncPayloadSchema_parse (Date_parse sample_env) json
      = ZodOk {| p_workflows := []; p_workspaceId := Some "" |}
   /\ db_fault (db w) = None
   /\ In "" (workspace_table (db w))
   /\ (exists r, In r (workflow_table (db w)) /\ r_workspaceId r = Some "")
   /\ fst (POST sample_env (post "u1" json) w)
      = Returned {| status := 200; body := SuccessBody 2 0 0 |})
  /\ (session_user (post_session (post "u1" empty_sync)) = Some "u1"
      /\ SyncPayloadSchema_parse (Date_parse sample_env) empty_sync
         = ZodOk {| p_workflows := []; p_workspaceId := Some "ws1" |}
      /\ (exists r, In r (workflow_table faulty_db) /\ r_workspaceId r = Some "ws1")
      /\ fst (POST sample_env (post "u1" empty_sync) (sample_world faulty_db))
         = Returned sync_failed
      /\ status sync_failed = 500%Z).
Proof.
  cbv zeta. split.
  - split; [reflexivity|]. split; [reflexivity|]. split; [reflexivity|].
    split; [left; reflexivity|]. split.
    + exists (sample_row "wf1" "u2" (Some "")). split; [left; reflexivity|reflexivity].
    + vm_compute. reflexivity.
  - split; [reflexivity|]. split; [reflexivity|]. split.
    + exists (sample_row "wf1" "u1" (Some "ws1")). split; [left; reflexivity|reflexivity].
    + split; [vm_compute; reflexivity|reflexivity].
Qed.

(** ** C2 *)

(** u4 is no member of ws1 and no workspace ws0 exists: reading ws1 is
    denied, and a sync to ws0 finds no workspace. *)
Lemma workspace_check_witness :
  fst (GET sample_env {| get_session := Some "u4"; get_workspaceId := Some "ws1" |}
         (sample_world sample_db))
  = Returned workspace_access_denied
  /\ fst (POST sample_env (post "u4" (body_of [("wf9", workflow_json "wf9" "New")] (Some "ws0")))
            (sample_world sample_db))
     = Returned workspace_not_found.
Proof.
  destruct (workspace_check sample_env (sample_world sample_db) "u4" "ws1" eq_refl)
    as [Hget _].
  destruct (workspace_check sample_env (sample_world sample_db) "u4" "ws0" eq_refl)
    as [_ Hpost].
  split.
  - apply (Hget {| get_session := Some "u4"; get_workspaceId := Some "ws1" |}
             eq_refl eq_refl).
    + discriminate.
    + vm_compute. reflexivity.
  - apply (Hpost (post "u4" (body_of [("wf9", workflow_json "wf9" "New")] (Some "ws0")))
             (body_of [("wf9", workflow_json "wf9" "New")] (Some "ws0"))
             (parsed sample_env (body_of [("wf9", workflow_json "wf9" "New")] (Some "ws0")))
             eq_refl eq_refl eq_refl eq_refl).
    + left. discriminate.
    + reflexivity.
Defined.

(** C2 as the specification states it fails for a POST with no workflows: u4, who
    is no member of ws1, supplies ws1, the workspace exists and the
    membership check returns null, yet the answer is the 409 of the
    empty-payload guard, which runs first, and not 403. *)
Lemma empty_sync_of_non_member_is_409 :
  let w := sample_world sample_db in
  session_user (post_session (post "u4" empty_sync)) = Some "u4"
  /\ given (p_workspaceId (parsed sample_env empty_sync)) = Some "ws1"
  /\ workspace_rows "ws1" (db w) = ["ws1"]
  /\ fst (verifyWorkspaceMembership sample_env "u4" "ws1" (started w)) = Returned None
  /\ fst (POST sample_env (post "u4" empty_sync) w) = Returned sync_rejected
  /\ status sync_rejected = 409%Z.
Proof. cbv zeta. repeat split; vm_compute; reflexivity. Qed.

(** ** C3 *)

(** The sync of u1 saves each workflow to the normalized tables, then
    writes. *)
Lemma state_written_is_blob_or_client_witness :
  let w := sample_world sample_db in
  let w' := snd (POST sample_env (post "u1" rename_and_add) w) in
  exists userRole now queries,
    events_since w w' =
      queries ++ map save_event (p_workflows (parsed sample_env rename_and_add))
        ++ map Executed (sync_operations sample_env "u1" (parsed sample_env rename_and_add)
                           userRole (db w) now).
Proof.
  cbv zeta.
  destruct (state_written_is_blob_or_client sample_env (post "u1" rename_and_add)
              (sample_world sample_db)
              (response_of (POST sample_env (post "u1" rename_and_add) (sample_world sample_db)))
              (snd (POST sample_env (post "u1" rename_and_add) (sample_world sample_db)))
              "u1" rename_and_add (parsed sample_env rename_and_add)
              eq_refl eq_refl eq_refl)
    as (userRole & now & queries & _ & Hev & _).
  - vm_compute. reflexivity.
  - vm_compute. reflexivity.
  - exists userRole, now, queries. exact Hev.
Defined.

(** C3 as the specification states it fails when the normalized save succeeds
    without returning a blob: the insert of a new workflow then writes the
    state the client sent. *)
Lemma successful_save_without_blob_writes_client_state :
  let json := body_of [("wf9", workflow_json "wf9" "New")] (Some "ws1") in
  let w := sample_world sample_db in
  let r := POST blobless_env (post "u1" json) w in
  status (response_of r) = 200%Z
  /\ (forall id graph, success (saveWorkflowToNormalizedTables blobless_env id graph) = true)
  /\ (forall id graph, jsonBlob (saveWorkflowToNormalizedTables blobless_env id graph) = None)
  /\ map written_state (executed (events_since w (snd r)))
     = [Some (ClientState {| s_blocks := []; s_edges := []; s_loops := []; s_parallels := [];
                             s_lastSaved := None; s_isDeployed := None; s_deployedAt := None;
                             s_isPublished := None; s_marketplaceData := JsUndefined |})].
Proof.
  cbv zeta. split; [vm_compute; reflexivity|]. split; [reflexivity|]. split; [reflexivity|].
  vm_compute. reflexivity.
Qed.

(** ** C5 *)

(** The new name of wf1 differs from the stored one: an update of wf1 is
    issued. *)
Lemma update_iff_fields_differ_witness :
  let w := sample_world sample_db in
  let w' := snd (POST sample_env (post "u1" rename_and_add) w) in
  exists data, In (UpdateWorkflow data "wf1") (executed (events_since w w')).
Proof.
  cbv zeta.
  destruct (update_iff_fields_differ sample_env (post "u1" rename_and_add)
              (sample_world sample_db)
              (response_of (POST sample_env (post "u1" rename_and_add) (sample_world sample_db)))
              (snd (POST sample_env (post "u1" rename_and_add) (sample_world sample_db)))
              "u1" rename_and_add (parsed sample_env rename_and_add)
              eq_refl eq_refl eq_refl)
    as (userRole & _ & Hall).
  - apply (bool_decide_unpack _). vm_compute. exact I.
  - vm_compute. reflexivity.
  - vm_compute. reflexivity.
  - destruct (Hall "wf1"
                {| w_id := "wf1"; w_name := "Renamed"; w_description := None; w_color := None;
                   w_state := {| s_blocks := []; s_edges := []; s_loops := []; s_parallels := [];
                                 s_lastSaved := None; s_isDeployed := None;
                                 s_deployedAt := None; s_isPublished := None;
                                 s_marketplaceData := JsUndefined |};
                   w_marketplaceData := JsUndefined; w_workspaceId := None;
                   w_folderId := JsUndefined |}
                (sample_row "wf1" "u1" (Some "ws1"))) as (state & _ & _ & Hiff & _).
    + left. reflexivity.
    + reflexivity.
    + left. reflexivity.
    + apply Hiff. left. discriminate.
Defined.

(** ** C7 *)

(** A workflow without a name is refused with the issue Zod raises. *)
Lemma invalid_payload_rejected_witness :
  let json := body_of [("wf1", JObj [("id", JStr "wf1"); ("state", empty_graph)])] None in
  fst (POST sample_env (post "u1" json) (sample_world sample_db))
  = Returned {| status := 400;
                body := InvalidBody "Invalid request data"
                          [{| issue_code := "invalid_type";
                              issue_path := ["workflows"; "wf1"; "name"] |}] |}.
Proof.
  cbv zeta.
  apply (invalid_payload_rejected sample_env
           (post "u1" (body_of [("wf1", JObj [("id", JStr "wf1"); ("state", empty_graph)])] None))
           (sample_world sample_db) "u1"
           (body_of [("wf1", JObj [("id", JStr "wf1"); ("state", empty_graph)])] None)
           [{| issue_code := "invalid_type"; issue_path := ["workflows"; "wf1"; "name"] |}]
           eq_refl eq_refl eq_refl).
Defined.

(** ** C10 *)

(** The sync of the viewer inserts wf9, leaves wf2 as it was, and answers
    200. *)
Lemma denied_update_skipped_witness :
  let w := sample_world sample_db in
  let r := POST sample_env (post "u3" viewer_sync) w in
  (exists elapsed, fst r = Returned {| status := 200; body := SuccessBody elapsed 1 2 |})
  /\ workflow_table (db (snd r)) !! 1%nat = Some (sample_row "wf2" "u2" (Some "ws1")).
Proof.
  cbv zeta.
  destruct (denied_update_skipped sample_env (post "u3" viewer_sync) (sample_world sample_db)
              "u3" viewer_sync (parsed sample_env viewer_sync) "ws1" "viewer" "wf2"
              {| w_id := "wf2"; w_name := "Taken"; w_description := None; w_color := None;
                 w_state := {| s_blocks := []; s_edges := []; s_loops := []; s_parallels := [];
                               s_lastSaved := None; s_isDeployed := None;
                               s_deployedAt := None; s_isPublished := None;
                               s_marketplaceData := JsUndefined |};
                 w_marketplaceData := JsUndefined; w_workspaceId := None;
                 w_folderId := JsUndefined |}
              (sample_row "wf2" "u2" (Some "ws1"))
              eq_refl eq_refl eq_refl eq_refl eq_refl)
    as (elapsed & now & w' & Hrun & _ & _ & Hrows & _).
  - discriminate.
  - vm_compute. reflexivity.
  - discriminate.
  - left. reflexivity.
  - reflexivity.
  - discriminate.
  - discriminate.
  - discriminate.
  - discriminate.
  - cbv zeta in Hrun. rewrite Hrun. cbn [fst snd]. split.
    + exists elapsed.
      replace (length (sync_operations sample_env "u3" (parsed sample_env viewer_sync)
                         (Some "viewer") (db (sample_world sample_db)) now)) with 1%nat
        by (destruct now; reflexivity).
      reflexivity.
    + apply Hrows; reflexivity.
Defined.

(** C10 as the specification states it fails for a user who holds no role at all:
    u4 is not the owner of wf2 and is no member of ws1, and the sync that
    contains wf2 is answered 403 for the whole request, not 200. *)
Lemma non_member_sync_is_403 :
  let json := body_of [("wf2", workflow_json "wf2" "Taken")] (Some "ws1") in
  let w := sample_world sample_db in
  In (sample_row "wf2" "u2" (Some "ws1")) (workflows_of_workspace "ws1" (db w))
  /\ r_userId (sample_row "wf2" "u2" (Some "ws1")) <> "u4"
  /\ membership_rows "ws1" "u4" (db w) = []
  /\ map fst (p_workflows (parsed sample_env json)) = ["wf2"]
  /\ fst (POST sample_env (post "u4" json) w) = Returned workspace_access_denied
  /\ status workspace_access_denied = 403%Z.
Proof.
  cbv zeta. split; [right; left; reflexivity|]. split; [discriminate|].
  repeat split; vm_compute; reflexivity.
Qed.

(** ** C6 *)

(** C6 as the specification states it fails on a crowded cache.  After 1001
    members of ws1 have been checked, the cache holds an entry for the
    first of them that expires at 61000, later than every time read during
    the next check (the clock stands at 2503 after it); yet that check asks
    the database, because the cleanup it starts with evicts the entry that
    expires soonest. *)
Lemma fresh_entry_evicted_from_crowded_cache :
  let w := crowded_world 1001 in
  let r := verifyWorkspaceMembership sample_env (user 0) "ws1" w in
  property (workspaceMembershipCache w) (cacheKey (user 0) "ws1")
  = Some {| role := "member"; expires := 61000 |}
  /\ clock sample_env (ticks (snd r)) = 2503%Z
  /\ events_since w (snd r) = [Queried (MembershipOf "ws1" (user 0))].
Proof. vm_compute. repeat split; reflexivity. Qed.

(** ** C4 and C8 *)

(** Deploying the active workflow marks it deployed in the workflow store
    and in the registry, and rewrites the state browser storage keeps for
    it. *)
Lemma deployment_status_set_witness :
  let c' := Registry.setDeploymentStatus sample_browser sample_persistence None true None
              (Some "key") persisted_client in
  Registry.ws_isDeployed (Registry.workflowStore c') = true
  /\ (exists entry,
        Registry.deploymentStatuses (Registry.registry c') = {["wf1" := entry]}
        /\ Registry.isDeployed entry = true
        /\ Registry.apiKey entry = Some "key")
  /\ (exists rewritten,
        Registry.localStorage c' !! ("workflow-" +:+ "wf1")
        = Some (Registry.stringify_state sample_persistence rewritten)
        /\ Registry.ps_isDeployed rewritten = Some true
        /\ Registry.ps_graph rewritten = JObj [("workspaceId", JStr "ws1")]).
Proof.
  cbv zeta.
  destruct (deployment_status_set sample_browser sample_persistence None true None (Some "key")
              persisted_client "wf1" eq_refl)
    as ((entry & Hreg & Hdep & Hkey & _) & Hstore & _ & Hstored & _).
  destruct (Hstore eq_refl) as (Hlegacy & _).
  destruct (Hstored (sample_persisted "ws1") eq_refl)
    as (rewritten & _ & Htext & _ & _ & Hgraph & Hactive & _).
  destruct (Hactive eq_refl) as (Hflag & _).
  split; [exact Hlegacy|]. split.
  - exists entry. split; [|split; assumption]. rewrite Hreg. reflexivity.
  - exists rewritten. split; [exact Htext|]. split; [exact Hflag|]. rewrite Hgraph. reflexivity.
Defined.

(** C4 as the specification states it fails when browser storage holds no state
    for the workflow: the registry and the workflow store get the new
    status, and nothing is persisted for the workflow. *)
Lemma deployment_status_not_persisted :
  let c' := Registry.setDeploymentStatus sample_browser sample_persistence (Some "wf1") true
              None (Some "key") sample_client in
  Registry.resolve (Some "wf1") sample_client = Some "wf1"
  /\ Registry.deploymentStatuses (Registry.registry c') !! "wf1"
     = Some {| Registry.isDeployed := true; Registry.deployedAt := Some (Date 5000);
               Registry.apiKey := Some "key"; Registry.needsRedeployment := Some false |}
  /\ Registry.ws_deploymentStatuses (Registry.workflowStore c') !! "wf1"
     = Some {| Registry.isDeployed := true; Registry.deployedAt := Some (Date 5002);
               Registry.apiKey := Some "key"; Registry.needsRedeployment := Some false |}
  /\ Registry.loadWorkflowState sample_persistence "wf1" c' = None
  /\ Registry.localStorage c' = ∅.
Proof. cbv zeta. repeat split; vm_compute; reflexivity. Qed.

(** Switching the sample client to ws2 resets it, with a history entry
    stamped with the time read; switching it to ws1, where it is, changes
    nothing. *)
Lemma workspace_switch_resets_witness :
  Registry.reset_for "ws2" (Registry.setActiveWorkspace sample_browser "ws2" sample_client)
  /\ Registry.h_timestamp
       (Registry.present
          (Registry.history
             (Registry.workflowStore
                (Registry.setActiveWorkspace sample_browser "ws2" sample_client)))) = 5000%Z
  /\ Registry.setActiveWorkspace sample_browser "ws1" sample_client = sample_client.
Proof.
  destruct (workspace_switch_resets sample_browser "ws2" sample_client) as [Hswitch _].
  destruct (workspace_switch_resets sample_browser "ws1" sample_client) as [_ Hsame].
  destruct Hswitch as (c0 & _ & _ & _ & _ & Hreset & Hstamp & _);
    [discriminate|reflexivity|].
  split; [exact Hreset|]. split; [exact Hstamp|].
  apply Hsame. left. reflexivity.
Defined.

(** ** The route at work *)

(** u1, a member of ws1, is given the two workflows of ws1, the one of u2
    included. *)
Lemma GET_lists_workflows_witness :
  fst (GET sample_env {| get_session := Some "u1"; get_workspaceId := Some "ws1" |}
         (sample_world sample_db))
  = Returned {| status := 200;
                body := DataBody [sample_row "wf1" "u1" (Some "ws1");
                                  sample_row "wf2" "u2" (Some "ws1")] |}.
Proof.
  destruct (GET_lists_workflows sample_env
              {| get_session := Some "u1"; get_workspaceId := Some "ws1" |}
              (sample_world sample_db) "u1" eq_refl eq_refl) as [_ Hws].
  destruct (Hws "ws1" "member" eq_refl) as (Hresp & _).
  - discriminate.
  - vm_compute. reflexivity.
  - discriminate.
  - exact Hresp.
Defined.

(** With the database down, u1 gets the 500 of GET and of POST. *)
Lemma database_failure_is_500_witness :
  fst (GET sample_env {| get_session := Some "u1"; get_workspaceId := None |}
         (sample_world faulty_db))
  = Returned {| status := 500; body := ErrorBody "connection refused" None None |}
  /\ fst (POST sample_env (post "u1" rename_and_add) (sample_world faulty_db))
     = Returned sync_failed.
Proof.
  destruct (database_failure_is_500 sample_env (sample_world faulty_db) "connection refused"
              eq_refl) as [Hget Hpost].
  split.
  - apply (Hget {| get_session := Some "u1"; get_workspaceId := None |} "u1" eq_refl).
  - apply (Hpost (post "u1" rename_and_add) "u1" rename_and_add
             (parsed sample_env rename_and_add) eq_refl eq_refl eq_refl).
Defined.

Lemma moving_sync_keys :
  NoDup (map fst (p_workflows (parsed sample_env moving_sync))).
Proof. apply (bool_decide_unpack _). vm_compute. exact I. Qed.

(** The sync of u1 to ws1 creates wf9, owned by u1 and deployed, in the
    workspace ws2 the workflow names. *)
Lemma new_workflow_inserted_witness :
  exists i row,
    workflow_table (db (snd (POST sample_env (post "u1" moving_sync)
                               (sample_world sample_db)))) !! i = Some row
    /\ r_id row = "wf9" /\ r_userId row = "u1"
    /\ r_workspaceId row = Some "ws2" /\ r_isDeployed row = true.
Proof.
  destruct (new_workflow_inserted sample_env (post "u1" moving_sync)
              (sample_world sample_db)
              (response_of (POST sample_env (post "u1" moving_sync) (sample_world sample_db)))
              (snd (POST sample_env (post "u1" moving_sync) (sample_world sample_db)))
              "u1" moving_sync (parsed sample_env moving_sync)
              "wf9" (deployed_workflow "wf9" "New" "ws2")
              eq_refl eq_refl eq_refl moving_sync_keys)
    as (i & row & state & _ & Hrow & _ & Hid & Huser & _ & _ & _ & Hws & _ & _ & Hdeployed & _).
  - vm_compute. reflexivity.
  - vm_compute. reflexivity.
  - right. left. reflexivity.
  - reflexivity.
  - reflexivity.
  - exists i, row. repeat split; assumption.
Defined.

(** The sync of u1 leaves wf1 deployed and in workspace ws2, as the client
    says. *)
Lemma synced_row_agrees_witness :
  exists row',
    workflow_table (db (snd (POST sample_env (post "u1" moving_sync)
                               (sample_world sample_db)))) !! 0%nat = Some row'
    /\ r_name row' = "Flow" /\ r_isDeployed row' = true /\ r_workspaceId row' = Some "ws2".
Proof.
  destruct (synced_row_agrees sample_env (post "u1" moving_sync)
              (sample_world sample_db)
              (response_of (POST sample_env (post "u1" moving_sync) (sample_world sample_db)))
              (snd (POST sample_env (post "u1" moving_sync) (sample_world sample_db)))
              "u1" moving_sync (parsed sample_env moving_sync)
              "wf1" (deployed_workflow "wf1" "Flow" "ws2") (sample_row "wf1" "u1" (Some "ws1")) 0
              eq_refl eq_refl eq_refl moving_sync_keys)
    as (row' & state & Hrow & _ & (Hname & _ & Hdeployed & _ & _ & _ & _ & Hws & _) & _).
  - vm_compute. reflexivity.
  - vm_compute. reflexivity.
  - left. reflexivity.
  - reflexivity.
  - reflexivity.
  - intros userRole _. left. reflexivity.
  - exists row'. split; [exact Hrow|]. split; [exact Hname|]. split; [exact Hdeployed|].
    apply Hws. reflexivity.
Defined.

(** The sync of u1 executed two writes for two workflows, one an insert. *)
Lemma sync_stats_count_witness :
  let r := POST sample_env (post "u1" rename_and_add) (sample_world sample_db) in
  length (executed (events_since (sample_world sample_db) (snd r))) = 2%nat
  /\ length (workflow_table (db (snd r))) = 3%nat.
Proof.
  cbv zeta.
  destruct (sync_stats_count sample_env (post "u1" rename_and_add) (sample_world sample_db)
              (response_of (POST sample_env (post "u1" rename_and_add) (sample_world sample_db)))
              (snd (POST sample_env (post "u1" rename_and_add) (sample_world sample_db)))
              "u1" rename_and_add (parsed sample_env rename_and_add)
              eq_refl eq_refl eq_refl) as (_ & _ & Hgrown).
  - vm_compute. reflexivity.
  - vm_compute. reflexivity.
  - split; [vm_compute; reflexivity|]. rewrite Hgrown. vm_compute. reflexivity.
Defined.

Lemma absent_description_always_updates_witness :
  exists data,
    In (UpdateWorkflow data "wf1")
       (executed (events_since (sample_world sample_db)
                    (snd (POST sample_env (post "u1" unchanged_sync) (sample_world sample_db))))).
Proof.
  destruct (absent_description_always_updates sample_env (post "u1" unchanged_sync)
              (sample_world sample_db)
              (response_of (POST sample_env (post "u1" unchanged_sync) (sample_world sample_db)))
              (snd (POST sample_env (post "u1" unchanged_sync) (sample_world sample_db)))
              "u1" unchanged_sync (parsed sample_env unchanged_sync)
              "wf1" (sample_workflow "wf1" "Flow") (sample_row "wf1" "u1" (Some "ws1"))
              eq_refl eq_refl eq_refl) as (data & now & Hin & _).
  - vm_compute. reflexivity.
  - vm_compute. reflexivity.
  - left. reflexivity.
  - reflexivity.
  - intros userRole _. reflexivity.
  - left. reflexivity.
  - exists data. exact Hin.
Defined.

(** u4 owns no workflow: their empty sync goes through. *)
Lemma empty_sync_accepted_witness :
  exists elapsed,
    fst (POST sample_env (post "u4" (body_of [] None)) (sample_world sample_db))
    = Returned {| status := 200; body := SuccessBody elapsed 0 0 |}.
Proof.
  destruct (empty_sync_accepted sample_env (post "u4" (body_of [] None))
              (sample_world sample_db) "u4" (body_of [] None)
              (parsed sample_env (body_of [] None))
              eq_refl eq_refl eq_refl eq_refl eq_refl eq_refl eq_refl) as (Hresp & _).
  exact Hresp.
Defined.

(** ** The cache and the migration at work *)

(** The cleanup drops the entry of u1, which has expired. *)
Lemma cleanup_bounds_cache_witness :
  (length (workspaceMembershipCache (snd (cleanupExpiredCacheEntries sample_env stale_world)))
   <= MAX_CACHE_SIZE)%nat
  /\ workspaceMembershipCache (snd (cleanupExpiredCacheEntries sample_env stale_world))
     = [(cacheKey "u3" "ws1", {| role := "viewer"; expires := 9000 |})].
Proof.
  destruct (cleanup_bounds_cache sample_env stale_world) as (Hlen & _).
  - apply (bool_decide_unpack _). vm_compute. exact I.
  - split; [exact Hlen|]. vm_compute. reflexivity.
Defined.

(** A check of u1 on the cache of two entries, one of them expired, leaves
    a cache within the bound and keeps the entry of u3. *)
Lemma cache_stays_bounded_witness :
  let after := workspaceMembershipCache
                 (snd (verifyWorkspaceMembership sample_env "u1" "ws1" stale_world)) in
  (length after <= MAX_CACHE_SIZE + 1)%nat
  /\ In (cacheKey "u3" "ws1", {| role := "viewer"; expires := 9000 |}) after.
Proof.
  cbv zeta.
  destruct (cache_stays_bounded sample_env "u1" "ws1" stale_world) as (_ & Hlen & Hkept).
  - apply (bool_decide_unpack _). vm_compute. exact I.
  - split; [exact Hlen|].
    apply Hkept; [vm_compute; lia|right; left; reflexivity|discriminate].
Defined.

(** The second check of u1 comes one millisecond after the first and
    makes no query. *)
Lemma fresh_check_is_cached_witness :
  let first := verifyWorkspaceMembership sample_env "u1" "ws1" (sample_world sample_db) in
  let second := verifyWorkspaceMembership sample_env "u1" "ws1" (snd first) in
  fst second = Returned (Some "member")
  /\ events_since (snd first) (snd second) = [].
Proof.
  cbv zeta.
  destruct (fresh_check_is_cached sample_env "u1" "ws1" (sample_world sample_db)
              (member "ws1" "u1" "member") [] eq_refl eq_refl eq_refl)
    as (_ & _ & Hrole & Hhit & _).
  - apply Nat.ltb_lt. vm_compute. reflexivity.
  - split; [exact Hrole|]. apply Hhit. vm_compute. reflexivity.
Defined.

(** The migration of u1 to ws1 moves wf1 and leaves the orphan of u2. *)
Lemma migration_adopts_orphans_witness :
  workflow_table
    (db (snd (migrateOrphanedWorkflows sample_env all_accepted "u1" "ws1"
                (sample_world orphan_db))))
  = [adopted "ws1" (Date 1000) (sample_row "wf1" "u1" None);
     sample_row "wf2" "u2" None;
     sample_row "wf3" "u1" (Some "ws1")].
Proof.
  destruct (migration_adopts_orphans sample_env all_accepted "u1" "ws1"
              (sample_world orphan_db) eq_refl eq_refl) as (Htable & _).
  rewrite Htable. reflexivity.
Defined.

(** With the batch update rejected, the fallback moves wf1 all the same. *)
Lemma migration_touches_orphans_only_witness :
  let r := migrateOrphanedWorkflows sample_env batch_rejected "u1" "ws1"
             (sample_world orphan_db) in
  fst r = Returned tt
  /\ List.filter (is_orphan "u1") (workflow_table (db (snd r))) = []
  /\ workflow_table (db (snd r)) !! 1%nat = Some (sample_row "wf2" "u2" None).
Proof.
  cbv zeta.
  destruct (migration_touches_orphans_only sample_env batch_rejected "u1" "ws1"
              (sample_world orphan_db))
    as (Hret & Hrows & _ & _ & _ & _ & _ & Hnone).
  - apply (bool_decide_unpack _). vm_compute. exact I.
  - split; [exact Hret|]. split; [apply Hnone; reflexivity|].
    destruct (Hrows 1%nat (sample_row "wf2" "u2" None) eq_refl) as (row' & Hrow' & [->|Hadopted]).
    + exact Hrow'.
    + destruct Hadopted as [Horphan _]. discriminate Horphan.
Defined.

(** The entry under [__proto__] is parsed and left out of the payload. *)
Lemma parsed_payload_keeps_entries_witness :
  map fst (p_workflows (parsed sample_env polluted_sync)) = ["wf9"].
Proof.
  destruct (parsed_payload_keeps_entries (Date_parse sample_env) polluted_sync
              (parsed sample_env polluted_sync) eq_refl)
    as (fields & workflows & Hbody & Hprop & Hkeys & _).
  injection Hbody as <-. cbn in Hprop. injection Hprop as <-. exact Hkeys.
Defined.

(** ** The client store at work *)

(** After its workspace is deleted the sample client moves to ws2. *)
Lemma workspace_deletion_switches_witness :
  Registry.reset_for "ws2" (Registry.handleWorkspaceDeletion sample_browser "ws2" sample_client)
  /\ Registry.handleWorkspaceDeletion sample_browser "" sample_client = sample_client.
Proof.
  destruct (workspace_deletion_switches sample_browser "ws2" sample_client) as [Hswitch _].
  destruct (workspace_deletion_switches sample_browser "" sample_client) as [_ Hsame].
  split.
  - apply Hswitch; discriminate.
  - apply Hsame. left. reflexivity.
Defined.

(** The status of the active workflow is read back as it was set. *)
Lemma deployment_status_read_back_witness :
  Registry.getWorkflowDeploymentStatus sample_persistence None
    (Registry.setDeploymentStatus sample_browser sample_persistence None true None (Some "key")
       sample_client)
  = Some {| Registry.isDeployed := true; Registry.deployedAt := Some (Date 5000);
            Registry.apiKey := Some "key"; Registry.needsRedeployment := Some false |}.
Proof.
  destruct (deployment_status_read_back sample_browser sample_persistence None true None
              (Some "key") sample_client "wf1" eq_refl)
    as ([deployed at_ key needs] & Hget & Hdeployed & Hkey & Hat & Hneeds).
  cbn in Hdeployed, Hkey, Hat, Hneeds. subst. exact Hget.
Defined.

(** Recording that wf1 is not deployed leaves the status of wf2 as it was
    set before. *)
Lemma deployment_status_of_others_kept_witness :
  let c := Registry.setDeploymentStatus sample_browser sample_persistence (Some "wf2") true None
             (Some "key2") persisted_client in
  Registry.getWorkflowDeploymentStatus sample_persistence (Some "wf2")
    (Registry.setDeploymentStatus sample_browser sample_persistence (Some "wf1") false None None c)
  = Some {| Registry.isDeployed := true; Registry.deployedAt := Some (Date 5000);
            Registry.apiKey := Some "key2"; Registry.needsRedeployment := Some false |}.
Proof.
  cbv zeta.
  rewrite (deployment_status_of_others_kept sample_browser sample_persistence (Some "wf1")
             false None None
             (Registry.setDeploymentStatus sample_browser sample_persistence (Some "wf2") true
                None (Some "key2") persisted_client) "wf2");
    [vm_compute; reflexivity|discriminate|discriminate].
Defined.

(** Flagging the active workflow is reported, rewrites the state browser
    storage keeps for it, and starts no sync. *)
Lemma needs_redeployment_flagged_witness :
  let c' := Registry.setWorkflowNeedsRedeployment sample_persistence sample_setter None true
              persisted_client in
  Registry.getWorkflowDeploymentStatus sample_persistence None c'
    ≫= Registry.needsRedeployment = Some true
  /\ (exists rewritten entry,
        Registry.localStorage c' !! ("workflow-" +:+ "wf1")
        = Some (Registry.stringify_state sample_persistence rewritten)
        /\ Registry.ps_deploymentStatuses rewritten = Some {["wf1" := entry]}
        /\ Registry.needsRedeployment entry = Some true)
  /\ Registry.effects c' = [].
Proof.
  cbv zeta.
  destruct (needs_redeployment_flagged sample_persistence sample_setter None true
              persisted_client "wf1" eq_refl)
    as ((entry & Hget & Hflag & _) & _ & _ & Hstored & _ & _ & Heffects).
  destruct (Hstored (sample_persisted "ws1") eq_refl)
    as (rewritten & entry' & Htext & Hstatuses & Hflag' & _).
  split; [rewrite Hget; exact Hflag|]. split; [|exact Heffects].
  exists rewritten, entry'. split; [exact Htext|]. split; [|exact Hflag'].
  rewrite Hstatuses. reflexivity.
Defined.

(** Deploying the flagged workflow clears its flag. *)
Lemma deployment_clears_the_flag_witness :
  Registry.getWorkflowDeploymentStatus sample_persistence None
      (Registry.setDeploymentStatus sample_browser sample_persistence None true None None
         (Registry.setWorkflowNeedsRedeployment sample_persistence sample_setter None true
            sample_client))
    ≫= Registry.needsRedeployment = Some false.
Proof.
  destruct (deployment_clears_the_flag sample_persistence sample_setter sample_browser
              None None None sample_client "wf1" eq_refl) as [Hclear _].
  exact Hclear.
Defined.

(** The cleanup for ws1 removes the data of the workflow of ws1 the
    registry does not list, and leaves the workflow of ws2. *)
Lemma storage_cleanup_removes_stale_only_witness :
  let c' := Registry.cleanupLocalStorageForWorkspace sample_browser sample_runtime "ws1"
              stored_client in
  Registry.localStorage c' !! "workflow-old" = None
  /\ Registry.localStorage c' !! "subblock-values-old" = None
  /\ Registry.localStorage c' !! "workflow-kept" = Some (stored_in "ws2").
Proof.
  cbv zeta.
  destruct (storage_cleanup_removes_stale_only sample_browser sample_runtime "ws1"
              stored_client "old" eq_refl) as [_ Hstale].
  destruct (storage_cleanup_removes_stale_only sample_browser sample_runtime "ws1"
              stored_client "kept" eq_refl) as [Hfresh _].
  split; [|split].
  - apply (Hstale eq_refl eq_refl); [discriminate|left; reflexivity|].
    vm_compute. tauto.
  - apply (Hstale eq_refl eq_refl); [discriminate|right; reflexivity|].
    vm_compute. tauto.
  - destruct (Hfresh eq_refl) as [Hkept _]. etransitivity; [exact Hkept|reflexivity].
Defined.

(** ** Legacy published workflows at work *)

Lemma publishing_sync_keys :
  NoDup (map fst (p_workflows (parsed sample_env publishing_sync))).
Proof. apply (bool_decide_unpack _). vm_compute. exact I. Qed.

(** The published workflow wf7 is stored with owner data. *)
Lemma published_workflow_gets_owner_data_witness :
  exists i row,
    workflow_table (db (snd (POST sample_env (post "u1" publishing_sync)
                               (sample_world sample_db)))) !! i = Some row
    /\ r_id row = "wf7"
    /\ r_marketplaceData row = Some (JObj [("id", JStr "wf7"); ("status", JStr "owner")]).
Proof.
  destruct (published_workflow_gets_owner_data sample_env (post "u1" publishing_sync)
              (sample_world sample_db)
              (response_of (POST sample_env (post "u1" publishing_sync) (sample_world sample_db)))
              (snd (POST sample_env (post "u1" publishing_sync) (sample_world sample_db)))
              "u1" publishing_sync (parsed sample_env publishing_sync)
              "wf7" (published_workflow "wf7" "Shared")
              eq_refl eq_refl eq_refl publishing_sync_keys)
    as (i & row & _ & Hrow & Hid & Hdata).
  - vm_compute. reflexivity.
  - vm_compute. reflexivity.
  - left. reflexivity.
  - reflexivity.
  - reflexivity.
  - exists i, row. split; [exact Hrow|]. split; [exact Hid|]. rewrite Hdata. reflexivity.
Defined.

(** ** Refusals and quiet operations at work *)

(** A request without a session is refused, and so is a body that is no
    JSON text. *)
Lemma refused_before_the_database_witness :
  fst (GET sample_env {| get_session := None; get_workspaceId := Some "ws1" |}
         (sample_world sample_db)) = Returned unauthorized
  /\ fst (POST sample_env {| post_session := None; post_body := None |}
            (sample_world sample_db)) = Returned unauthorized
  /\ fst (POST sample_env {| post_session := Some "u1"; post_body := None |}
            (sample_world sample_db)) = Returned sync_failed.
Proof.
  destruct (refused_before_the_database sample_env (sample_world sample_db))
    as (Hget & Hpost & Hbody).
  split; [|split].
  - apply (Hget {| get_session := None; get_workspaceId := Some "ws1" |} eq_refl).
  - apply (Hpost {| post_session := None; post_body := None |} eq_refl).
  - apply (Hbody {| post_session := Some "u1"; post_body := None |} "u1" eq_refl eq_refl).
Defined.

(** After the fetch for ws1 has failed, a switch to ws2 takes place. *)
Lemma workspace_transition_ends_witness :
  Registry.reset_for "ws2"
    (Registry.setActiveWorkspace sample_browser "ws2"
       (Registry.workspace_load_failed sample_client)).
Proof.
  destruct (workspace_transition_ends sample_browser sample_runtime "ws1" sample_client)
    as (_ & _ & _ & Hnext).
  apply (Hnext "ws2"). discriminate.
Defined.

(** The cleanup for ws1 leaves the key of the active workspace and the
    subblock values of the workflow the registry lists. *)
Lemma storage_cleanup_keeps_listed_witness :
  let c' := Registry.cleanupLocalStorageForWorkspace sample_browser sample_runtime "ws1"
              stored_client in
  Registry.localStorage c' !! Registry.ACTIVE_WORKSPACE_KEY
  = Registry.localStorage stored_client !! Registry.ACTIVE_WORKSPACE_KEY
  /\ Registry.localStorage c' !! ("subblock-values-" +:+ "wf1")
     = Registry.localStorage stored_client !! ("subblock-values-" +:+ "wf1").
Proof.
  cbv zeta.
  destruct (storage_cleanup_keeps_listed sample_browser sample_runtime "ws1" stored_client)
    as (Hother & _ & Hlisted & _).
  split.
  - apply Hother. reflexivity.
  - apply (Hlisted "wf1"). vm_compute. eauto.
Defined.

(** Recording the deployment of the active workflow starts one sync and
    leaves the key of the active workspace in browser storage alone. *)
Lemma deployment_status_syncs_once_witness :
  let c' := Registry.setDeploymentStatus sample_browser sample_persistence None true None None
              persisted_client in
  Registry.effects c' = Registry.effects persisted_client ++ [Registry.WorkflowSync]
  /\ Registry.localStorage c' !! Registry.ACTIVE_WORKSPACE_KEY
     = Registry.localStorage persisted_client !! Registry.ACTIVE_WORKSPACE_KEY.
Proof.
  cbv zeta.
  destruct (deployment_status_syncs_once sample_browser sample_persistence None true None None
              persisted_client) as [_ Hsync].
  destruct (Hsync "wf1" eq_refl) as (Heffects & Hstorage & _).
  split; [exact Heffects|]. apply Hstorage. apply active_workspace_key_other.
Defined.
